(** * AajKyaHai Astro API: the calendrical pipeline of [main.py]

    A shallow embedding of the classifier functions
    ([zodiac_from_longitude], [nakshatra_from_longitude],
    [tithi_from_longitudes]) and of the [/astro] endpoint, over a model of
    the Python values they compute with: binary64 floats, unbounded
    integers, [datetime] calendar arithmetic and exceptions. *)

From Stdlib Require Import ZArith Lia List String Ascii Bool.
From Stdlib Require Import QArith Qround.
From Stdlib Require Import Floats.SpecFloat.
Import ListNotations.
Close Scope Q_scope.
Open Scope Z_scope.

(** ** Exceptions

    Python code either returns a value or raises.  Only the exception
    classes that the modelled code can raise are listed. *)

Inductive exn : Type :=
| ValueError            (* strptime mismatch, impossible date, int(nan) *)
| OverflowError         (* int(inf), datetime out of range *)
| ZeroDivisionError
| IndexError
| UnknownTimeZoneError  (* pytz.timezone on an unknown name *)
| SweError.             (* swisseph.Error raised by the ephemeris *)

Inductive result (A : Type) : Type :=
| Ok (a : A)
| Raise (e : exn).
Arguments Ok {A} a.
Arguments Raise {A} e.

Definition bind {A B : Type} (r : result A) (k : A -> result B) : result B :=
  match r with
  | Ok a => k a
  | Raise e => Raise e
  end.

Notation "x <- r ;; k" := (bind r (fun x => k))
  (at level 61, r at next level, right associativity).

(** ** Binary64 floats

    Every finite IEEE 754 double is an integer multiple of [2^-1074], the
    smallest subnormal.  A finite float is stored as that integer, so
    sums, differences, comparisons and [fmod] are integer operations and
    only rounding needs care.  The sign of a zero is not kept: the
    classifier observes floats through comparisons and [int()] only, and
    neither tells [-0.0] from [0.0]. *)

Module F64.

Inductive float : Type :=
| FFin (n : Z)        (* the double of value n * 2^-1074 *)
| FInf (neg : bool)
| FNaN.

(** 1.0 in units of [2^-1074]. *)
Definition one : Z := 2 ^ 1074.

(** First magnitude that no longer rounds to a finite double: 2^1024. *)
Definition overflow_threshold : Z := 2 ^ 2098.

(** Nearest integer to [p / q], ties to the even one ([0 <= p], [0 < q]). *)
Definition round_half_even (p q : Z) : Z :=
  let f := p / q in
  let r := p mod q in
  if 2 * r <? q then f
  else if q <? 2 * r then f + 1
  else if Z.even f then f else f + 1.

(** Below [2^53] units consecutive doubles are one unit apart (subnormals
    and the first binade of normals); above, a double keeps 53 significant
    bits, so the spacing is [2^s] with [s = floor(log2 v) - 52]. *)
Definition spacing_exp (p q : Z) : Z := Z.max 0 (Z.log2 (p / q) - 52).

Definition round_pos (p q : Z) : Z :=
  let s := spacing_exp p q in
  round_half_even p (q * 2 ^ s) * 2 ^ s.

(** Round-to-nearest-even of the rational [p / q] units, [0 < q]. *)
Definition round_q (p q : Z) : float :=
  let r := round_pos (Z.abs p) q in
  if overflow_threshold <=? r then FInf (p <? 0) else FFin (Z.sgn p * r).

Definition round_z (n : Z) : float := round_q n 1.

(** A finite float of the model is a double when rounding leaves it
    unchanged. *)
Definition is_double (x : float) : bool :=
  match x with
  | FFin n => match round_z n with FFin m => n =? m | _ => false end
  | _ => true
  end.

(** [float(i)] for a Python integer (the integers converted in the
    modelled code are small; beyond the float range Python raises
    [OverflowError] where this gives an infinity). *)
Definition of_int (i : Z) : float := round_z (i * one).

(** A decimal or fractional literal [p / q], correctly rounded. *)
Definition of_ratio (p q : Z) : float := round_q (p * one) q.

Definition fadd (x y : float) : float :=
  match x, y with
  | FNaN, _ | _, FNaN => FNaN
  | FInf a, FInf b => if Bool.eqb a b then FInf a else FNaN
  | FInf a, FFin _ => FInf a
  | FFin _, FInf b => FInf b
  | FFin a, FFin b => round_z (a + b)
  end.

Definition fneg (x : float) : float :=
  match x with
  | FFin a => FFin (- a)
  | FInf s => FInf (negb s)
  | FNaN => FNaN
  end.

Definition fsub (x y : float) : float := fadd x (fneg y).

(** C division.  The modelled code never divides by zero here: Python
    raises [ZeroDivisionError] before reaching it (see [truediv],
    [floordiv_mod]); the sign of [x / 0.0] would need the sign of the
    zero, so that case is left as NaN. *)
Definition fdiv (x y : float) : float :=
  match x, y with
  | FNaN, _ | _, FNaN => FNaN
  | FInf _, FInf _ => FNaN
  | FInf a, FFin b => if b =? 0 then FNaN else FInf (xorb a (b <? 0))
  | FFin _, FInf _ => FFin 0
  | FFin a, FFin b =>
      if b =? 0 then FNaN
      else round_q (Z.sgn b * a * one) (Z.abs b)
  end.

(** C [fmod]: exact, with the sign of the dividend. *)
Definition fmod (x y : float) : float :=
  match x, y with
  | FNaN, _ | _, FNaN => FNaN
  | FInf _, _ => FNaN
  | FFin a, FInf _ => FFin a
  | FFin a, FFin b => if b =? 0 then FNaN else FFin (Z.rem a b)
  end.

Definition ffloor (x : float) : float :=
  match x with
  | FFin a => FFin (a / one * one)
  | _ => x
  end.

(** Comparisons; any comparison with NaN is false. *)
Definition flt (x y : float) : bool :=
  match x, y with
  | FNaN, _ | _, FNaN => false
  | FFin a, FFin b => a <? b
  | FFin _, FInf s => negb s
  | FInf s, FFin _ => s
  | FInf a, FInf b => a && negb b
  end.

(** Truth value of a float in a C or Python condition: [x != 0]. *)
Definition nonzero (x : float) : bool :=
  match x with FFin a => negb (a =? 0) | _ => true end.

(** Python [int(x)]: truncation toward zero. *)
Definition to_int (x : float) : result Z :=
  match x with
  | FFin a => Ok (Z.quot a one)
  | FInf _ => Raise OverflowError
  | FNaN => Raise ValueError
  end.

Definition zero : float := FFin 0.
Definition half : float := FFin (2 ^ 1073).
Definition one_f : float := FFin one.

(** CPython [_float_div_mod] (Objects/floatobject.c), the common core of
    [//] and [%] on floats; the divisor is known to be non-zero. *)
Definition float_div_mod (vx wx : float) : float * float :=
  let md := fmod vx wx in
  let div := fdiv (fsub vx md) wx in
  let '(md, div) :=
    if nonzero md then
      (* the remainder takes the sign of the denominator *)
      if negb (Bool.eqb (flt wx zero) (flt md zero))
      then (fadd md wx, fsub div one_f)
      else (md, div)
    else (zero, div) in
  let floordiv :=
    if nonzero div then
      (* snap the quotient to the nearest integral value *)
      let fl := ffloor div in
      if flt half (fsub div fl) then fadd fl one_f else fl
    else zero in
  (floordiv, md).

(** Python [v // w] on floats. *)
Definition floordiv (v w : float) : result float :=
  if nonzero w then Ok (fst (float_div_mod v w)) else Raise ZeroDivisionError.

(** Python [v % w] on floats (CPython [float_rem]). *)
Definition mod_ (v w : float) : result float :=
  if nonzero w then
    let md := fmod v w in
    Ok (if nonzero md then
          if negb (Bool.eqb (flt w zero) (flt md zero)) then fadd md w else md
        else zero)
  else Raise ZeroDivisionError.

(** Python [v / w] on floats. *)
Definition truediv (v w : float) : result float :=
  if nonzero w then Ok (fdiv v w) else Raise ZeroDivisionError.

(** Python [a / b] on integers: the correctly rounded quotient. *)
Definition int_truediv (a b : Z) : result float :=
  if b =? 0 then Raise ZeroDivisionError
  else Ok (round_q (Z.sgn b * a * one) (Z.abs b)).

(** Reading of a model float as a [spec_float] of the Standard Library
    (precision 53, [emax] 1024), used to compare the operations above
    with the library's executable IEEE 754 semantics. *)
Definition to_spec (x : float) : spec_float :=
  match x with
  | FFin 0 => S754_zero false
  | FFin (Zpos p) => binary_normalize 53 1024 (Zpos p) (-1074) false
  | FFin (Zneg p) => SFopp (binary_normalize 53 1024 (Zpos p) (-1074) false)
  | FInf s => S754_infinity s
  | FNaN => S754_nan
  end.

End F64.

Import F64.

(** ** Python containers and integers *)

(** [xs[i]] on a list: a negative index counts from the end, an index out
    of range raises [IndexError]. *)
Definition getitem {A : Type} (xs : list A) (i : Z) : result A :=
  let n := Z.of_nat (List.length xs) in
  let j := if i <? 0 then i + n else i in
  if (j <? 0) || (n <=? j) then Raise IndexError
  else match nth_error xs (Z.to_nat j) with
       | Some x => Ok x
       | None => Raise IndexError
       end.

(** Python [a % b] on integers is [Z.modulo] (floored, sign of [b]). *)
Definition int_mod (a b : Z) : result Z :=
  if b =? 0 then Raise ZeroDivisionError else Ok (a mod b).

(** ** Constants of [main.py]

    Labels are kept as the UTF-8 text of the source. *)

Open Scope string_scope.

Definition label : Type := (string * string)%type.

Definition SIGNS : list label :=
  [ ("मेष", "Aries");
    ("वृषभ", "Taurus");
    ("मिथुन", "Gemini");
    ("कर्क", "Cancer");
    ("सिंह", "Leo");
    ("कन्या", "Virgo");
    ("तुला", "Libra");
    ("वृश्चिक", "Scorpio");
    ("धनु", "Sagittarius");
    ("मकर", "Capricorn");
    ("कुंभ", "Aquarius");
    ("मीन", "Pisces") ].

Definition NAKSHATRAS : list label :=
  [ ("अश्विनी","Ashwini"); ("भरणी","Bharani"); ("कृत्तिका","Krittika");
    ("रोहिणी","Rohini"); ("मृगशिरा","Mrigashira"); ("आर्द्रा","Ardra");
    ("पुनर्वसु","Punarvasu"); ("पुष्य","Pushya"); ("आश्लेषा","Ashlesha");
    ("मघा","Magha"); ("पूर्व फाल्गुनी","Purva Phalguni");
    ("उत्तर फाल्गुनी","Uttara Phalguni"); ("हस्त","Hasta");
    ("चित्रा","Chitra"); ("स्वाती","Swati"); ("विशाखा","Vishakha");
    ("अनुराधा","Anuradha"); ("ज्येष्ठा","Jyeshtha");
    ("मूल","Mula"); ("पूर्वाषाढ़ा","Purva Ashadha");
    ("उत्तराषाढ़ा","Uttara Ashadha"); ("श्रवण","Shravana");
    ("धनिष्ठा","Dhanishta"); ("शतभिषा","Shatabhisha");
    ("पूर्व भाद्रपद","Purva Bhadrapada");
    ("उत्तर भाद्रपद","Uttara Bhadrapada");
    ("रेवती","Revati") ].

Definition TITHIS : list label :=
  [ ("प्रतिपदा","Pratipada"); ("द्वितीया","Dwitiya"); ("तृतीया","Tritiya");
    ("चतुर्थी","Chaturthi"); ("पंचमी","Panchami"); ("षष्ठी","Shashthi");
    ("सप्तमी","Saptami"); ("अष्टमी","Ashtami"); ("नवमी","Navami");
    ("दशमी","Dashami"); ("एकादशी","Ekadashi"); ("द्वादशी","Dwadashi");
    ("त्रयोदशी","Trayodashi"); ("चतुर्दशी","Chaturdashi");
    ("पूर्णिमा","Purnima") ].

Definition shukla_hi : string := "शुक्ल".
Definition krishna_hi : string := "कृष्ण".

Close Scope string_scope.

(** ** Helper functions of [main.py] *)

(** [index = int(lon // 30) % 12] *)
Definition zodiac_index (lon : float) : result Z :=
  q <- floordiv lon (of_int 30) ;;
  i <- to_int q ;;
  int_mod i 12.

Definition zodiac_from_longitude (lon : float) : result label :=
  index <- zodiac_index lon ;;
  getitem SIGNS index.

(** [index = int(lon // (360 / 27)) % 27] *)
Definition nakshatra_index (lon : float) : result Z :=
  w <- int_truediv 360 27 ;;
  q <- floordiv lon w ;;
  i <- to_int q ;;
  int_mod i 27.

Definition nakshatra_from_longitude (lon : float) : result label :=
  index <- nakshatra_index lon ;;
  getitem NAKSHATRAS index.

(** [diff = (moon_lon - sun_lon) % 360.0] *)
Definition tithi_diff (sun_lon moon_lon : float) : result float :=
  mod_ (fsub moon_lon sun_lon) (of_int 360).

(** [tithi_no = int(diff // 12.0)], commented [# 0..29] in the source. *)
Definition tithi_no (sun_lon moon_lon : float) : result Z :=
  diff <- tithi_diff sun_lon moon_lon ;;
  q <- floordiv diff (of_int 12) ;;
  to_int q.

Definition paksha_hi_of (tithi_no : Z) : string :=
  if tithi_no <? 15 then shukla_hi else krishna_hi.

(** The f-string ["{paksha_hi} {tithi[k]}"]. *)
Definition fmt_label (paksha name : string) : string :=
  (paksha ++ " " ++ name)%string.

Definition tithi_from_longitudes (sun_lon moon_lon : float)
  : result (string * string) :=
  tithi_no <- tithi_no sun_lon moon_lon ;;
  let paksha_hi := paksha_hi_of tithi_no in
  i <- int_mod tithi_no 15 ;;
  tithi <- getitem TITHIS i ;;
  Ok (fmt_label paksha_hi (fst tithi), fmt_label paksha_hi (snd tithi)).

(** ** Calendar arithmetic of [datetime]

    The proleptic Gregorian ordinal conversions and the addition of a
    [timedelta], after the reference implementation of the [datetime]
    module.  Microseconds are always zero in the modelled code and are
    left out. *)

Module PyDatetime.

Record datetime : Type := mk_datetime
  { year : Z; month : Z; day : Z; hour : Z; minute : Z; second : Z }.

Definition MINYEAR : Z := 1.
Definition MAXYEAR : Z := 9999.
Definition MAXORDINAL : Z := 3652059.

Definition DAYS_IN_MONTH : list Z :=
  [-1; 31; 28; 31; 30; 31; 30; 31; 31; 30; 31; 30; 31].

Definition DAYS_BEFORE_MONTH : list Z :=
  [-1; 0; 31; 59; 90; 120; 151; 181; 212; 243; 273; 304; 334].

Definition tbl (t : list Z) (i : Z) : Z := nth (Z.to_nat i) t (-1).

Definition is_leap (y : Z) : bool :=
  (y mod 4 =? 0) && (negb (y mod 100 =? 0) || (y mod 400 =? 0)).

Definition days_before_year (yr : Z) : Z :=
  let y := yr - 1 in
  y * 365 + y / 4 - y / 100 + y / 400.

Definition days_in_month (y m : Z) : Z :=
  if (m =? 2) && is_leap y then 29 else tbl DAYS_IN_MONTH m.

Definition days_before_month (y m : Z) : Z :=
  tbl DAYS_BEFORE_MONTH m + (if (2 <? m) && is_leap y then 1 else 0).

Definition ymd2ord (y m d : Z) : Z :=
  days_before_year y + days_before_month y m + d.

Definition DI400Y : Z := 146097.
Definition DI100Y : Z := 36524.
Definition DI4Y : Z := 1461.

Definition ord2ymd (n : Z) : Z * Z * Z :=
  let n := n - 1 in
  let n400 := n / DI400Y in
  let n := n mod DI400Y in
  let yr := n400 * 400 + 1 in
  let n100 := n / DI100Y in
  let n := n mod DI100Y in
  let n4 := n / DI4Y in
  let n := n mod DI4Y in
  let n1 := n / 365 in
  let n := n mod 365 in
  let yr := yr + n100 * 100 + n4 * 4 + n1 in
  if (n1 =? 4) || (n100 =? 4) then (yr - 1, 12, 31)
  else
    let leapyear := (n1 =? 3) && (negb (n4 =? 24) || (n100 =? 3)) in
    let m := Z.shiftr (n + 50) 5 in
    let preceding :=
      tbl DAYS_BEFORE_MONTH m + (if (2 <? m) && leapyear then 1 else 0) in
    if n <? preceding then
      let m := m - 1 in
      let preceding :=
        preceding - (tbl DAYS_IN_MONTH m
                     + (if (m =? 2) && leapyear then 1 else 0)) in
      (yr, m, n - preceding + 1)
    else (yr, m, n - preceding + 1).

(** The checks of the [date] constructor. *)
Definition check_date_fields (y m d : Z) : bool :=
  (MINYEAR <=? y) && (y <=? MAXYEAR) && (1 <=? m) && (m <=? 12)
  && (1 <=? d) && (d <=? days_in_month y m).

(** [datetime(y, m, d)]: midnight of a civil date. *)
Definition new_date (y m d : Z) : result datetime :=
  if check_date_fields y m d then Ok (mk_datetime y m d 0 0 0)
  else Raise ValueError.

Definition toordinal (dt : datetime) : Z :=
  ymd2ord (year dt) (month dt) (day dt).

Definition second_of_day (dt : datetime) : Z :=
  hour dt * 3600 + minute dt * 60 + second dt.

(** [dt + timedelta(seconds=s)] ([datetime.__add__]); [s] may be
    negative, the [timedelta] sum is normalised with floored [divmod]. *)
Definition add_seconds (dt : datetime) (s : Z) : result datetime :=
  let total := second_of_day dt + s in
  let days := toordinal dt + total / 86400 in
  let secs := total mod 86400 in
  let h := secs / 3600 in
  let rem := secs mod 3600 in
  let mi := rem / 60 in
  let se := rem mod 60 in
  if (0 <? days) && (days <=? MAXORDINAL) then
    let '(y, m, d) := ord2ymd days in
    Ok (mk_datetime y m d h mi se)
  else Raise OverflowError.

(** Seconds elapsed since the midnight that starts ordinal day 0, on the
    time line the fields of [dt] are read in. *)
Definition timeline_seconds (dt : datetime) : Z :=
  toordinal dt * 86400 + second_of_day dt.

Definition well_formed (dt : datetime) : bool :=
  check_date_fields (year dt) (month dt) (day dt)
  && (0 <=? hour dt) && (hour dt <? 24)
  && (0 <=? minute dt) && (minute dt <? 60)
  && (0 <=? second dt) && (second dt <? 60).

(** *** Text

    A Python [str] is a sequence of code points.  The model keeps text
    as its UTF-8 bytes (so the labels of [main.py] read as in the
    source); [decode_utf8] gives the code points back.  Bytes that are
    not the UTF-8 encoding of a code point (stray continuation bytes,
    overlong forms, surrogates, values above U+10FFFF) belong to no
    [str]; each is read as U+FFFD, a character that no pattern below
    admits. *)

Definition byte (c : ascii) : Z := Z.of_N (N_of_ascii c).

Definition is_cont (b : Z) : bool := (128 <=? b) && (b <=? 191).

Fixpoint decode_utf8 (s : string) : list Z :=
  match s with
  | EmptyString => []
  | String c0 r0 =>
      let b0 := byte c0 in
      if b0 <? 128 then b0 :: decode_utf8 r0
      else
        match r0 with
        | String c1 r1 =>
            let b1 := byte c1 in
            if (194 <=? b0) && (b0 <=? 223) && is_cont b1
            then ((b0 - 192) * 64 + (b1 - 128)) :: decode_utf8 r1
            else
              match r1 with
              | String c2 r2 =>
                  let b2 := byte c2 in
                  let cp3 :=
                    (b0 - 224) * 4096 + (b1 - 128) * 64 + (b2 - 128) in
                  if (224 <=? b0) && (b0 <=? 239) && is_cont b1
                     && is_cont b2 && (2048 <=? cp3)
                     && negb ((55296 <=? cp3) && (cp3 <=? 57343))
                  then cp3 :: decode_utf8 r2
                  else
                    match r2 with
                    | String c3 r3 =>
                        let b3 := byte c3 in
                        let cp4 :=
                          (b0 - 240) * 262144 + (b1 - 128) * 4096
                          + (b2 - 128) * 64 + (b3 - 128) in
                        if (240 <=? b0) && (b0 <=? 244) && is_cont b1
                           && is_cont b2 && is_cont b3
                           && (65536 <=? cp4) && (cp4 <=? 1114111)
                        then cp4 :: decode_utf8 r3
                        else 65533 :: decode_utf8 r0
                    | EmptyString => 65533 :: decode_utf8 r0
                    end
              | EmptyString => 65533 :: decode_utf8 r0
              end
        | EmptyString => [65533]
        end
  end.

(** *** [datetime.strptime(s, "%Y-%m-%d")]

    The format compiles to the regular expression
    [(\d\d\d\d)-(1[0-2]|0[1-9]|[1-9])-(3[0-1]|[1-2]\d|0[1-9]|[1-9]| [1-9])],
    matched at the start of the text; a match that leaves text over is
    rejected ("unconverted data remains").  Each piece below tries its
    alternatives in order and keeps the first that matches; no later
    alternative can repair a failure that follows (after the month a [-]
    must come, after the day nothing is matched), so this is the
    backtracking matcher's answer.

    On a [str] pattern [\d] admits every Unicode decimal digit (general
    category Nd), and [int()] reads such digits by their decimal value;
    the bracketed classes and the literals are ASCII.  The decimal
    digits come in blocks of ten consecutive code points with the values
    0 to 9; [ND_BLOCKS] lists the first code point of each block, for
    the Unicode Character Database 14.0.0 of CPython 3.11: the ASCII
    digits at 48, then Arabic-Indic at 1632, ..., Devanagari at 2406,
    ..., fullwidth at 65296, ... *)

Definition ND_BLOCKS : list Z :=
  [48; 1632; 1776; 1984; 2406; 2534; 2662; 2790; 2918; 3046; 3174; 3302;
   3430; 3558; 3664; 3792; 3872; 4160; 4240; 6112; 6160; 6470; 6608;
   6784; 6800; 6992; 7088; 7232; 7248; 42528; 43216; 43264; 43472; 43504;
   43600; 44016; 65296; 66720; 68912; 69734; 69872; 69942; 70096; 70384;
   70736; 70864; 71248; 71360; 71472; 71904; 72016; 72784; 73040; 73120;
   92768; 92864; 93008; 120782; 120792; 120802; 120812; 120822; 123200;
   123632; 125264; 130032].

(** [\d]: the value of a decimal digit. *)
Definition digit (c : Z) : option Z :=
  match find (fun b => (b <=? c) && (c <? b + 10)) ND_BLOCKS with
  | Some b => Some (c - b)
  | None => None
  end.

(** A class [[lo-hi]] of ASCII digits, [0 <= lo <= hi <= 9]. *)
Definition digit_in (lo hi : Z) (c : Z) : option Z :=
  if (48 + lo <=? c) && (c <=? 48 + hi) then Some (c - 48) else None.

Definition re_Y (s : list Z) : option (Z * list Z) :=
  match s with
  | a :: b :: c :: d :: rest =>
      match digit a, digit b, digit c, digit d with
      | Some va, Some vb, Some vc, Some vd =>
          Some (1000 * va + 100 * vb + 10 * vc + vd, rest)
      | _, _, _, _ => None
      end
  | _ => None
  end.

(** Two characters [c1 c2] of the classes [p1] and [p2]; the value read
    is [10 * c1 + c2]. *)
Definition two_digits (p1 p2 : Z -> option Z) (s : list Z)
  : option (Z * list Z) :=
  match s with
  | a :: b :: rest =>
      match p1 a, p2 b with
      | Some va, Some vb => Some (10 * va + vb, rest)
      | _, _ => None
      end
  | _ => None
  end.

Definition one_digit (p : Z -> option Z) (s : list Z)
  : option (Z * list Z) :=
  match s with
  | a :: rest =>
      match p a with
      | Some va => Some (va, rest)
      | None => None
      end
  | _ => None
  end.

Definition lit (c : Z) (s : list Z) : option (list Z) :=
  match s with
  | a :: rest => if a =? c then Some rest else None
  | [] => None
  end.

Definition orelse {A : Type} (x y : option A) : option A :=
  match x with Some _ => x | None => y end.

(** [1[0-2]|0[1-9]|[1-9]] *)
Definition re_m (s : list Z) : option (Z * list Z) :=
  orelse (two_digits (digit_in 1 1) (digit_in 0 2) s)
    (orelse (two_digits (digit_in 0 0) (digit_in 1 9) s)
       (one_digit (digit_in 1 9) s)).

(** [3[0-1]|[1-2]\d|0[1-9]|[1-9]| [1-9]]; 32 is the space. *)
Definition re_d (s : list Z) : option (Z * list Z) :=
  orelse (two_digits (digit_in 3 3) (digit_in 0 1) s)
    (orelse (two_digits (digit_in 1 2) digit s)
      (orelse (two_digits (digit_in 0 0) (digit_in 1 9) s)
        (orelse (one_digit (digit_in 1 9) s)
          (match lit 32 s with
           | Some rest => one_digit (digit_in 1 9) rest
           | None => None
           end)))).

(** 45 is the hyphen. *)
Definition match_ymd (s : list Z) : option (Z * Z * Z * list Z) :=
  match re_Y s with
  | Some (y, s1) =>
      match lit 45 s1 with
      | Some s2 =>
          match re_m s2 with
          | Some (m, s3) =>
              match lit 45 s3 with
              | Some s4 =>
                  match re_d s4 with
                  | Some (d, s5) => Some (y, m, d, s5)
                  | None => None
                  end
              | None => None
              end
          | None => None
          end
      | None => None
      end
  | None => None
  end.

Definition strptime_ymd (s : string) : result datetime :=
  match match_ymd (decode_utf8 s) with
  | Some (y, m, d, []) => new_date y m d
  | _ => Raise ValueError
  end.

End PyDatetime.

Import PyDatetime.

(** ** The [/astro] endpoint *)

(** A [pytz] timezone object, as far as the endpoint uses it:
    [localize] attaches to a naive wall-clock time the UTC offset (in
    seconds, east positive) that the zone's rules give it, or raises. *)
Record tzinfo : Type := mk_tzinfo
  { localize : datetime -> result Z }.

(** The bodies the endpoint queries: [swe.SUN] and [swe.MOON]. *)
Inductive body : Type := SUN | MOON.

(** The JSON object returned by [astro]. *)
Record body_json : Type := mk_body_json
  { longitude : float; sign_hi : string; sign_en : string }.

Record bilingual : Type := mk_bilingual
  { hi : string; en : string }.

Record panchang_json : Type := mk_panchang_json
  { tithi : bilingual; nakshatra : bilingual }.

Record response : Type := mk_response
  { r_date : string;
    r_timezone : string;
    r_sun : body_json;
    r_moon : body_json;
    r_panchang : panchang_json }.

Section Astro.

(** The collaborators, which are not part of the repository:
    [pytz.timezone] ([None] stands for [UnknownTimeZoneError]),
    [swe.julday], the longitude [swe.calc_ut(jd, body)[0][0]], and the
    built-in [round(x, 6)]. *)
Variable pytz_timezone : string -> option tzinfo.
Variable julday : Z -> Z -> Z -> float -> float.
Variable calc_ut : float -> body -> result float.
Variable round6 : float -> float.

(** [local_tz.localize(strptime(date, "%Y-%m-%d") + timedelta(hours=6))] *)
Definition anchor_local (date tz : string) : result (datetime * Z) :=
  local_tz <- match pytz_timezone tz with
              | Some z => Ok z
              | None => Raise UnknownTimeZoneError
              end ;;
  parsed <- strptime_ymd date ;;
  naive <- add_seconds parsed (6 * 3600) ;;
  off <- localize local_tz naive ;;
  Ok (naive, off).

(** [dt_utc = dt_local.astimezone(pytz.UTC)] *)
Definition anchor_utc (date tz : string) : result datetime :=
  dt_local <- anchor_local date tz ;;
  add_seconds (fst dt_local) (- snd dt_local).

(** [hour + minute / 60.0 + second / 3600.0] *)
Definition fractional_hour (dt : datetime) : result float :=
  m <- truediv (of_int (minute dt)) (of_int 60) ;;
  s <- truediv (of_int (second dt)) (of_int 3600) ;;
  Ok (fadd (fadd (of_int (hour dt)) m) s).

Definition jd_ut (date tz : string) : result float :=
  dt_utc <- anchor_utc date tz ;;
  h <- fractional_hour dt_utc ;;
  Ok (julday (year dt_utc) (month dt_utc) (day dt_utc) h).

Definition astro (date tz : string) (lat lon : float) : result response :=
  jd <- jd_ut date tz ;;
  sun_lon <- calc_ut jd SUN ;;
  moon_lon <- calc_ut jd MOON ;;
  sun_sign <- zodiac_from_longitude sun_lon ;;
  moon_sign <- zodiac_from_longitude moon_lon ;;
  nak <- nakshatra_from_longitude moon_lon ;;
  tithi <- tithi_from_longitudes sun_lon moon_lon ;;
  Ok {| r_date := date;
        r_timezone := tz;
        r_sun := {| longitude := round6 sun_lon;
                    sign_hi := fst sun_sign;
                    sign_en := snd sun_sign |};
        r_moon := {| longitude := round6 moon_lon;
                     sign_hi := fst moon_sign;
                     sign_en := snd moon_sign |};
        r_panchang := {| tithi := {| hi := fst tithi; en := snd tithi |};
                         nakshatra := {| hi := fst nak; en := snd nak |} |} |}.

End Astro.

(** *** Sample collaborators

    A small timezone table (India has kept UTC+05:30 without daylight
    saving since 1945; [Etc/GMT-9] is the fixed zone nine hours east of
    Greenwich) and stand-ins for the ephemeris, used to run the endpoint
    on concrete requests. *)

Definition fixed_offset (seconds : Z) : tzinfo :=
  {| localize := fun _ => Ok seconds |}.

Definition sample_timezone (tz : string) : option tzinfo :=
  if String.eqb tz "Asia/Kolkata" then Some (fixed_offset 19800)
  else if String.eqb tz "UTC" then Some (fixed_offset 0)
  else if String.eqb tz "Etc/GMT-9" then Some (fixed_offset 32400)
  else None.

Definition sample_julday (y m d : Z) (h : float) : float :=
  fadd (of_int (ymd2ord y m d)) (fdiv h (of_int 24)).

Definition sample_calc_ut (jd : float) (b : body) : result float :=
  match b with
  | SUN => Ok (of_ratio 3171234 10000)
  | MOON => Ok (of_ratio 1952 10)
  end.

Definition sample_round6 (x : float) : float := x.

(** The response to [date=2026-02-06], [tz=Asia/Kolkata] with these
    collaborators. *)
Definition sample_response : response :=
  {| r_date := "2026-02-06";
     r_timezone := "Asia/Kolkata";
     r_sun := {| longitude := of_ratio 3171234 10000;
                 sign_hi := "कुंभ"; sign_en := "Aquarius" |};
     r_moon := {| longitude := of_ratio 1952 10;
                  sign_hi := "तुला"; sign_en := "Libra" |};
     r_panchang :=
       {| tithi := {| hi := "कृष्ण पंचमी"; en := "कृष्ण Panchami" |};
          nakshatra := {| hi := "स्वाती"; en := "Swati" |} |} |}.


(** ** Specification-side definitions

    The formulas of the specification, over exact rationals, to compare
    with what the code computes on doubles. *)

(** The exact value of a finite float. *)
Definition to_Q (x : float) : option Q :=
  match x with
  | FFin a => Some (inject_Z a / inject_Z one)%Q
  | _ => None
  end.

(** [index = floor(lon / 30) mod 12] *)
Definition zodiac_index_spec (lon : Q) : Z :=
  Qfloor (lon / inject_Z 30)%Q mod 12.

(** [index = floor(lon / (360/27)) mod 27] *)
Definition nakshatra_index_spec (lon : Q) : Z :=
  Qfloor (lon / (360 # 27))%Q mod 27.

(** A longitude of the domain: a double in [0, 360). *)
Definition in_domain (x : float) : bool :=
  match x with
  | FFin a => is_double x && (0 <=? a) && (a <? 360 * one)
  | _ => false
  end.

(** Text made of ASCII characters only: a transliteration. *)
Fixpoint all_ascii (s : string) : bool :=
  match s with
  | EmptyString => true
  | String c r => (N_of_ascii c <? 128)%N && all_ascii r
  end.

(** UTF-8 text made of characters of the Devanagari block
    (U+0900..U+097F, encoded E0 A4|A5 80..BF) and spaces. *)
Fixpoint is_devanagari (s : string) : bool :=
  match s with
  | EmptyString => true
  | String a r1 =>
      if Ascii.eqb a " " then is_devanagari r1
      else
        match r1 with
        | String b (String c r3) =>
            (N_of_ascii a =? 224)%N
            && ((N_of_ascii b =? 164)%N || (N_of_ascii b =? 165)%N)
            && (128 <=? N_of_ascii c)%N && (N_of_ascii c <=? 191)%N
            && is_devanagari r3
        | _ => false
        end
  end.

(** *** Inputs used below *)

(** 100.00000000000001, the double that follows 100.0. *)
Definition lon_100_succ : float := FFin (100 * one + 2 ^ 1028).

(** -2^-60, about -8.67e-19. *)
Definition lon_tiny_neg : float := FFin (- 2 ^ 1014).

(** 2^-49, about 1.78e-15. *)
Definition lon_2p_m49 : float := FFin (2 ^ 1025).

(** The largest finite double, about 1.797e308. *)
Definition float_max : float := FFin ((2 ^ 53 - 1) * 2 ^ 2045).

(** ** Decision procedures used in proofs *)

(** [f 0 && f 1 && ... && f (n-1)] *)
Definition forall_below (n : nat) (f : Z -> bool) : bool :=
  forallb (fun i => f (Z.of_nat i)) (seq 0 n).

(** *** The calendar within one year

    The last steps of [ord2ymd]: from the leap flag and the zero-based
    day of the year to month and day; and the month tables as functions
    of the leap flag. *)

Definition days_in_month_leap (leap : bool) (m : Z) : Z :=
  if (m =? 2) && leap then 29 else tbl DAYS_IN_MONTH m.

Definition days_before_month_leap (leap : bool) (m : Z) : Z :=
  tbl DAYS_BEFORE_MONTH m + (if (2 <? m) && leap then 1 else 0).

Definition month_day_of_offset (leapyear : bool) (n : Z) : Z * Z :=
  let m := Z.shiftr (n + 50) 5 in
  let preceding :=
    tbl DAYS_BEFORE_MONTH m + (if (2 <? m) && leapyear then 1 else 0) in
  if n <? preceding then
    let m := m - 1 in
    let preceding :=
      preceding - (tbl DAYS_IN_MONTH m
                   + (if (m =? 2) && leapyear then 1 else 0)) in
    (m, n - preceding + 1)
  else (m, n - preceding + 1).

(** Checks used to settle the finitely many cases by evaluation. *)
Definition offset_ok (leap : bool) (n : Z) : bool :=
  let '(m, d) := month_day_of_offset leap n in
  (1 <=? m) && (m <=? 12) && (1 <=? d) && (d <=? days_in_month_leap leap m)
  && (days_before_month_leap leap m + d =? n + 1).

Definition month_day_ok (leap : bool) (m d : Z) : bool :=
  let '(m', d') :=
    month_day_of_offset leap (days_before_month_leap leap m + d - 1) in
  (m' =? m) && (d' =? d).

Definition month_ok (leap : bool) (m0 : Z) : bool :=
  let m := m0 + 1 in
  (0 <=? days_before_month_leap leap m)
  && (days_before_month_leap leap m + days_in_month_leap leap m
      <=? 365 + (if leap then 1 else 0))
  && forall_below (Z.to_nat (days_in_month_leap leap m))
       (fun d0 => month_day_ok leap m (d0 + 1)).

(** *** Date strings of the shape YYYY-MM-DD *)

(** The character of a decimal digit. *)
Definition digit_char (v : Z) : ascii := ascii_of_N (Z.to_N (48 + v)).

(** The text [abcd-ef-gh] for eight decimal digits. *)
Definition iso_date_string (a b c d e f g h : Z) : string :=
  String (digit_char a) (String (digit_char b) (String (digit_char c)
    (String (digit_char d) (String "-" (String (digit_char e)
      (String (digit_char f) (String "-" (String (digit_char g)
        (String (digit_char h) EmptyString))))))))).

Definition is_digit_char (c : ascii) : bool :=
  (48 <=? byte c) && (byte c <=? 57).

(** The pattern of the specification: four digits, a hyphen, two digits,
    a hyphen, two digits. *)
Definition has_iso_shape (s : string) : bool :=
  match s with
  | String a (String b (String c (String d (String h1 (String e
      (String f (String h2 (String g (String h EmptyString))))))))) =>
      is_digit_char a && is_digit_char b && is_digit_char c
      && is_digit_char d && Ascii.eqb h1 "-" && is_digit_char e
      && is_digit_char f && Ascii.eqb h2 "-" && is_digit_char g
      && is_digit_char h
  | _ => false
  end.

(** *** The date texts that [strptime] accepts

    The three fields of a text [Y-M-D] with the numbers they denote: a
    year of four decimal digits; a month written [1]..[9], [01]..[09] or
    [10]..[12]; a day written [1]..[9], the same after a space or a
    zero, [10]..[29] (the second digit any decimal digit) or [30], [31]. *)

Definition year_field (Y : list Z) : option Z :=
  match Y with
  | [a; b; c; d] =>
      match digit a, digit b, digit c, digit d with
      | Some va, Some vb, Some vc, Some vd =>
          Some (1000 * va + 100 * vb + 10 * vc + vd)
      | _, _, _, _ => None
      end
  | _ => None
  end.

Definition month_field (M : list Z) : option Z :=
  match M with
  | [c] => digit_in 1 9 c
  | [c1; c2] =>
      if c1 =? 48 then digit_in 1 9 c2
      else if c1 =? 49 then option_map (Z.add 10) (digit_in 0 2 c2)
      else None
  | _ => None
  end.

Definition day_field (D : list Z) : option Z :=
  match D with
  | [c] => digit_in 1 9 c
  | [c1; c2] =>
      if (c1 =? 32) || (c1 =? 48) then digit_in 1 9 c2
      else if c1 =? 49 then option_map (Z.add 10) (digit c2)
      else if c1 =? 50 then option_map (Z.add 20) (digit c2)
      else if c1 =? 51 then option_map (Z.add 30) (digit_in 0 1 c2)
      else None
  | _ => None
  end.

(** The code points [t] are a text [Y-M-D] denoting year [y], month [m]
    and day [d]. *)
Definition date_text (t : list Z) (y m d : Z) : Prop :=
  exists Y M D,
    t = Y ++ 45 :: M ++ 45 :: D
    /\ year_field Y = Some y /\ month_field M = Some m
    /\ day_field D = Some d.

(** *** The shifted longitude of the specification

    [(lon + 30*k) mod 360] as Python computes it on a double [lon] and
    an integer [k]: the integer [30*k] is converted to a double, the sum
    is rounded, and [%] is the float remainder. *)
Definition shifted_longitude (lon : float) (k : Z) : result float :=
  mod_ (fadd lon (of_int (30 * k))) (of_int 360).

(** * Properties *)

(** ** The exception monad *)

Lemma bind_ok {A B : Type} (r : result A) (k : A -> result B) (b : B) :
  bind r k = Ok b -> exists a, r = Ok a /\ k a = Ok b.
Proof.
  destruct r as [a|e]; simpl; intro H.
  - exists a. split; [reflexivity | exact H].
  - discriminate H.
Qed.

(** Closed conjunctions of equations, each settled by evaluation. *)
Ltac by_evaluation :=
  repeat match goal with |- _ /\ _ => split end;
  vm_compute; reflexivity.

(** Splits a successful sequence of binds into its steps. *)
Ltac bind_inv H :=
  let x := fresh "x" in
  let Hx := fresh "Hx" in
  apply bind_ok in H; destruct H as [x [Hx H]].

(** Arithmetic goals mention large powers of two, the units of the float
    model; the decision procedures need them as opaque quantities. *)
Ltac is_large n :=
  match eval compute in (64 <? n) with true => idtac end.
Ltac hide_powers :=
  repeat match goal with
         | H : context [2 ^ ?n] |- _ =>
             is_large n; generalize dependent (2 ^ n)
         | |- context [2 ^ ?n] =>
             is_large n; generalize dependent (2 ^ n)
         end;
  intros.
Ltac plia := hide_powers; lia.
Ltac pnia := hide_powers; nia.

Lemma getitem_In {A : Type} (xs : list A) (i : Z) (x : A) :
  getitem xs i = Ok x -> In x xs.
Proof.
  unfold getitem.
  destruct (_ || _); [discriminate|].
  destruct (nth_error xs _) as [y|] eqn:E; [|discriminate].
  intro H. injection H as <-. eapply nth_error_In. exact E.
Qed.

Lemma getitem_nth {A : Type} (xs : list A) (i : Z) :
  0 <= i < Z.of_nat (List.length xs) ->
  exists x, nth_error xs (Z.to_nat i) = Some x /\ getitem xs i = Ok x.
Proof.
  intros [H0 H1]. unfold getitem.
  destruct (i <? 0) eqn:E0; [apply Z.ltb_lt in E0; lia|].
  rewrite E0. simpl.
  destruct (_ <=? i) eqn:E1; [apply Z.leb_le in E1; lia|].
  destruct (nth_error xs (Z.to_nat i)) as [x|] eqn:E.
  - exists x. split; reflexivity.
  - apply nth_error_None in E. lia.
Qed.

(** ** Bounded case analysis by evaluation *)

Lemma forall_below_spec (n : nat) (f : Z -> bool) :
  forall_below n f = true ->
  forall k, 0 <= k < Z.of_nat n -> f k = true.
Proof.
  unfold forall_below. intros H k Hk.
  rewrite forallb_forall in H.
  specialize (H (Z.to_nat k)).
  rewrite Z2Nat.id in H by lia.
  apply H. apply in_seq. lia.
Qed.

(** ** Float operations on finite values *)

Lemma one_pos : 0 < one.
Proof. unfold one. apply Z.pow_pos_nonneg; lia. Qed.

Lemma half_pos : 0 < 2 ^ 1073.
Proof. apply Z.pow_pos_nonneg; lia. Qed.

Lemma round_z_0 : round_z 0 = FFin 0.
Proof. vm_compute. reflexivity. Qed.

Lemma nonzero_fin (a : Z) : a <> 0 -> nonzero (FFin a) = true.
Proof.
  intro H. unfold nonzero. destruct (Z.eqb_spec a 0); [contradiction|reflexivity].
Qed.

Lemma fsub_fin (a b : Z) : fsub (FFin a) (FFin b) = round_z (a - b).
Proof. reflexivity. Qed.

Lemma fmod_fin_nonneg (a w : Z) :
  0 <= a -> 0 < w -> fmod (FFin a) (FFin w) = FFin (a mod w).
Proof.
  intros Ha Hw. unfold fmod.
  destruct (Z.eqb_spec w 0); [lia|].
  rewrite Z.rem_mod_nonneg by lia. reflexivity.
Qed.

Lemma flt_fin (a b : Z) : flt (FFin a) (FFin b) = (a <? b).
Proof. reflexivity. Qed.

(** The snapping step of [float_div_mod] leaves an integral quotient
    unchanged. *)
Lemma snap_integral (k : Z) :
  (if nonzero (FFin (k * one)) then
     if flt half (fsub (FFin (k * one)) (ffloor (FFin (k * one))))
     then fadd (ffloor (FFin (k * one))) one_f
     else ffloor (FFin (k * one))
   else zero) = FFin (k * one).
Proof.
  pose proof one_pos as H1.
  destruct (Z.eq_dec k 0) as [->|Hk].
  - reflexivity.
  - rewrite nonzero_fin by nia.
    unfold ffloor.
    rewrite Z.div_mul by lia.
    rewrite fsub_fin, Z.sub_diag, round_z_0.
    unfold half. rewrite flt_fin.
    pose proof half_pos.
    destruct (Z.ltb_spec (2 ^ 1073) 0); [lia|reflexivity].
Qed.

(** [v // w] for [0 <= v], [0 < w], when the two roundings inside
    [float_div_mod] are exact: the result is [floor(v / w)]. *)
Lemma floordiv_exact (a w k : Z) :
  0 <= a -> 0 < w -> a / w = k ->
  round_z (w * k) = FFin (w * k) ->
  fdiv (FFin (w * k)) (FFin w) = FFin (k * one) ->
  floordiv (FFin a) (FFin w) = Ok (FFin (k * one)).
Proof.
  intros Ha Hw Hk Hsub Hdiv.
  unfold floordiv. rewrite nonzero_fin by lia.
  unfold float_div_mod.
  rewrite fmod_fin_nonneg by assumption.
  rewrite fsub_fin.
  replace (a - a mod w) with (w * k)
    by (rewrite <- Hk; rewrite (Z.div_mod a w) at 2 by lia; lia).
  rewrite Hsub, Hdiv.
  pose proof (Z.mod_pos_bound a w Hw) as Hr.
  assert (Hflt : negb (Bool.eqb (flt (FFin w) zero) (flt (FFin (a mod w)) zero))
                 = false).
  { unfold zero. rewrite !flt_fin.
    destruct (Z.ltb_spec w 0); [lia|].
    destruct (Z.ltb_spec (a mod w) 0); [lia|]. reflexivity. }
  rewrite Hflt.
  destruct (nonzero (FFin (a mod w))); cbv beta iota zeta; cbn [fst];
    rewrite snap_integral; reflexivity.
Qed.

Lemma to_int_integral (k : Z) : to_int (FFin (k * one)) = Ok k.
Proof.
  unfold to_int. rewrite Z.quot_mul; [reflexivity|].
  pose proof one_pos. lia.
Qed.

(** ** Exact roundings *)

Lemma round_half_even_divisible (p q : Z) :
  0 < q -> p mod q = 0 -> round_half_even p q = p / q.
Proof.
  intros Hq Hm. unfold round_half_even. rewrite Hm.
  destruct (Z.ltb_spec (2 * 0) q); [reflexivity|lia].
Qed.

Lemma sgn_mul_abs (n : Z) : Z.sgn n * Z.abs n = n.
Proof. destruct n; simpl; lia. Qed.

(** A value [m * 2^j] with at most 53 significant bits, below the
    overflow threshold, is a double: rounding leaves it unchanged. *)
Lemma round_z_exact (n m j : Z) :
  0 <= j -> 0 <= m < 2 ^ 53 ->
  Z.abs n = m * 2 ^ j ->
  m * 2 ^ j < overflow_threshold ->
  round_z n = FFin n.
Proof.
  intros Hj Hm Hn Ho.
  unfold round_z, round_q, round_pos, spacing_exp.
  rewrite Z.div_1_r, Z.mul_1_l, Hn.
  destruct (Z.eq_dec m 0) as [->|Hm0].
  - assert (n = 0) by lia. subst n. reflexivity.
  - rewrite Z.log2_mul_pow2 by lia.
    assert (Hl : Z.log2 m < 53) by (apply Z.log2_lt_pow2; lia).
    pose proof (Z.log2_nonneg m) as Hl0.
    set (s := Z.max 0 (j + Z.log2 m - 52)).
    assert (Hs : 0 <= s <= j) by (subst s; lia).
    assert (E : m * 2 ^ j = m * 2 ^ (j - s) * 2 ^ s).
    { rewrite <- Z.mul_assoc, <- Z.pow_add_r by lia. do 2 f_equal. lia. }
    assert (Hp : 0 < 2 ^ s) by (apply Z.pow_pos_nonneg; lia).
    rewrite round_half_even_divisible; [|exact Hp|].
    + assert (Ed : m * 2 ^ j / 2 ^ s * 2 ^ s = m * 2 ^ j)
        by (rewrite E at 1; rewrite Z.div_mul by lia; symmetry; exact E).
      rewrite Ed.
      destruct (Z.leb_spec overflow_threshold (m * 2 ^ j)); [lia|].
      rewrite <- Hn, sgn_mul_abs. reflexivity.
    + rewrite E. apply Z.mod_mul. lia.
Qed.

Lemma round_half_even_scale (c p q : Z) :
  0 < c -> 0 < q ->
  round_half_even (c * p) (c * q) = round_half_even p q.
Proof.
  intros Hc Hq. unfold round_half_even.
  rewrite Z.div_mul_cancel_l by lia.
  rewrite Z.mul_mod_distr_l by lia.
  pose proof (Z.mod_pos_bound p q Hq) as Hr.
  set (r := p mod q) in *.
  destruct (Z.ltb_spec (2 * (c * r)) (c * q)), (Z.ltb_spec (2 * r) q);
    try reflexivity; try nia.
  destruct (Z.ltb_spec (c * q) (2 * (c * r))), (Z.ltb_spec q (2 * r));
    try reflexivity; nia.
Qed.

(** Rounding the quotient of [q * t] by [q] is rounding [t]. *)
Lemma round_q_cancel (q t : Z) :
  0 < q -> round_q (q * t) q = round_z t.
Proof.
  intro Hq. unfold round_z, round_q, round_pos, spacing_exp.
  rewrite Z.abs_mul, (Z.abs_eq q) by lia.
  rewrite (Z.mul_comm q (Z.abs t)), Z.div_mul by lia.
  rewrite Z.div_1_r, Z.mul_1_l.
  set (s := Z.max 0 (Z.log2 (Z.abs t) - 52)).
  assert (Hp : 0 < 2 ^ s) by (apply Z.pow_pos_nonneg; subst s; lia).
  rewrite (Z.mul_comm (Z.abs t) q), round_half_even_scale by lia.
  rewrite Z.sgn_mul, (Z.sgn_pos q), Z.mul_1_l by lia.
  replace (q * t <? 0) with (t <? 0); [reflexivity|].
  destruct (Z.ltb_spec t 0), (Z.ltb_spec (q * t) 0); try reflexivity; nia.
Qed.

Lemma pow2_53_one : 2 ^ 53 * one < overflow_threshold.
Proof.
  unfold one, overflow_threshold. rewrite <- Z.pow_add_r by lia.
  apply Z.pow_lt_mono_r; lia.
Qed.

(** Integers below [2^53] in absolute value are doubles. *)
Lemma round_z_integer (k : Z) :
  Z.abs k < 2 ^ 53 -> round_z (k * one) = FFin (k * one).
Proof.
  intro Hk. pose proof one_pos as H1. pose proof pow2_53_one as H2.
  apply (round_z_exact _ (Z.abs k) 1074); try lia.
  - rewrite Z.abs_mul. unfold one. rewrite (Z.abs_eq (2 ^ 1074)); [reflexivity|].
    apply Z.pow_nonneg. lia.
  - fold one. nia.
Qed.

Lemma of_int_exact (k : Z) :
  Z.abs k < 2 ^ 53 -> of_int k = FFin (k * one).
Proof. exact (round_z_integer k). Qed.

(** Dividing an exact multiple: the quotient is exact. *)
Lemma fdiv_exact (w k : Z) :
  0 < w -> Z.abs k < 2 ^ 53 ->
  fdiv (FFin (w * k)) (FFin w) = FFin (k * one).
Proof.
  intros Hw Hk. unfold fdiv.
  destruct (Z.eqb_spec w 0); [lia|].
  rewrite Z.sgn_pos, Z.mul_1_l, Z.abs_eq by lia.
  rewrite <- Z.mul_assoc, round_q_cancel by lia.
  apply round_z_integer. exact Hk.
Qed.

Lemma of_int_30 : of_int 30 = FFin (30 * one).
Proof. apply of_int_exact. simpl. lia. Qed.

Lemma of_int_12 : of_int 12 = FFin (12 * one).
Proof. apply of_int_exact. simpl. lia. Qed.

Lemma of_int_360 : of_int 360 = FFin (360 * one).
Proof. apply of_int_exact. simpl. lia. Qed.

(** [v // w] for [0 <= v] and a divisor [w = c * 1.0] with [c] a
    positive integer, when the quotient is small: [floor(v / w)]. *)
Lemma floordiv_floor (a c : Z) :
  0 <= a -> 0 < c -> c * (a / (c * one)) < 2 ^ 53 ->
  floordiv (FFin a) (FFin (c * one)) = Ok (FFin (a / (c * one) * one)).
Proof.
  intros Ha Hc Hk. pose proof one_pos as H1.
  assert (Hk0 : 0 <= a / (c * one)) by (apply Z.div_pos; nia).
  apply floordiv_exact; try assumption; try reflexivity; try nia.
  - replace (c * one * (a / (c * one))) with (c * (a / (c * one)) * one) by lia.
    apply round_z_integer. nia.
  - apply fdiv_exact; [nia|]. nia.
Qed.

(** ** Rounding error *)

Lemma round_half_even_cases (p q : Z) :
  0 < q ->
  round_half_even p q = p / q \/ round_half_even p q = p / q + 1.
Proof.
  intros _. unfold round_half_even.
  destruct (_ <? q); [left; reflexivity|].
  destruct (q <? _); [right; reflexivity|].
  destruct (Z.even _); [left|right]; reflexivity.
Qed.

(** The nearest integer is within half a unit. *)
Lemma round_half_even_bound (p q : Z) :
  0 < q ->
  2 * Z.abs (round_half_even p q * q - p) <= q.
Proof.
  intro Hq. unfold round_half_even.
  pose proof (Z.div_mod p q ltac:(lia)) as E.
  pose proof (Z.mod_pos_bound p q Hq) as B.
  set (f := p / q) in *. set (r := p mod q) in *.
  destruct (Z.ltb_spec (2 * r) q).
  - replace (f * q - p) with (- r) by lia. lia.
  - destruct (Z.ltb_spec q (2 * r)).
    + replace ((f + 1) * q - p) with (q - r) by lia. lia.
    + destruct (Z.even f).
      * replace (f * q - p) with (- r) by lia. lia.
      * replace ((f + 1) * q - p) with (q - r) by lia. lia.
Qed.

Lemma round_half_even_nonneg (p q : Z) :
  0 <= p -> 0 < q -> 0 <= round_half_even p q.
Proof.
  intros Hp Hq.
  pose proof (Z.div_pos p q Hp Hq).
  destruct (round_half_even_cases p q Hq) as [-> | ->]; lia.
Qed.

(** Integers below [2^1084] units (values below 1024) round to a double
    at most [2^1030] units ([2^-44]) away, and never overflow. *)
Lemma round_z_error (n : Z) :
  Z.abs n < 2 ^ 1084 ->
  exists r, round_z n = FFin r /\ Z.abs (r - n) <= 2 ^ 1030
            /\ (0 <= n -> 0 <= r) /\ (n <= 0 -> r <= 0).
Proof.
  intro Hn.
  unfold round_z, round_q, round_pos, spacing_exp.
  rewrite Z.div_1_r, Z.mul_1_l.
  set (m := Z.abs n) in *.
  assert (Hm : 0 <= m) by (subst m; lia).
  set (s := Z.max 0 (Z.log2 m - 52)).
  assert (Hs : 0 <= s <= 1031).
  { subst s. destruct (Z.eq_dec m 0) as [->|Hm0]; [simpl; lia|].
    assert (Z.log2 m < 1084) by (apply Z.log2_lt_pow2; lia). lia. }
  assert (Hp : 0 < 2 ^ s) by (apply Z.pow_pos_nonneg; lia).
  assert (Hle : 2 ^ s <= 2 ^ 1031) by (apply Z.pow_le_mono_r; lia).
  pose proof (round_half_even_bound m (2 ^ s) Hp) as Hb.
  pose proof (round_half_even_nonneg m (2 ^ s) Hm Hp) as Hr.
  set (h := round_half_even m (2 ^ s)) in *.
  assert (E31 : 2 ^ 1031 = 2 * 2 ^ 1030)
    by (change 1031 with (Z.succ 1030); apply Z.pow_succ_r; lia).
  assert (Hbig : 2 ^ 1084 + 2 ^ 1030 < overflow_threshold).
  { unfold overflow_threshold.
    assert (2 ^ 1030 < 2 ^ 1084) by (apply Z.pow_lt_mono_r; lia).
    assert (2 ^ 1085 <= 2 ^ 2098) by (apply Z.pow_le_mono_r; lia).
    assert (2 ^ 1085 = 2 * 2 ^ 1084)
      by (change 1085 with (Z.succ 1084); apply Z.pow_succ_r; lia).
    lia. }
  assert (Hq : Z.abs (h * 2 ^ s - m) <= 2 ^ 1030) by lia.
  assert (Hnn : 0 <= h * 2 ^ s) by (apply Z.mul_nonneg_nonneg; lia).
  destruct (Z.leb_spec overflow_threshold (h * 2 ^ s)) as [Ho|Ho]; [lia|].
  exists (Z.sgn n * (h * 2 ^ s)).
  split; [reflexivity|].
  subst m. destruct (Z.sgn_spec n) as [[? ->]|[[? ->]|[? ->]]]; lia.
Qed.

(** ** Rounding does not cross a double *)

Lemma round_z_opp (n : Z) : round_z (- n) = fneg (round_z n).
Proof.
  destruct (Z.eq_dec n 0) as [->|Hn]; [reflexivity|].
  unfold round_z, round_q. rewrite Z.abs_opp, Z.sgn_opp.
  destruct (overflow_threshold <=? _).
  - cbn [fneg]. f_equal.
    destruct (Z.ltb_spec (- n) 0), (Z.ltb_spec n 0); try reflexivity; lia.
  - cbn [fneg]. f_equal. lia.
Qed.

(** A non-negative value below a double [B = M * 2^j] rounds to a double
    that is still at most [B]. *)
Lemma round_z_below (n B M j : Z) :
  0 <= n <= B -> 0 <= j -> 0 < M < 2 ^ 53 -> B = M * 2 ^ j ->
  B < overflow_threshold ->
  exists r, round_z n = FFin r /\ 0 <= r <= B /\ (n = 0 <-> r = 0).
Proof.
  intros Hn Hj HM HB Ho.
  destruct (Z.eq_dec n 0) as [->|Hn0].
  { exists 0. split; [exact round_z_0|]. split; [lia|tauto]. }
  unfold round_z, round_q, round_pos, spacing_exp.
  rewrite Z.div_1_r, Z.mul_1_l, (Z.abs_eq n), (Z.sgn_pos n), Z.mul_1_l by lia.
  set (s := Z.max 0 (Z.log2 n - 52)).
  assert (Hl : Z.log2 n <= j + Z.log2 M).
  { rewrite <- Z.log2_mul_pow2 by lia. apply Z.log2_le_mono. lia. }
  assert (HlM : Z.log2 M < 53) by (apply Z.log2_lt_pow2; lia).
  assert (Hs : 0 <= s <= j) by (subst s; lia).
  assert (Hp : 0 < 2 ^ s) by (apply Z.pow_pos_nonneg; lia).
  assert (EB : B = M * 2 ^ (j - s) * 2 ^ s).
  { rewrite HB, <- Z.mul_assoc, <- Z.pow_add_r by lia. do 2 f_equal. lia. }
  set (Q := 2 ^ s) in *. set (b := M * 2 ^ (j - s)) in *.
  assert (Hdiv : n / Q <= b).
  { rewrite <- (Z.div_mul b Q) by lia. apply Z.div_le_mono; lia. }
  pose proof (Z.div_mod n Q ltac:(lia)) as En.
  pose proof (Z.mod_pos_bound n Q Hp) as Bn.
  pose proof (Z.div_pos n Q ltac:(lia) Hp) as Pn.
  pose proof (round_half_even_bound n Q Hp) as Hb.
  assert (Hh : 0 <= round_half_even n Q <= b).
  { destruct (Z.eq_dec (n / Q) b) as [Eq|Ne].
    - assert (Hm0 : n mod Q = 0) by nia.
      rewrite round_half_even_divisible by assumption. lia.
    - destruct (round_half_even_cases n Q Hp) as [-> | ->]; lia. }
  set (h := round_half_even n Q) in *.
  assert (HhQ : 0 <= h * Q <= B) by nia.
  destruct (Z.leb_spec overflow_threshold (h * Q)); [lia|].
  exists (h * Q). split; [reflexivity|]. split; [exact HhQ|].
  split; [lia|]. intro Hz.
  assert (h = 0) by nia. subst h.
  assert (Hs0 : s = 0 \/ 0 < s) by lia.
  destruct Hs0 as [Hs0|Hs0].
  - subst Q. rewrite Hs0 in *. change (2 ^ 0) with 1 in *. lia.
  - (* with a spacing above one unit the value has at least 53 bits *)
    assert (Hlog : 52 < Z.log2 n) by (subst s; lia).
    assert (Hn2 : 2 ^ Z.log2 n <= n) by (apply Z.log2_spec; lia).
    assert (E : 2 ^ Z.log2 n = 2 ^ (Z.log2 n - s) * Q).
    { subst Q. rewrite <- Z.pow_add_r by lia. f_equal. lia. }
    assert (Hbig : 2 ^ 1 <= 2 ^ (Z.log2 n - s))
      by (apply Z.pow_le_mono_r; subst s; lia).
    change (2 ^ 1) with 2 in Hbig. nia.
Qed.

(** ** Agreement with the library's IEEE 754 semantics

    The roundings that decide the theorems below, recomputed with the
    executable binary64 operations of the Standard Library's
    [SpecFloat] (precision 53, [emax] 1024). *)

Lemma float_model_agrees_with_SpecFloat :
  SFsub 53 1024 (to_spec (of_int 100)) (to_spec lon_100_succ)
  = to_spec (fsub (of_int 100) lon_100_succ) /\
  SFadd 53 1024 (to_spec (FFin (- 2 ^ 1028))) (to_spec (of_int 360))
  = to_spec (of_int 360) /\
  SFadd 53 1024 (to_spec lon_tiny_neg) (to_spec (of_int 360))
  = to_spec (of_int 360) /\
  Ok (SFdiv 53 1024 (to_spec (of_int 360)) (to_spec (of_int 27)))
  = bind (int_truediv 360 27) (fun w => Ok (to_spec w)) /\
  SFsub 53 1024 (to_spec (of_int 372)) (to_spec lon_2p_m49)
  = to_spec (of_int 372) /\
  SFsub 53 1024 (to_spec (of_int 12)) (to_spec lon_2p_m49)
  = to_spec (fsub (of_int 12) lon_2p_m49) /\
  SFdiv 53 1024 (to_spec (of_int 30)) (to_spec (of_int 60)) = to_spec half /\
  SFadd 53 1024 (to_spec float_max) (to_spec float_max) = S754_infinity false.
Proof.
  by_evaluation.
Qed.

(** ** The specification's formulas on exact values *)

Lemma Qfloor_div_units (a c : Z) :
  0 < c ->
  Qfloor (inject_Z a / inject_Z one / inject_Z c)%Q = a / (c * one).
Proof.
  intro Hc. pose proof one_pos as H1.
  destruct one as [|p|p] eqn:E1; try lia.
  destruct c as [|q|q]; try lia.
  unfold Qdiv, Qmult, Qinv, inject_Z, Qfloor. cbn [Qnum Qden].
  rewrite !Z.mul_1_r, !Pos.mul_1_l.
  rewrite Pos2Z.inj_mul. f_equal. lia.
Qed.

(** The exact formula [floor(lon / 30) mod 12] on the value of a float. *)
Lemma zodiac_index_spec_units (a : Z) :
  zodiac_index_spec (inject_Z a / inject_Z one)%Q = (a / (30 * one)) mod 12.
Proof.
  unfold zodiac_index_spec. rewrite Qfloor_div_units by lia. reflexivity.
Qed.

(** ** Zodiac: thirty-degree sectors *)

Lemma sector_bounds (a w n : Z) :
  0 < w -> 0 <= a < n * w -> 0 <= a / w < n.
Proof.
  intros Hw [H0 H1]. split.
  - apply Z.div_pos; lia.
  - apply Z.div_lt_upper_bound; lia.
Qed.

(** On [0, 360) the code's index is [floor(lon / 30)]. *)
Lemma zodiac_index_in_domain (a : Z) :
  0 <= a < 360 * one ->
  zodiac_index (FFin a) = Ok (a / (30 * one)).
Proof.
  intro Ha. pose proof one_pos as H1.
  assert (Hk : 0 <= a / (30 * one) < 12)
    by (apply sector_bounds; lia).
  assert (P53 : 2 ^ 53 = 9007199254740992) by reflexivity.
  unfold zodiac_index. rewrite of_int_30.
  rewrite floordiv_floor by lia.
  cbn [bind]. rewrite to_int_integral. cbn [bind].
  unfold int_mod. cbn [Z.eqb].
  rewrite Z.mod_small by assumption. reflexivity.
Qed.

(** The exact sector of [(lon + 30 k) mod 360]. *)
Lemma sector_shift (a k w : Z) :
  0 < w ->
  ((a + w * k) mod (12 * w)) / w = (a / w + k) mod 12.
Proof.
  intro Hw.
  replace (12 * w) with (w * 12) by lia.
  rewrite Z.rem_mul_r by lia.
  rewrite (Z.mul_comm w ((_ / w) mod 12)).
  rewrite Z.div_add by lia.
  rewrite Z.div_small by (apply Z.mod_pos_bound; lia).
  rewrite (Z.mul_comm w k), Z.div_add by lia.
  reflexivity.
Qed.

Lemma SIGNS_NoDup : NoDup SIGNS.
Proof.
  unfold SIGNS.
  repeat (constructor; [simpl; intuition discriminate|]).
  constructor.
Qed.

Lemma SIGNS_index_injective (i j : Z) :
  0 <= i < 12 -> 0 <= j < 12 ->
  getitem SIGNS i = getitem SIGNS j -> i = j.
Proof.
  intros Hi Hj H.
  destruct (getitem_nth SIGNS i) as [x [Hx Hgx]]; [exact Hi|].
  destruct (getitem_nth SIGNS j) as [y [Hy Hgy]]; [exact Hj|].
  rewrite Hgx, Hgy in H. injection H as <-.
  assert (E : Z.to_nat i = Z.to_nat j).
  { apply (proj1 (NoDup_nth_error SIGNS) SIGNS_NoDup).
    - apply nth_error_Some. congruence.
    - congruence. }
  lia.
Qed.

(** ** Rounding between two doubles *)

(** Rounding does not go below a double that the value reaches. *)
Lemma round_z_lower (n A M j r : Z) :
  0 < A <= n -> A = M * 2 ^ j -> 0 < M < 2 ^ 53 -> 0 <= j ->
  round_z n = FFin r -> A <= r.
Proof.
  intros Hn HA HM Hj.
  unfold round_z, round_q, round_pos, spacing_exp.
  rewrite Z.div_1_r, Z.mul_1_l, (Z.abs_eq n), (Z.sgn_pos n), Z.mul_1_l
    by lia.
  set (s := Z.max 0 (Z.log2 n - 52)).
  assert (Hs0 : 0 <= s) by (subst s; lia).
  assert (Hp : 0 < 2 ^ s) by (apply Z.pow_pos_nonneg; lia).
  pose proof (Z.div_pos n (2 ^ s) ltac:(lia) Hp) as Pn.
  assert (Hh : n / 2 ^ s <= round_half_even n (2 ^ s))
    by (destruct (round_half_even_cases n (2 ^ s) Hp) as [-> | ->]; lia).
  set (h := round_half_even n (2 ^ s)) in *.
  destruct (overflow_threshold <=? h * 2 ^ s); [discriminate|].
  intro E. injection E as <-.
  destruct (Z_le_gt_dec s j) as [Hsj|Hsj].
  - assert (EA : A = M * 2 ^ (j - s) * 2 ^ s).
    { rewrite HA, <- Z.mul_assoc, <- Z.pow_add_r by lia.
      do 2 f_equal. lia. }
    assert (Hb : M * 2 ^ (j - s) <= n / 2 ^ s).
    { apply Z.div_le_lower_bound; [exact Hp|].
      rewrite Z.mul_comm, <- EA. lia. }
    rewrite EA. apply Z.mul_le_mono_nonneg_r; lia.
  - assert (Es : s = Z.log2 n - 52) by (subst s; lia).
    assert (Hl : 2 ^ Z.log2 n <= n) by (apply Z.log2_spec; lia).
    assert (E2 : 2 ^ Z.log2 n = 2 ^ 52 * 2 ^ s).
    { rewrite <- Z.pow_add_r by lia. f_equal. lia. }
    assert (Hq : 2 ^ 52 <= n / 2 ^ s).
    { apply Z.div_le_lower_bound; [exact Hp|].
      rewrite Z.mul_comm, <- E2. exact Hl. }
    assert (HA2 : A <= 2 ^ 52 * 2 ^ s).
    { assert (L1 : 2 ^ (j + 1) <= 2 ^ s) by (apply Z.pow_le_mono_r; lia).
      assert (E3 : 2 ^ (j + 1) = 2 * 2 ^ j)
        by (rewrite Z.pow_add_r by lia; lia).
      assert (P52 : 2 ^ 53 = 2 * 2 ^ 52) by reflexivity.
      assert (Pj : 0 < 2 ^ j) by (apply Z.pow_pos_nonneg; lia).
      assert (L2 : M * 2 ^ j <= 2 ^ 52 * (2 * 2 ^ j)).
      { assert (M * 2 ^ j <= 2 * 2 ^ 52 * 2 ^ j)
          by (apply Z.mul_le_mono_nonneg_r; lia).
        lia. }
      assert (L3 : 2 ^ 52 * (2 * 2 ^ j) <= 2 ^ 52 * 2 ^ s)
        by (apply Z.mul_le_mono_nonneg_l; lia).
      lia. }
    assert (L4 : 2 ^ 52 * 2 ^ s <= h * 2 ^ s)
      by (apply Z.mul_le_mono_nonneg_r; lia).
    lia.
Qed.

(** A value between two integral doubles of one sign rounds to a double
    between them. *)
Lemma round_z_between_integers (n c1 c2 : Z) :
  c1 * one <= n <= c2 * one ->
  Z.abs c1 < 2 ^ 53 -> Z.abs c2 < 2 ^ 53 -> 0 <= c1 \/ c2 <= 0 ->
  exists r, round_z n = FFin r /\ c1 * one <= r <= c2 * one.
Proof.
  assert (P53 : 2 ^ 53 = 9007199254740992) by reflexivity.
  assert (Hpos : forall n c1 c2 : Z,
             c1 * one <= n <= c2 * one -> 0 <= c1 < 2 ^ 53 -> c2 < 2 ^ 53 ->
             exists r, round_z n = FFin r /\ c1 * one <= r <= c2 * one).
  { clear n c1 c2. intros n c1 c2 Hn H1 H2. pose proof one_pos as Ho.
    pose proof pow2_53_one as H53.
    assert (Hc1 : 0 <= c1 * one) by (apply Z.mul_nonneg_nonneg; lia).
    destruct (Z.eq_dec c2 0) as [->|Hc2].
    { assert (n = 0) by lia. subst n. exists 0.
      split; [exact round_z_0|]. lia. }
    assert (Hc2' : 0 < c2).
    { destruct (Z_lt_le_dec 0 c2) as [?|Hle]; [assumption|].
      assert (c2 * one <= 0 * one)
        by (apply Z.mul_le_mono_nonneg_r; lia).
      assert (n = 0) by lia.
      assert (c2 * one = 0) by lia.
      assert (c2 = 0) by (apply Z.mul_eq_0_l with one; lia). lia. }
    assert (Hov : c2 * one < overflow_threshold).
    { assert (c2 * one < 2 ^ 53 * one)
        by (apply Z.mul_lt_mono_pos_r; lia). lia. }
    destruct (round_z_below n (c2 * one) c2 1074)
      as (r & Er & Hr & _); [lia|lia|lia|reflexivity|exact Hov|].
    exists r. split; [exact Er|]. split; [|lia].
    destruct (Z.eq_dec c1 0) as [->|Hc10]; [lia|].
    assert (0 < c1 * one) by (apply Z.mul_pos_pos; lia).
    apply (round_z_lower n (c1 * one) c1 1074 r);
      [lia|reflexivity|lia|lia|exact Er]. }
  intros Hn H1 H2 [Hs|Hs].
  - apply Hpos; [exact Hn|lia|lia].
  - destruct (Hpos (- n) (- c2) (- c1)) as (r & Er & Hr); try lia.
    exists (- r). split; [|lia].
    rewrite <- (Z.opp_involutive n), round_z_opp, Er. reflexivity.
Qed.

(** ** The longitude shifted by [30 * k] degrees *)

Lemma mod_fin (x w : Z) :
  0 < w ->
  mod_ (FFin x) (FFin w)
  = Ok (if Z.rem x w <? 0 then round_z (Z.rem x w + w) else FFin (Z.rem x w)).
Proof.
  intro Hw. unfold mod_. rewrite nonzero_fin by lia.
  unfold fmod. destruct (Z.eqb_spec w 0); [lia|].
  unfold nonzero, zero. rewrite !flt_fin.
  destruct (Z.ltb_spec w 0); [lia|].
  destruct (Z.eqb_spec (Z.rem x w) 0) as [E|E]; cbn [negb].
  - rewrite E. reflexivity.
  - destruct (Z.ltb_spec (Z.rem x w) 0); reflexivity.
Qed.

Lemma rem_nonpos (x w : Z) :
  x <= 0 -> 0 < w -> Z.rem x w = - ((- x) mod w).
Proof.
  intros Hx Hw.
  rewrite <- (Z.opp_involutive x) at 1.
  rewrite Z.rem_opp_l by lia.
  rewrite Z.rem_mod_nonneg by lia. reflexivity.
Qed.

(** The float remainder in terms of the floored one. *)
Lemma rem_modulo (s w : Z) :
  0 < w ->
  (if Z.rem s w <? 0 then Z.rem s w + w else Z.rem s w) = s mod w.
Proof.
  intro Hw.
  destruct (Z_le_gt_dec 0 s) as [Hs|Hs].
  - rewrite Z.rem_mod_nonneg by lia.
    pose proof (Z.mod_pos_bound s w Hw).
    destruct (Z.ltb_spec (s mod w) 0); lia.
  - rewrite rem_nonpos by lia.
    pose proof (Z.mod_pos_bound (- s) w Hw) as Hb.
    destruct (Z.eq_dec ((- s) mod w) 0) as [E|E].
    + rewrite E. cbn. rewrite <- (Z.opp_involutive s) at 1.
      rewrite (Z.mod_opp_l_z (- s) w) by lia. reflexivity.
    + destruct (Z.ltb_spec (- ((- s) mod w)) 0); [|lia].
      rewrite <- (Z.opp_involutive s) at 2.
      rewrite (Z.mod_opp_l_nz (- s) w) by lia. lia.
Qed.

Lemma mod_fin_modulo (s w : Z) :
  0 < w ->
  mod_ (FFin s) (FFin w)
  = Ok (if Z.rem s w <? 0 then round_z (s mod w) else FFin (s mod w)).
Proof.
  intro Hw. rewrite mod_fin by exact Hw.
  pose proof (rem_modulo s w Hw) as E.
  destruct (Z.rem s w <? 0); rewrite E; reflexivity.
Qed.

(** The sector of a reduced value is the reduced sector. *)
Lemma sector_of_mod (s w : Z) :
  0 < w -> (s mod (12 * w)) / w = (s / w) mod 12.
Proof.
  intro Hw. pose proof (sector_shift s 0 w Hw) as E.
  rewrite Z.mul_0_r, !Z.add_0_r in E. exact E.
Qed.

Lemma sector_lo_hi (a w : Z) :
  0 < w -> w * (a / w) <= a < w * (a / w + 1).
Proof.
  intro Hw.
  pose proof (Z.div_mod a w ltac:(lia)) as E.
  pose proof (Z.mod_pos_bound a w Hw) as B. lia.
Qed.

Lemma sector_unique (a w q : Z) :
  0 < w -> w * q <= a < w * (q + 1) -> a / w = q.
Proof.
  intros Hw Ha. symmetry.
  apply (Z.div_unique a w q (a - w * q)); lia.
Qed.

(** A value of the sector [q], or its upper end, reduced modulo twelve
    sectors and then moved within its sector [q'] (upper end included,
    a sector start being kept): the result is of sector [q] modulo 12,
    or it is the start of the next one. *)
Lemma sector_after_rounding (w s x q : Z) :
  0 < w -> w * q <= s <= w * (q + 1) ->
  let y := s mod (12 * w) in
  w * (y / w) <= x <= w * (y / w + 1) ->
  (y = w * (y / w) -> x = y) ->
  (x / w) mod 12 = q mod 12
  \/ ((x / w) mod 12 = (q + 1) mod 12 /\ x mod w = 0).
Proof.
  intros Hw Hs y Bx Hexact.
  pose proof (sector_of_mod s w Hw) as Eq'. fold y in Eq'.
  pose proof (Z.mod_pos_bound (s / w) 12 ltac:(lia)) as Bq'.
  set (q' := y / w) in *.
  destruct (Z.eq_dec s (w * (q + 1))) as [Esb|Esb].
  - right.
    assert (Esq : s / w = q + 1)
      by (rewrite Esb, Z.mul_comm; apply Z.div_mul; lia).
    assert (Ey : y = w * q').
    { rewrite Eq', Esq. subst y. rewrite Esb, (Z.mul_comm 12 w).
      apply Z.mul_mod_distr_l; lia. }
    rewrite (Hexact Ey), Ey.
    rewrite (Z.mul_comm w q'), Z.div_mul, Z.mod_mul by lia.
    split; [|reflexivity].
    rewrite Eq', Esq. apply Z.mod_mod. lia.
  - assert (Esq : s / w = q) by (apply sector_unique; lia).
    rewrite Esq in Eq'.
    destruct (Z.eq_dec x (w * (q' + 1))) as [Ex|Ex].
    + right. rewrite Ex.
      rewrite (Z.mul_comm w (q' + 1)), Z.div_mul, Z.mod_mul by lia.
      split; [|reflexivity].
      rewrite Eq'. apply Z.add_mod_idemp_l. lia.
    + left.
      assert (Exq : x / w = q') by (apply sector_unique; lia).
      rewrite Exq, Eq'. apply Z.mod_mod. lia.
Qed.

(** Up to 360.0 included, the code's index is [floor(lon / 30) mod 12]. *)
Lemma zodiac_index_upto_360 (x : Z) :
  0 <= x <= 360 * one ->
  zodiac_index (FFin x) = Ok ((x / (30 * one)) mod 12).
Proof.
  intro Hx. pose proof one_pos as H1.
  assert (Hk : 0 <= x / (30 * one) < 13) by (apply sector_bounds; lia).
  assert (P53 : 2 ^ 53 = 9007199254740992) by reflexivity.
  unfold zodiac_index. rewrite of_int_30.
  rewrite floordiv_floor by lia.
  cbn [bind]. rewrite to_int_integral. reflexivity.
Qed.

(** [(lon + 30 k) mod 360] in doubles lands in the sector [k] places on,
    or exactly on the boundary that ends it. *)
Lemma shifted_longitude_sector (a k : Z) :
  0 <= a < 360 * one -> Z.abs k < 2 ^ 48 ->
  exists x,
    shifted_longitude (FFin a) k = Ok (FFin x)
    /\ 0 <= x <= 360 * one
    /\ ((x / (30 * one)) mod 12 = (a / (30 * one) + k) mod 12
        \/ ((x / (30 * one)) mod 12 = (a / (30 * one) + k + 1) mod 12
            /\ x mod (30 * one) = 0)).
Proof.
  intros Ha Hk. pose proof one_pos as H1.
  assert (P53 : 2 ^ 53 = 9007199254740992) by reflexivity.
  assert (P48 : 2 ^ 48 = 281474976710656) by reflexivity.
  assert (Hw : 0 < 30 * one) by lia.
  assert (Hi : 0 <= a / (30 * one) < 12) by (apply sector_bounds; lia).
  pose proof (sector_lo_hi a (30 * one) Hw) as Ea.
  set (i := a / (30 * one)) in *. set (q := i + k).
  unfold shifted_longitude.
  rewrite (of_int_exact (30 * k)) by lia. rewrite of_int_360. cbn [fadd].
  destruct (round_z_between_integers (a + 30 * k * one)
              (30 * q) (30 * (q + 1))) as (s & Es & Hs);
    [subst q; lia|subst q; lia|subst q; lia|subst q; lia|].
  rewrite Es, mod_fin_modulo by lia.
  replace (360 * one) with (12 * (30 * one)) by lia.
  pose proof (Z.mod_pos_bound s (12 * (30 * one)) ltac:(lia)) as By.
  pose proof (sector_of_mod s (30 * one) Hw) as Eq'.
  pose proof (Z.mod_pos_bound (s / (30 * one)) 12 ltac:(lia)) as Bq'.
  pose proof (sector_lo_hi (s mod (12 * (30 * one))) (30 * one) Hw) as Ey.
  set (y := s mod (12 * (30 * one))) in *.
  set (q' := y / (30 * one)) in *.
  assert (Hx : exists x,
             (if Z.rem s (12 * (30 * one)) <? 0
              then round_z y else FFin y) = FFin x
             /\ 30 * one * q' <= x <= 30 * one * (q' + 1)
             /\ (y = 30 * one * q' -> x = y)).
  { destruct (Z.rem s (12 * (30 * one)) <? 0).
    - destruct (round_z_between_integers y (30 * q') (30 * (q' + 1)))
        as (x & Ex & Bx); [lia|lia|lia|lia|].
      exists x. split; [exact Ex|]. split; [lia|].
      intro Eyq.
      assert (Er : round_z y = FFin y).
      { rewrite Eyq. replace (30 * one * q') with (30 * q' * one) by lia.
        apply round_z_integer. lia. }
      congruence.
    - exists y. split; [reflexivity|]. split; [lia|]. reflexivity. }
  destruct Hx as (x & -> & Bx & Hexact).
  assert (Bq : 0 <= q' < 12) by (subst q'; rewrite Eq'; exact Bq').
  assert (B0 : 0 <= 30 * one * q') by (apply Z.mul_nonneg_nonneg; lia).
  assert (B12 : 30 * one * (q' + 1) <= 30 * one * 12)
    by (apply Z.mul_le_mono_nonneg_l; lia).
  exists x. split; [reflexivity|]. split; [lia|].
  apply (sector_after_rounding (30 * one) s x q); try assumption.
  lia.
Qed.

Lemma mod12_fixed (i c : Z) :
  0 <= i < 12 -> (i + c) mod 12 = i -> c mod 12 = 0.
Proof.
  intros Hi H.
  pose proof (Z.div_mod (i + c) 12 ltac:(lia)) as E. rewrite H in E.
  replace c with ((i + c) / 12 * 12) by lia.
  apply Z.mod_mul. lia.
Qed.

(** C4, as the code has it.  For every longitude [a * 2^-1074] in
    [0, 360), the doubles among them, the index is [floor(lon / 30)],
    within 0..11 and equal to the specification's
    [floor(lon / 30) mod 12] on the exact value, and
    [zodiac_from_longitude] returns that entry of the twelve-sign table,
    whose entry 0 is Aries.
    Moving the longitude by [30 * k] degrees moves the sign [k] places
    along the cycle.  With the shift taken exactly (reduced modulo 360)
    the sign is the same exactly when [k] is a multiple of 12.  With
    the shift computed in doubles, [(lon + 30*k) % 360] for an integer
    [k] below [2^48] in magnitude, the index is [(floor(lon/30) + k) mod
    12] again, or one more when a rounding puts the shifted longitude
    exactly on the multiple of 30 that ends its sector; it is the
    former whenever the computed value is the exact one.  Either way the
    sign differs from that of [lon] unless [k mod 12] is 0 or 11: the
    period is 360 degrees, not 30. *)
Theorem zodiac_sector_and_shift (a : Z) :
  0 <= a < 360 * one ->
  let i := a / (30 * one) in
  0 <= i < 12 /\
  List.length SIGNS = 12%nat /\
  nth_error SIGNS 0 = Some ("मेष"%string, "Aries"%string) /\
  zodiac_index (FFin a) = Ok i /\
  zodiac_index_spec (inject_Z a / inject_Z one)%Q = i /\
  (exists sign, nth_error SIGNS (Z.to_nat i) = Some sign /\
                zodiac_from_longitude (FFin a) = Ok sign) /\
  (forall k a' : Z,
    a' = (a + 30 * one * k) mod (360 * one) ->
    0 <= a' < 360 * one /\
    zodiac_index (FFin a') = Ok ((i + k) mod 12) /\
    (zodiac_from_longitude (FFin a') = zodiac_from_longitude (FFin a)
     <-> k mod 12 = 0)) /\
  (forall k : Z,
    Z.abs k < 2 ^ 48 ->
    exists x j,
      shifted_longitude (FFin a) k = Ok (FFin x) /\
      0 <= x <= 360 * one /\
      zodiac_index (FFin x) = Ok j /\
      (j = (i + k) mod 12
       \/ (j = (i + k + 1) mod 12 /\ x mod (30 * one) = 0)) /\
      (x = (a + 30 * one * k) mod (360 * one) -> j = (i + k) mod 12) /\
      (k mod 12 <> 0 -> k mod 12 <> 11 ->
       zodiac_from_longitude (FFin x) <> zodiac_from_longitude (FFin a))).
Proof.
  intros Ha i. pose proof one_pos as H1.
  assert (Hi : 0 <= i < 12) by (apply sector_bounds; lia).
  split; [exact Hi|].
  split; [reflexivity|].
  split; [reflexivity|].
  split; [apply zodiac_index_in_domain; exact Ha|].
  split; [rewrite zodiac_index_spec_units; apply Z.mod_small; exact Hi|].
  split; [|split].
  - destruct (getitem_nth SIGNS i) as [x [Hx Hgx]]; [exact Hi|].
    exists x. split; [exact Hx|].
    unfold zodiac_from_longitude.
    rewrite zodiac_index_in_domain by exact Ha. exact Hgx.
  - intros k a' Ha'.
    assert (Hr : 0 <= a' < 360 * one)
      by (subst a'; apply Z.mod_pos_bound; lia).
    assert (Hi' : a' / (30 * one) = (i + k) mod 12).
    { subst a'. replace (360 * one) with (12 * (30 * one)) by lia.
      apply sector_shift. lia. }
    split; [exact Hr|].
    split; [rewrite zodiac_index_in_domain by exact Hr; congruence|].
    unfold zodiac_from_longitude.
    rewrite (zodiac_index_in_domain a') by exact Hr.
    rewrite (zodiac_index_in_domain a) by exact Ha.
    cbn [bind]. rewrite Hi'. fold i.
    pose proof (Z.mod_pos_bound (i + k) 12 ltac:(lia)) as Hm.
    split.
    + intro H. apply SIGNS_index_injective in H; [|exact Hm|exact Hi].
      apply Z.mod_divide; [lia|].
      exists ((i + k) / 12).
      pose proof (Z.div_mod (i + k) 12 ltac:(lia)). lia.
    + intro H. apply Z.mod_divide in H; [|lia]. destruct H as [c ->].
      rewrite Z.mod_add by lia. rewrite Z.mod_small by exact Hi.
      reflexivity.
  - intros k Hk.
    destruct (shifted_longitude_sector a k Ha Hk) as (x & Ex & Bx & Hj).
    fold i in Hj.
    pose proof (zodiac_index_upto_360 x Bx) as Ez.
    set (j := (x / (30 * one)) mod 12) in *.
    assert (Bj : 0 <= j < 12) by (subst j; apply Z.mod_pos_bound; lia).
    exists x, j.
    split; [exact Ex|]. split; [exact Bx|]. split; [exact Ez|].
    split; [exact Hj|]. split.
    + intro Exact.
      assert (Hs : x / (30 * one) = (i + k) mod 12).
      { rewrite Exact. replace (360 * one) with (12 * (30 * one)) by lia.
        apply sector_shift. lia. }
      subst j. rewrite Hs. apply Z.mod_mod. lia.
    + intros Hk0 Hk11 Heq.
      unfold zodiac_from_longitude in Heq.
      rewrite Ez, (zodiac_index_in_domain a) in Heq by exact Ha.
      cbn [bind] in Heq. fold i in Heq.
      apply SIGNS_index_injective in Heq; [|exact Bj|exact Hi].
      destruct Hj as [Hj|[Hj _]]; rewrite Heq in Hj; symmetry in Hj.
      * exact (Hk0 (mod12_fixed i k Hi Hj)).
      * replace (i + k + 1) with (i + (k + 1)) in Hj by lia.
        apply (mod12_fixed i (k + 1) Hi) in Hj.
        apply Hk11.
        pose proof (Z.div_mod (k + 1) 12 ltac:(lia)) as E.
        rewrite Hj in E.
        symmetry. apply (Z.mod_unique k 12 ((k + 1) / 12 - 1) 11); lia.
Qed.

(** The claim's own instance: adding 30 degrees to longitude 0 gives
    Taurus, not Aries.  Whole turns need not preserve the sign either
    when they are added in doubles: 29.999999999999996, the double
    before 30.0, is in Aries, and [(lon + 30*12) % 360] is 30.0, in
    Taurus.  And for [k = 2^50 + 3], where [30 * k] is no longer a
    double, the shifted sign is 6 places on, not [k mod 12 = 7]. *)
Lemma zodiac_not_30_periodic :
  in_domain (of_int 0) = true /\
  in_domain (of_int ((0 + 30 * 1) mod 360)) = true /\
  zodiac_from_longitude (of_int 0) = Ok ("मेष"%string, "Aries"%string) /\
  zodiac_from_longitude (of_int ((0 + 30 * 1) mod 360))
    = Ok ("वृषभ"%string, "Taurus"%string) /\
  zodiac_from_longitude (of_int 0)
    <> zodiac_from_longitude (of_int ((0 + 30 * 1) mod 360)) /\
  shifted_longitude (of_int 0) 1 = Ok (of_int 30) /\
  in_domain (FFin (30 * one - 2 ^ 1026)) = true /\
  of_ratio 29999999999999996 1000000000000000 = FFin (30 * one - 2 ^ 1026) /\
  zodiac_from_longitude (FFin (30 * one - 2 ^ 1026))
    = Ok ("मेष"%string, "Aries"%string) /\
  shifted_longitude (FFin (30 * one - 2 ^ 1026)) 12 = Ok (of_int 30) /\
  shifted_longitude (of_int 0) (2 ^ 50 + 3) = Ok (of_int 208) /\
  zodiac_index (of_int 208) = Ok 6 /\
  (0 + (2 ^ 50 + 3)) mod 12 = 7.
Proof.
  assert (E0 : zodiac_from_longitude (of_int 0)
               = Ok ("मेष"%string, "Aries"%string))
    by (vm_compute; reflexivity).
  assert (E1 : zodiac_from_longitude (of_int ((0 + 30 * 1) mod 360))
               = Ok ("वृषभ"%string, "Taurus"%string))
    by (vm_compute; reflexivity).
  split; [vm_compute; reflexivity|].
  split; [vm_compute; reflexivity|].
  split; [exact E0|]. split; [exact E1|].
  split; [rewrite E0, E1; discriminate|].
  by_evaluation.
Qed.

Lemma zodiac_sector_and_shift_witness :
  0 <= 45 * one < 360 * one /\
  zodiac_index (FFin (45 * one)) = Ok 1 /\
  zodiac_index (FFin ((45 * one + 30 * one * 13) mod (360 * one)))
    = Ok ((1 + 13) mod 12) /\
  exists x j,
    shifted_longitude (FFin (45 * one)) 13 = Ok (FFin x)
    /\ zodiac_index (FFin x) = Ok j
    /\ (j = (1 + 13) mod 12
        \/ (j = (1 + 13 + 1) mod 12 /\ x mod (30 * one) = 0)).
Proof.
  assert (H : 0 <= 45 * one < 360 * one) by (pose proof one_pos; lia).
  split; [exact H|].
  pose proof (zodiac_sector_and_shift (45 * one) H) as T.
  cbv zeta in T.
  destruct T as (_ & _ & _ & Hi & _ & _ & Hs & Hf).
  assert (E : 45 * one / (30 * one) = 1) by (vm_compute; reflexivity).
  rewrite E in Hi, Hs, Hf.
  split; [exact Hi|].
  split; [exact (proj1 (proj2 (Hs 13 _ eq_refl)))|].
  assert (Hk : Z.abs 13 < 2 ^ 48) by (vm_compute; reflexivity).
  destruct (Hf 13 Hk) as (x & j & Ex & _ & Ej & Hj & _).
  exists x, j. split; [exact Ex|]. split; [exact Ej|exact Hj].
Defined.

(** ** Nakshatra: the boundary at 40 degrees *)

(** C6.  [360 / 27] is the double 13.333333333333334, a little above
    40/3, so three sectors end a little above 40.  The first boundary
    behaves as claimed (0 and 13.333 are Ashwini, 13.334 is Bharani), but
    at longitude 40.0, the exact multiple 3 * 360/27, the code still
    selects index 2 (Krittika) where [floor(lon / (360/27)) mod 27] is
    3 (Rohini). *)
Theorem nakshatra_boundary_at_40 :
  int_truediv 360 27 = Ok (of_ratio 13333333333333334 1000000000000000) /\
  nakshatra_from_longitude (of_int 0)
    = Ok ("अश्विनी"%string, "Ashwini"%string) /\
  nakshatra_from_longitude (of_ratio 13333 1000)
    = Ok ("अश्विनी"%string, "Ashwini"%string) /\
  nakshatra_from_longitude (of_ratio 13334 1000)
    = Ok ("भरणी"%string, "Bharani"%string) /\
  in_domain (of_int 40) = true /\
  to_Q (of_int 40) = Some (inject_Z (40 * one) / inject_Z one)%Q /\
  nakshatra_index_spec (inject_Z (40 * one) / inject_Z one)%Q = 3 /\
  nth_error NAKSHATRAS 3 = Some ("रोहिणी"%string, "Rohini"%string) /\
  nakshatra_index (of_int 40) = Ok 2 /\
  nakshatra_from_longitude (of_int 40)
    = Ok ("कृत्तिका"%string, "Krittika"%string).
Proof.
  by_evaluation.
Qed.

(** ** Tithi: the separation and its reduction *)

(** The reduction modulo [w] does not see a shift of the dividend by
    [w], provided the one addition it may perform is exact. *)
Lemma mod_shift (x w : Z) :
  0 < w ->
  round_z (x + w) = FFin (x + w) ->
  mod_ (FFin (x + w)) (FFin w) = mod_ (FFin x) (FFin w).
Proof.
  intros Hw Hex. rewrite !mod_fin by exact Hw. f_equal.
  destruct (Z_lt_le_dec x 0) as [Hneg|Hpos].
  - destruct (Z_lt_le_dec (x + w) 0) as [Hneg'|Hpos'].
    + (* both negative: same truncated remainder *)
      assert (E : Z.rem (x + w) w = Z.rem x w).
      { rewrite !rem_nonpos by lia.
        replace (- x) with (- (x + w) + 1 * w) by lia.
        rewrite Z.mod_add by lia. reflexivity. }
      rewrite E. reflexivity.
    + (* -w <= x < 0 *)
      rewrite (Z.rem_small (x + w) w) by lia.
      destruct (Z.ltb_spec (x + w) 0); [lia|].
      destruct (Z.eq_dec x (- w)) as [->|Hx].
      * replace (- w + w) with 0 by lia.
        rewrite rem_nonpos, Z.opp_involutive, Z.mod_same by lia. reflexivity.
      * assert (E : Z.rem x w = x).
        { rewrite rem_nonpos by lia.
          rewrite Z.mod_small by lia. lia. }
        rewrite E. destruct (Z.ltb_spec x 0); [|lia].
        exact (eq_sym Hex).
  - rewrite !Z.rem_mod_nonneg by lia.
    replace (x + w) with (x + 1 * w) by lia.
    rewrite Z.mod_add by lia. reflexivity.
Qed.

(** A separation in [0, 360) is its own reduction. *)
Lemma mod_small_fin (x w : Z) :
  0 <= x < w -> mod_ (FFin x) (FFin w) = Ok (FFin x).
Proof.
  intro Hx. rewrite mod_fin by lia.
  rewrite Z.rem_small by lia.
  destruct (Z.ltb_spec x 0); [lia|reflexivity].
Qed.

(** When the subtraction yields a separation [d] in [0, 360), the tithi
    number is [floor(d / 12)]. *)
Lemma tithi_no_of_separation (s m d : Z) :
  fsub (FFin m) (FFin s) = FFin d ->
  0 <= d < 360 * one ->
  tithi_no (FFin s) (FFin m) = Ok (d / (12 * one)).
Proof.
  intros Hsub Hd. pose proof one_pos as H1.
  unfold tithi_no, tithi_diff.
  rewrite Hsub, of_int_360, mod_small_fin by exact Hd.
  cbn [bind]. rewrite of_int_12.
  assert (Hk : 0 <= d / (12 * one) < 30) by (apply sector_bounds; lia).
  assert (P53 : 2 ^ 53 = 9007199254740992) by reflexivity.
  rewrite floordiv_floor by lia.
  cbn [bind]. apply to_int_integral.
Qed.

Lemma tithi_from_no (s m n : Z) (l : label) :
  tithi_no (FFin s) (FFin m) = Ok n ->
  getitem TITHIS (n mod 15) = Ok l ->
  tithi_from_longitudes (FFin s) (FFin m)
  = Ok (fmt_label (paksha_hi_of n) (fst l), fmt_label (paksha_hi_of n) (snd l)).
Proof.
  intros Hn Hl. unfold tithi_from_longitudes.
  rewrite Hn. cbn [bind]. unfold int_mod. cbn [Z.eqb bind].
  rewrite Hl. reflexivity.
Qed.

Lemma round_z_180 : round_z (180 * one) = FFin (180 * one).
Proof. apply round_z_integer. simpl. lia. Qed.

Lemma lon_179_999_bounds :
  exists c, of_ratio 179999 1000 = FFin c
            /\ 168 * one + 2 ^ 1031 <= c /\ c + 2 ^ 1031 < 180 * one.
Proof.
  eexists. split; [vm_compute; reflexivity|].
  split; [apply Z.leb_le | apply Z.ltb_lt]; vm_compute; reflexivity.
Qed.

Lemma shukla_purnima_separation (s m d : Z) :
  fsub (FFin m) (FFin s) = FFin d ->
  168 * one <= d < 180 * one ->
  tithi_from_longitudes (FFin s) (FFin m)
  = Ok ("शुक्ल पूर्णिमा"%string, "शुक्ल Purnima"%string).
Proof.
  intros Hsub Hd. pose proof one_pos as H1.
  assert (Hn : tithi_no (FFin s) (FFin m) = Ok 14).
  { rewrite (tithi_no_of_separation s m d) by (try assumption; lia).
    f_equal. symmetry.
    apply (Z.div_unique d (12 * one) 14 (d - 168 * one)); lia. }
  rewrite (tithi_from_no s m 14 ("पूर्णिमा"%string, "Purnima"%string) Hn)
    by reflexivity.
  reflexivity.
Qed.

(** ** Tithi: adding a turn to one longitude *)

(** Powers of two in units of [2^-1074]. *)
Lemma pow2_facts :
  2 ^ 1031 = 2 * 2 ^ 1030 /\ 0 < 2 ^ 1030 /\ 4 * 2 ^ 1031 <= 2 ^ 1073
  /\ one = 2 * 2 ^ 1073 /\ 2 ^ 1084 = 1024 * one
  /\ 2 ^ 1084 + 2 ^ 1030 < overflow_threshold.
Proof.
  assert (E31 : 2 ^ 1031 = 2 * 2 ^ 1030)
    by (change 1031 with (Z.succ 1030); apply Z.pow_succ_r; plia).
  assert (P30 : 0 < 2 ^ 1030) by (apply Z.pow_pos_nonneg; plia).
  assert (E33 : 2 ^ 1033 = 2 ^ 2 * 2 ^ 1031)
    by (rewrite <- Z.pow_add_r by plia; reflexivity).
  assert (L : 2 ^ 1033 <= 2 ^ 1073) by (apply Z.pow_le_mono_r; plia).
  assert (E1 : one = 2 * 2 ^ 1073)
    by (unfold one; change 1074 with (Z.succ 1073); apply Z.pow_succ_r; plia).
  assert (E84 : 2 ^ 1084 = 2 ^ 10 * one)
    by (unfold one; rewrite <- Z.pow_add_r by plia; reflexivity).
  assert (L2 : 2 ^ 1085 <= overflow_threshold)
    by (unfold overflow_threshold; apply Z.pow_le_mono_r; plia).
  assert (E85 : 2 ^ 1085 = 2 * 2 ^ 1084)
    by (change 1085 with (Z.succ 1084); apply Z.pow_succ_r; plia).
  assert (L3 : 2 ^ 1030 < 2 ^ 1084) by (apply Z.pow_lt_mono_r; plia).
  change (2 ^ 2) with 4 in E33. change (2 ^ 10) with 1024 in E84.
  repeat split; plia.
Qed.

Lemma pow2_1032 : 2 ^ 1032 = 2 * 2 ^ 1031.
Proof. change 1032 with (Z.succ 1031). apply Z.pow_succ_r. lia. Qed.

(** The label is a function of the tithi number. *)
Lemma tithi_from_longitudes_of_no (s1 m1 s2 m2 : float) :
  tithi_no s1 m1 = tithi_no s2 m2 ->
  tithi_from_longitudes s1 m1 = tithi_from_longitudes s2 m2.
Proof.
  intro H. unfold tithi_from_longitudes. rewrite H. reflexivity.
Qed.

(** A double difference within [2^-43] of a value that is, modulo 360,
    at least [2^-42] inside the sector [n] gives tithi number [n]. *)
Lemma tithi_no_inside_sector (sun_lon moon_lon : float) (x E c n : Z) :
  fsub moon_lon sun_lon = FFin x ->
  Z.abs (x - (E + c * (360 * one))) <= 2 ^ 1031 ->
  12 * one * n + 2 ^ 1032 <= E <= 12 * one * (n + 1) - 2 ^ 1032 ->
  0 <= n < 30 ->
  tithi_no sun_lon moon_lon = Ok n.
Proof.
  intros Hx Hnear HE Hn. pose proof one_pos as H1.
  destruct pow2_facts as (E31 & P30 & _ & _ & E84 & _).
  pose proof pow2_1032 as E32.
  assert (P53 : 2 ^ 53 = 9007199254740992) by reflexivity.
  assert (B0 : 0 <= 12 * one * n) by (apply Z.mul_nonneg_nonneg; plia).
  assert (B30 : 12 * one * (n + 1) <= 12 * one * 30)
    by (apply Z.mul_le_mono_nonneg_l; plia).
  assert (Ey : x mod (360 * one) = x - c * (360 * one)).
  { symmetry.
    apply (Z.mod_unique x (360 * one) c (x - c * (360 * one)));
      [left; plia|plia]. }
  assert (Hd : exists d,
             tithi_diff sun_lon moon_lon = Ok (FFin d)
             /\ Z.abs (d - E) <= 2 ^ 1031 + 2 ^ 1030).
  { unfold tithi_diff. rewrite Hx, of_int_360.
    rewrite mod_fin_modulo by plia. rewrite Ey.
    destruct (Z.rem x (360 * one) <? 0).
    - destruct (round_z_error (x - c * (360 * one)))
        as (d & -> & Hd & _); [plia|].
      exists d. split; [reflexivity|plia].
    - exists (x - c * (360 * one)). split; [reflexivity|plia]. }
  destruct Hd as (d & Hdiff & Hd).
  unfold tithi_no. rewrite Hdiff. cbn [bind]. rewrite of_int_12.
  rewrite floordiv_floor; [|plia|plia|].
  - cbn [bind]. rewrite to_int_integral. f_equal.
    apply sector_unique; plia.
  - assert (d / (12 * one) = n) by (apply sector_unique; plia). plia.
Qed.

Lemma krishna_pratipada_separation (s m d : Z) :
  fsub (FFin m) (FFin s) = FFin d ->
  180 * one <= d < 192 * one ->
  tithi_from_longitudes (FFin s) (FFin m)
  = Ok ("कृष्ण प्रतिपदा"%string, "कृष्ण Pratipada"%string).
Proof.
  intros Hsub Hd. pose proof one_pos as H1.
  assert (Hn : tithi_no (FFin s) (FFin m) = Ok 15).
  { rewrite (tithi_no_of_separation s m d) by (try assumption; lia).
    f_equal. symmetry.
    apply (Z.div_unique d (12 * one) 15 (d - 180 * one)); lia. }
  rewrite (tithi_from_no s m 15 ("प्रतिपदा"%string, "Pratipada"%string) Hn)
    by reflexivity.
  reflexivity.
Qed.

(** C7, as the code has it.  (a) The label is unchanged when 360 degrees
    are added to either input, as long as the float subtraction
    [moon_lon - sun_lon] is exact before and after (to the moon:
    [m' = m + 360], [s' = s]; to the sun: read the equation from right
    to left).  (a') For longitudes of [0, 360) and the sum taken in
    doubles, the label is unchanged when 360.0 is added to the moon's or
    to the sun's longitude, provided the exact separation
    [(moon_lon - sun_lon) mod 360] is at least [2^-42] degrees away from
    every multiple of 12; the tithi number is then the floor of that
    separation by 12.  Nearer to a multiple of 12 the rounded differences
    can fall in different sectors.  (b) Equal finite longitudes give
    Shukla Pratipada.  (c) For [x] in [0, 360) the moon longitude
    [x + 179.999], summed in doubles, gives the last Shukla tithi.
    (d) A moon exactly 180 degrees ahead gives the first Krishna tithi.
    (d') For [x] in [0, 360) the moon longitude [x + 180], summed in
    doubles, gives the first Krishna tithi or, when the rounded sum
    falls short of 180 degrees ahead, the last Shukla one.  The second
    label carries the Devanagari paksha word. *)
Theorem tithi_relations :
  (forall s m s' m' : Z,
      m' - s' = (m - s) + 360 * one ->
      round_z (m - s) = FFin (m - s) ->
      round_z (m' - s') = FFin (m' - s') ->
      tithi_from_longitudes (FFin s') (FFin m')
      = tithi_from_longitudes (FFin s) (FFin m)) /\
  (forall s m : Z,
      0 <= s < 360 * one -> 0 <= m < 360 * one ->
      let sep := (m - s) mod (360 * one) in
      2 ^ 1032 <= sep mod (12 * one) <= 12 * one - 2 ^ 1032 ->
      tithi_no (FFin s) (FFin m) = Ok (sep / (12 * one)) /\
      tithi_from_longitudes (FFin s) (fadd (FFin m) (of_int 360))
      = tithi_from_longitudes (FFin s) (FFin m) /\
      tithi_from_longitudes (fadd (FFin s) (of_int 360)) (FFin m)
      = tithi_from_longitudes (FFin s) (FFin m)) /\
  (forall x : Z,
      tithi_from_longitudes (FFin x) (FFin x)
      = Ok ("शुक्ल प्रतिपदा"%string, "शुक्ल Pratipada"%string)) /\
  (forall x : Z,
      0 <= x < 360 * one ->
      tithi_from_longitudes (FFin x) (fadd (FFin x) (of_ratio 179999 1000))
      = Ok ("शुक्ल पूर्णिमा"%string, "शुक्ल Purnima"%string)) /\
  (forall x y : Z,
      y - x = 180 * one ->
      tithi_from_longitudes (FFin x) (FFin y)
      = Ok ("कृष्ण प्रतिपदा"%string, "कृष्ण Pratipada"%string)) /\
  (forall x : Z,
      0 <= x < 360 * one ->
      tithi_from_longitudes (FFin x) (fadd (FFin x) (of_int 180))
      = Ok ("कृष्ण प्रतिपदा"%string, "कृष्ण Pratipada"%string)
      \/ tithi_from_longitudes (FFin x) (fadd (FFin x) (of_int 180))
         = Ok ("शुक्ल पूर्णिमा"%string, "शुक्ल Purnima"%string)).
Proof.
  pose proof one_pos as H1.
  split; [|split; [|split; [|split; [|split]]]].
  - intros s m s' m' Hrel Hex Hex'.
    unfold tithi_from_longitudes, tithi_no, tithi_diff.
    rewrite !fsub_fin, Hex', Hex, Hrel, of_int_360.
    rewrite mod_shift; [reflexivity|lia|].
    rewrite <- Hrel. exact Hex'.
  - intros s m Hs Hm sep Hsep.
    destruct pow2_facts as (E31 & P30 & _ & _ & E84 & _).
    pose proof pow2_1032 as E32.
    pose proof (Z.div_mod (m - s) (360 * one) ltac:(plia)) as Ec.
    pose proof (Z.mod_pos_bound (m - s) (360 * one) ltac:(plia)) as Bsep.
    fold sep in Ec, Bsep.
    set (c := (m - s) / (360 * one)) in *.
    pose proof (Z.div_mod sep (12 * one) ltac:(plia)) as En.
    assert (Bn : 0 <= sep / (12 * one) < 30)
      by (apply sector_bounds; plia).
    set (n := sep / (12 * one)) in *.
    assert (HE : 12 * one * n + 2 ^ 1032 <= sep
                 <= 12 * one * (n + 1) - 2 ^ 1032) by plia.
    assert (T0 : tithi_no (FFin s) (FFin m) = Ok n).
    { destruct (round_z_error (m - s)) as (x & Ex & Hx & _); [plia|].
      apply (tithi_no_inside_sector _ _ x sep c n);
        [rewrite fsub_fin; exact Ex|plia|exact HE|exact Bn]. }
    assert (T1 : tithi_no (FFin s) (fadd (FFin m) (of_int 360)) = Ok n).
    { rewrite of_int_360. cbn [fadd].
      destruct (round_z_error (m + 360 * one)) as (m' & -> & Hm' & _);
        [plia|].
      destruct (round_z_error (m' - s)) as (x & Ex & Hx & _); [plia|].
      apply (tithi_no_inside_sector _ _ x sep (c + 1) n);
        [rewrite fsub_fin; exact Ex|plia|exact HE|exact Bn]. }
    assert (T2 : tithi_no (fadd (FFin s) (of_int 360)) (FFin m) = Ok n).
    { rewrite of_int_360. cbn [fadd].
      destruct (round_z_error (s + 360 * one)) as (s' & -> & Hs' & _);
        [plia|].
      destruct (round_z_error (m - s')) as (x & Ex & Hx & _); [plia|].
      apply (tithi_no_inside_sector _ _ x sep (c - 1) n);
        [rewrite fsub_fin; exact Ex|plia|exact HE|exact Bn]. }
    split; [exact T0|].
    split; apply tithi_from_longitudes_of_no; congruence.
  - intro x.
    assert (Hsub : fsub (FFin x) (FFin x) = FFin 0)
      by (rewrite fsub_fin, Z.sub_diag; exact round_z_0).
    assert (Hn : tithi_no (FFin x) (FFin x) = Ok 0).
    { rewrite (tithi_no_of_separation x x 0) by (try assumption; lia).
      rewrite Z.div_0_l by lia. reflexivity. }
    rewrite (tithi_from_no x x 0 ("प्रतिपदा"%string, "Pratipada"%string) Hn)
      by reflexivity.
    reflexivity.
  - intros x Hx.
    destruct lon_179_999_bounds as (c & -> & Hc1 & Hc2).
    assert (E84 : 2 ^ 1084 = 1024 * one) by (vm_compute; reflexivity).
    assert (E31 : 2 ^ 1031 = 2 * 2 ^ 1030) by (vm_compute; reflexivity).
    assert (P30 : 0 < 2 ^ 1030) by (apply Z.pow_pos_nonneg; lia).
    cbn [fadd].
    assert (Hxc : Z.abs (x + c) < 2 ^ 1084) by lia.
    destruct (round_z_error (x + c) Hxc) as (y & -> & Hy & _).
    assert (Hyx : Z.abs (y - x) < 2 ^ 1084) by lia.
    destruct (round_z_error (y - x) Hyx) as (d & Hd & Hdb & _).
    apply (shukla_purnima_separation x y d).
    + rewrite fsub_fin. exact Hd.
    + lia.
  - intros x y Hxy.
    apply (krishna_pratipada_separation x y (180 * one)); [|lia].
    rewrite fsub_fin, Hxy. exact round_z_180.
  - intros x Hx.
    destruct pow2_facts as (E31 & P30 & L & E1 & E84 & _).
    rewrite (of_int_exact 180) by (simpl; lia). cbn [fadd].
    destruct (round_z_error (x + 180 * one)) as (y & -> & Hy & _); [plia|].
    destruct (round_z_error (y - x)) as (d & Hd & Hdb & _); [plia|].
    destruct (Z_lt_le_dec d (180 * one)) as [Hlt|Hge].
    + right. apply (shukla_purnima_separation x y d).
      * rewrite fsub_fin. exact Hd.
      * plia.
    + left. apply (krishna_pratipada_separation x y d).
      * rewrite fsub_fin. exact Hd.
      * plia.
Qed.

Lemma tithi_relations_witness :
  tithi_from_longitudes (FFin (10 * one)) (FFin (385 * one))
  = tithi_from_longitudes (FFin (10 * one)) (FFin (25 * one))
  /\ tithi_from_longitudes (FFin (3602879701896397 * 2 ^ 1019))
       (fadd (FFin (3523714864696525 * 2 ^ 1030)) (of_int 360))
     = tithi_from_longitudes (FFin (3602879701896397 * 2 ^ 1019))
         (FFin (3523714864696525 * 2 ^ 1030))
  /\ tithi_from_longitudes (FFin (7 * one))
       (fadd (FFin (7 * one)) (of_ratio 179999 1000))
     = Ok ("शुक्ल पूर्णिमा"%string, "शुक्ल Purnima"%string)
  /\ tithi_from_longitudes (FFin (7 * one)) (FFin (187 * one))
     = Ok ("कृष्ण प्रतिपदा"%string, "कृष्ण Pratipada"%string).
Proof.
  destruct tithi_relations as (Ha & Ha' & _ & Hc & Hd & _).
  split; [|split; [|split]].
  - apply Ha.
    + pose proof one_pos. lia.
    + vm_compute. reflexivity.
    + vm_compute. reflexivity.
  - assert (Hs : 0 <= 3602879701896397 * 2 ^ 1019 < 360 * one)
      by (split; [apply Z.leb_le|apply Z.ltb_lt]; vm_compute; reflexivity).
    assert (Hm : 0 <= 3523714864696525 * 2 ^ 1030 < 360 * one)
      by (split; [apply Z.leb_le|apply Z.ltb_lt]; vm_compute; reflexivity).
    assert (Hsep : 2 ^ 1032
                   <= ((3523714864696525 * 2 ^ 1030
                        - 3602879701896397 * 2 ^ 1019) mod (360 * one))
                      mod (12 * one)
                   <= 12 * one - 2 ^ 1032)
      by (split; apply Z.leb_le; vm_compute; reflexivity).
    exact (proj1 (proj2 (Ha' _ _ Hs Hm Hsep))).
  - apply Hc. pose proof one_pos. lia.
  - apply Hd. lia.
Defined.

(** The claim's invariance fails on doubles: with sun longitude 2^-49,
    the moon longitudes 12.0 and 372.0 = 12.0 + 360 give different
    tithis, because 372 - 2^-49 rounds to 372.  The sum [x + 180] taken
    in doubles can fall short of a separation of 180: at
    x = 119.61124396450467 the label is still Shukla Purnima.  And for a
    large [x] the sum [x + 179.999] is [x] itself: at x = 2^62 the label
    is Shukla Pratipada. *)
Lemma tithi_not_invariant_under_360 :
  is_double lon_2p_m49 = true /\
  fadd (of_int 12) (of_int 360) = of_int 372 /\
  tithi_from_longitudes lon_2p_m49 (of_int 12)
    = Ok ("शुक्ल प्रतिपदा"%string, "शुक्ल Pratipada"%string) /\
  tithi_from_longitudes lon_2p_m49 (fadd (of_int 12) (of_int 360))
    = Ok ("शुक्ल द्वितीया"%string, "शुक्ल Dwitiya"%string) /\
  tithi_from_longitudes lon_2p_m49 (fadd (of_int 12) (of_int 360))
    <> tithi_from_longitudes lon_2p_m49 (of_int 12) /\
  tithi_from_longitudes (of_ratio 11961124396450467 100000000000000)
    (fadd (of_ratio 11961124396450467 100000000000000) (of_int 180))
    = Ok ("शुक्ल पूर्णिमा"%string, "शुक्ल Purnima"%string) /\
  tithi_from_longitudes (of_int (2 ^ 62))
    (fadd (of_int (2 ^ 62)) (of_ratio 179999 1000))
    = Ok ("शुक्ल प्रतिपदा"%string, "शुक्ल Pratipada"%string).
Proof.
  assert (E0 : tithi_from_longitudes lon_2p_m49 (of_int 12)
               = Ok ("शुक्ल प्रतिपदा"%string, "शुक्ल Pratipada"%string))
    by (vm_compute; reflexivity).
  assert (E1 : tithi_from_longitudes lon_2p_m49
                 (fadd (of_int 12) (of_int 360))
               = Ok ("शुक्ल द्वितीया"%string, "शुक्ल Dwitiya"%string))
    by (vm_compute; reflexivity).
  split; [vm_compute; reflexivity|].
  split; [vm_compute; reflexivity|].
  split; [exact E0|]. split; [exact E1|].
  split; [rewrite E0, E1; discriminate|].
  split; vm_compute; reflexivity.
Qed.

(** ** Tithi: what holds on the whole domain *)

Lemma tithi_no_of_diff (s m d : Z) :
  tithi_diff (FFin s) (FFin m) = Ok (FFin d) ->
  0 <= d <= 360 * one ->
  tithi_no (FFin s) (FFin m) = Ok (d / (12 * one)).
Proof.
  intros Hdiff Hd. pose proof one_pos as H1.
  unfold tithi_no. rewrite Hdiff. cbn [bind]. rewrite of_int_12.
  assert (Hk : 0 <= d / (12 * one) < 31) by (apply sector_bounds; lia).
  assert (P53 : 2 ^ 53 = 9007199254740992) by reflexivity.
  rewrite floordiv_floor by lia.
  cbn [bind]. apply to_int_integral.
Qed.

Lemma round_z_360 : round_z (360 * one) = FFin (360 * one).
Proof. apply round_z_integer. simpl. lia. Qed.

(** The reduced separation of two longitudes of [0, 360) lies in
    [0, 360], both ends included. *)
Lemma tithi_diff_range (s m : Z) :
  0 <= s < 360 * one -> 0 <= m < 360 * one ->
  exists d, tithi_diff (FFin s) (FFin m) = Ok (FFin d) /\ 0 <= d <= 360 * one.
Proof.
  intros Hs Hm. pose proof one_pos as H1. pose proof pow2_53_one as H53.
  assert (P53 : 2 ^ 53 = 9007199254740992) by reflexivity.
  assert (HB : 360 * one = 360 * 2 ^ 1074) by reflexivity.
  assert (Ho : 360 * one < overflow_threshold) by lia.
  unfold tithi_diff. rewrite fsub_fin, of_int_360.
  destruct (Z_le_gt_dec 0 (m - s)) as [Hpos|Hneg].
  - destruct (round_z_below (m - s) (360 * one) 360 1074)
      as (r & -> & Hr & _); try lia.
    rewrite mod_fin by lia. rewrite Z.rem_mod_nonneg by lia.
    pose proof (Z.mod_pos_bound r (360 * one) ltac:(lia)) as Hb.
    destruct (Z.ltb_spec (r mod (360 * one)) 0); [lia|].
    eexists. split; [reflexivity|]. lia.
  - replace (m - s) with (- (s - m)) by lia. rewrite round_z_opp.
    destruct (round_z_below (s - m) (360 * one) 360 1074)
      as (r & -> & Hr & Hz); try lia.
    cbn [fneg]. rewrite mod_fin by lia.
    rewrite rem_nonpos, Z.opp_involutive by lia.
    pose proof (Z.mod_pos_bound r (360 * one) ltac:(lia)) as Hb.
    destruct (Z.ltb_spec (- (r mod (360 * one))) 0) as [Hlt|Hge].
    + destruct (round_z_below (- (r mod (360 * one)) + 360 * one)
                  (360 * one) 360 1074) as (r' & -> & Hr' & _); try lia.
      exists r'. split; [reflexivity|lia].
    + eexists. split; [reflexivity|]. lia.
Qed.

(** On the domain [tithi_from_longitudes] always returns; its index is
    [floor(diff / 12)] and ranges over 0..30 (30 only for [diff] = 360.0);
    the paksha is Shukla exactly below index 15 and the base name is
    entry [index mod 15] of the table. *)
Lemma tithi_in_domain (s m : Z) :
  0 <= s < 360 * one -> 0 <= m < 360 * one ->
  exists d n name,
    tithi_diff (FFin s) (FFin m) = Ok (FFin d) /\ 0 <= d <= 360 * one /\
    tithi_no (FFin s) (FFin m) = Ok n /\ n = d / (12 * one) /\
    0 <= n <= 30 /\ (n = 30 <-> d = 360 * one) /\
    nth_error TITHIS (Z.to_nat (n mod 15)) = Some name /\
    tithi_from_longitudes (FFin s) (FFin m)
    = Ok (fmt_label (if n <? 15 then shukla_hi else krishna_hi) (fst name),
          fmt_label (if n <? 15 then shukla_hi else krishna_hi) (snd name)).
Proof.
  intros Hs Hm. pose proof one_pos as H1.
  destruct (tithi_diff_range s m Hs Hm) as (d & Hdiff & Hd).
  pose proof (tithi_no_of_diff s m d Hdiff Hd) as Hno.
  assert (Hk : 0 <= d / (12 * one) < 31) by (apply sector_bounds; lia).
  pose proof (Z.mod_pos_bound (d / (12 * one)) 15 ltac:(lia)) as Hm15.
  destruct (getitem_nth TITHIS ((d / (12 * one)) mod 15)) as (name & Hn & Hg);
    [exact Hm15|].
  exists d, (d / (12 * one)), name.
  split; [exact Hdiff|]. split; [exact Hd|]. split; [exact Hno|].
  split; [reflexivity|]. split; [lia|]. split.
  - pose proof (Z.div_mod d (12 * one) ltac:(lia)) as E.
    pose proof (Z.mod_pos_bound d (12 * one) ltac:(lia)) as B.
    split; intro H; [lia|].
    rewrite H. replace (360 * one) with (30 * (12 * one)) by lia.
    apply Z.div_mul. lia.
  - split; [exact Hn|]. exact (tithi_from_no s m _ name Hno Hg).
Qed.

(** ** Indices stay within the tables *)

(** The integer [%] keeps the zodiac and nakshatra indices in range for
    every float on which [//] and [int()] succeed, negative ones
    included, so the table lookup cannot fail. *)
Lemma zodiac_index_in_bounds (lon : float) (i : Z) :
  zodiac_index lon = Ok i ->
  0 <= i < 12 /\ exists sign, zodiac_from_longitude lon = Ok sign.
Proof.
  unfold zodiac_index. intro H. do 2 bind_inv H.
  unfold int_mod in H. cbn [Z.eqb] in H. injection H as <-.
  pose proof (Z.mod_pos_bound x0 12 ltac:(lia)) as Hb.
  split; [exact Hb|].
  destruct (getitem_nth SIGNS (x0 mod 12) Hb) as (sign & _ & Hg).
  exists sign. unfold zodiac_from_longitude, zodiac_index.
  rewrite Hx. cbn [bind]. rewrite Hx0. cbn [bind]. exact Hg.
Qed.

Lemma nakshatra_index_in_bounds (lon : float) (i : Z) :
  nakshatra_index lon = Ok i ->
  0 <= i < 27 /\ exists nak, nakshatra_from_longitude lon = Ok nak.
Proof.
  unfold nakshatra_index. intro H. do 3 bind_inv H.
  unfold int_mod in H. cbn [Z.eqb] in H. injection H as <-.
  pose proof (Z.mod_pos_bound x1 27 ltac:(lia)) as Hb.
  split; [exact Hb|].
  destruct (getitem_nth NAKSHATRAS (x1 mod 27) Hb) as (nak & _ & Hg).
  exists nak. unfold nakshatra_from_longitude, nakshatra_index.
  rewrite Hx. cbn [bind]. rewrite Hx0. cbn [bind]. rewrite Hx1.
  cbn [bind]. exact Hg.
Qed.

(** ** Tithi: the index reaches 30 *)

(** C1.  The source comments [tithi_no] as ranging over 0..29, and the
    claim says so for all longitudes in [0,360).  At sun longitude
    100.00000000000001 and moon longitude 100.0, two doubles of the
    domain, the float remainder [(moon - sun) % 360.0] is 360.0 itself
    (the exact value 360 - 2^-46 rounds up), so [tithi_no] is 30: the
    label is Krishna Pratipada, where separation just below 360 degrees
    is the last Krishna tithi. *)
Theorem tithi_no_30_in_domain :
  in_domain lon_100_succ = true /\
  in_domain (of_int 100) = true /\
  of_ratio 10000000000000001 100000000000000 = lon_100_succ /\
  fsub (of_int 100) lon_100_succ = FFin (- 2 ^ 1028) /\
  tithi_diff lon_100_succ (of_int 100) = Ok (of_int 360) /\
  tithi_no lon_100_succ (of_int 100) = Ok 30 /\
  tithi_from_longitudes lon_100_succ (of_int 100)
    = Ok (fmt_label krishna_hi "प्रतिपदा", fmt_label krishna_hi "Pratipada").
Proof.
  by_evaluation.
Qed.

(** C9.  Outside the domain the same defect shows: with sun longitude 0.0
    and the negative moon longitude -2^-60 the reduced separation is
    360.0 and the tithi index is 30, not within 0..29; and with the two
    extreme finite doubles the subtraction overflows, the remainder is
    NaN and [int()] raises instead of returning a label.  Zodiac and
    nakshatra indices of the negative longitude stay in bounds (floored
    division gives the last sector). *)
Theorem tithi_no_30_negative_longitude :
  is_double lon_tiny_neg = true /\
  tithi_diff (of_int 0) lon_tiny_neg = Ok (of_int 360) /\
  tithi_no (of_int 0) lon_tiny_neg = Ok 30 /\
  zodiac_index lon_tiny_neg = Ok 11 /\
  nakshatra_index lon_tiny_neg = Ok 26 /\
  tithi_no (of_int 0) (of_int 360) = Ok 0 /\
  is_double float_max = true /\
  tithi_from_longitudes (fneg float_max) float_max = Raise ValueError.
Proof.
  by_evaluation.
Qed.

(** ** Tithi: the transliterated label keeps the Devanagari paksha *)

Lemma all_ascii_app (s t : string) :
  all_ascii (s ++ t) = all_ascii s && all_ascii t.
Proof.
  induction s as [|c s IH]; simpl.
  - reflexivity.
  - rewrite IH. apply andb_assoc.
Qed.

(** C5.  Whenever [tithi_from_longitudes] returns, both labels are built
    from the same Devanagari paksha word [paksha_hi]: the first label is
    Devanagari throughout, but the second, served as ["en"], is the
    Devanagari paksha followed by the transliterated tithi name, so it is
    never a transliteration. *)
Theorem tithi_en_label_has_devanagari_paksha (sun_lon moon_lon : float)
    (l_hi l_en : string) :
  tithi_from_longitudes sun_lon moon_lon = Ok (l_hi, l_en) ->
  exists paksha name_hi name_en,
    (paksha = shukla_hi \/ paksha = krishna_hi) /\
    In (name_hi, name_en) TITHIS /\
    l_hi = fmt_label paksha name_hi /\
    l_en = fmt_label paksha name_en /\
    is_devanagari l_hi = true /\
    is_devanagari paksha = true /\
    all_ascii name_en = true /\
    all_ascii l_en = false.
Proof.
  unfold tithi_from_longitudes. intro H.
  bind_inv H. bind_inv H. bind_inv H.
  injection H as <- <-.
  destruct x1 as [name_hi name_en]. simpl fst. simpl snd.
  exists (paksha_hi_of x), name_hi, name_en.
  assert (Hp : paksha_hi_of x = shukla_hi \/ paksha_hi_of x = krishna_hi).
  { unfold paksha_hi_of. destruct (x <? 15); [left|right]; reflexivity. }
  apply getitem_In in Hx1.
  assert (Hn : is_devanagari name_hi = true /\ all_ascii name_en = true).
  { simpl in Hx1.
    repeat (destruct Hx1 as [Hx1|Hx1];
            [injection Hx1 as <- <-; split; vm_compute; reflexivity|]).
    destruct Hx1. }
  destruct Hn as [Hn1 Hn2].
  repeat split; try assumption.
  - destruct Hp as [-> | ->]; unfold fmt_label;
      (repeat (destruct Hx1 as [Hx1|Hx1];
               [injection Hx1 as <- <-; vm_compute; reflexivity|]);
       destruct Hx1).
  - destruct Hp as [-> | ->]; vm_compute; reflexivity.
  - unfold fmt_label. rewrite all_ascii_app.
    destruct Hp as [-> | ->]; reflexivity.
Qed.

Lemma tithi_en_label_has_devanagari_paksha_witness :
  tithi_from_longitudes (of_int 0) (of_int 0)
    = Ok (fmt_label shukla_hi "प्रतिपदा", fmt_label shukla_hi "Pratipada")
  /\ all_ascii (fmt_label shukla_hi "Pratipada") = false.
Proof.
  split.
  - vm_compute. reflexivity.
  - destruct (tithi_en_label_has_devanagari_paksha (of_int 0) (of_int 0)
                (fmt_label shukla_hi "प्रतिपदा")
                (fmt_label shukla_hi "Pratipada"))
      as (p & nh & ne & _ & _ & _ & _ & _ & _ & _ & H).
    + vm_compute. reflexivity.
    + exact H.
Defined.

(** ** The proleptic Gregorian calendar *)

Lemma offset_ok_all (leap : bool) (n : Z) :
  0 <= n < 365 + (if leap then 1 else 0) -> offset_ok leap n = true.
Proof.
  intro Hn.
  assert (H : forall b : bool, forall_below (if b then 366%nat else 365%nat) (offset_ok b) = true)
    by (intros []; vm_compute; reflexivity).
  apply (forall_below_spec _ _ (H leap)). destruct leap; simpl; lia.
Qed.

Lemma month_ok_all (leap : bool) (m : Z) :
  1 <= m <= 12 -> month_ok leap (m - 1) = true.
Proof.
  intro Hm.
  assert (H : forall b : bool, forall_below 12 (month_ok b) = true)
    by (intros []; vm_compute; reflexivity).
  apply (forall_below_spec _ _ (H leap)). simpl. lia.
Qed.

Lemma month_day_of_offset_spec (leap : bool) (n : Z) :
  0 <= n < 365 + (if leap then 1 else 0) ->
  forall m d, month_day_of_offset leap n = (m, d) ->
  1 <= m <= 12 /\ 1 <= d <= days_in_month_leap leap m
  /\ days_before_month_leap leap m + d = n + 1.
Proof.
  intros Hn m d E. pose proof (offset_ok_all leap n Hn) as H.
  unfold offset_ok in H. rewrite E in H.
  repeat (apply andb_prop in H; destruct H as [H ?]).
  repeat match goal with
         | H : (_ <=? _) = true |- _ => apply Z.leb_le in H
         | H : (_ =? _) = true |- _ => apply Z.eqb_eq in H
         end.
  lia.
Qed.

Lemma month_facts (leap : bool) (m d : Z) :
  1 <= m <= 12 -> 1 <= d <= days_in_month_leap leap m ->
  0 <= days_before_month_leap leap m
  /\ days_before_month_leap leap m + days_in_month_leap leap m
     <= 365 + (if leap then 1 else 0)
  /\ month_day_of_offset leap (days_before_month_leap leap m + d - 1) = (m, d).
Proof.
  intros Hm Hd. pose proof (month_ok_all leap m Hm) as H.
  unfold month_ok in H. replace (m - 1 + 1) with m in H by lia.
  apply andb_prop in H. destruct H as [H H3].
  apply andb_prop in H. destruct H as [H1 H2].
  apply Z.leb_le in H1. apply Z.leb_le in H2.
  split; [exact H1|]. split; [exact H2|].
  pose proof (forall_below_spec _ _ H3 (d - 1)) as H4.
  cbv beta in H4. replace (d - 1 + 1) with d in H4 by lia.
  unfold month_day_ok in H4.
  destruct (month_day_of_offset leap _) as [m' d'].
  assert (H5 : (m' =? m) && (d' =? d) = true) by (apply H4; lia).
  apply andb_prop in H5. destruct H5 as [H5 H6].
  apply Z.eqb_eq in H5. apply Z.eqb_eq in H6. congruence.
Qed.

Lemma days_in_month_leap_eq (y m : Z) :
  days_in_month y m = days_in_month_leap (is_leap y) m.
Proof. reflexivity. Qed.

Lemma ymd2ord_leap_eq (y m d : Z) :
  ymd2ord y m d
  = days_before_year y + days_before_month_leap (is_leap y) m + d.
Proof. reflexivity. Qed.

(** A year written by its place in the 400-, 100- and 4-year cycles. *)
Lemma year_in_cycles (n400 n100 n4 n1 : Z) :
  0 <= n100 <= 3 -> 0 <= n4 <= 24 -> 0 <= n1 <= 3 ->
  let y := n400 * 400 + 1 + n100 * 100 + n4 * 4 + n1 in
  days_before_year y = 146097 * n400 + 36524 * n100 + 1461 * n4 + 365 * n1
  /\ is_leap y = (n1 =? 3) && (negb (n4 =? 24) || (n100 =? 3)).
Proof.
  intros H100 H4 H1 y. subst y. split.
  - unfold days_before_year. cbv zeta.
    Z.to_euclidean_division_equations. lia.
  - unfold is_leap.
    destruct (Z.eqb_spec n1 3), (Z.eqb_spec n4 24), (Z.eqb_spec n100 3);
      cbn [negb andb orb];
      repeat match goal with
             | |- context [?a mod ?b =? 0] =>
                 destruct (Z.eqb_spec (a mod b) 0)
             end;
      cbn [negb andb orb]; try reflexivity; exfalso;
      Z.to_euclidean_division_equations; lia.
Qed.

Lemma ord2ymd_unfold (n : Z) :
  ord2ymd n =
  let n0 := n - 1 in
  let n400 := n0 / 146097 in
  let r := n0 mod 146097 in
  let n100 := r / 36524 in
  let r2 := r mod 36524 in
  let n4 := r2 / 1461 in
  let r3 := r2 mod 1461 in
  let n1 := r3 / 365 in
  let r4 := r3 mod 365 in
  let yr := n400 * 400 + 1 + n100 * 100 + n4 * 4 + n1 in
  if (n1 =? 4) || (n100 =? 4) then (yr - 1, 12, 31)
  else
    let '(m, d) :=
      month_day_of_offset ((n1 =? 3) && (negb (n4 =? 24) || (n100 =? 3))) r4 in
    (yr, m, d).
Proof.
  unfold ord2ymd, month_day_of_offset, DI400Y, DI100Y, DI4Y. cbv zeta.
  destruct (_ || _); [reflexivity|].
  destruct (_ <? _); reflexivity.
Qed.

(** [ord2ymd] yields a date of the calendar whose ordinal is the
    argument. *)
Lemma ord2ymd_spec (n y m d : Z) :
  1 <= n -> ord2ymd n = (y, m, d) ->
  1 <= y /\ 1 <= m <= 12 /\ 1 <= d <= days_in_month y m
  /\ ymd2ord y m d = n.
Proof.
  intros Hn. rewrite ord2ymd_unfold. cbv zeta.
  pose proof (Z.div_mod (n - 1) 146097 ltac:(lia)) as E1.
  pose proof (Z.mod_pos_bound (n - 1) 146097 ltac:(lia)) as B1.
  pose proof (Z.div_pos (n - 1) 146097 ltac:(lia) ltac:(lia)) as P1.
  set (n400 := (n - 1) / 146097) in *.
  set (r := (n - 1) mod 146097) in *.
  pose proof (Z.div_mod r 36524 ltac:(lia)) as E2.
  pose proof (Z.mod_pos_bound r 36524 ltac:(lia)) as B2.
  set (n100 := r / 36524) in *. set (r2 := r mod 36524) in *.
  pose proof (Z.div_mod r2 1461 ltac:(lia)) as E3.
  pose proof (Z.mod_pos_bound r2 1461 ltac:(lia)) as B3.
  set (n4 := r2 / 1461) in *. set (r3 := r2 mod 1461) in *.
  pose proof (Z.div_mod r3 365 ltac:(lia)) as E4.
  pose proof (Z.mod_pos_bound r3 365 ltac:(lia)) as B4.
  set (n1 := r3 / 365) in *. set (r4 := r3 mod 365) in *.
  assert (R100 : 0 <= n100 <= 4) by lia.
  assert (R4 : 0 <= n4 <= 24) by lia.
  assert (R1 : 0 <= n1 <= 4) by lia.
  destruct (Z.eqb_spec n1 4) as [F1|F1]; cbn [orb].
  - (* 31 December closing a 4-year cycle *)
    intro E. injection E as <- <- <-.
    destruct (year_in_cycles n400 n100 n4 3) as [Hd Hl]; try lia.
    cbv zeta in Hd, Hl.
    replace (n400 * 400 + 1 + n100 * 100 + n4 * 4 + n1 - 1)
      with (n400 * 400 + 1 + n100 * 100 + n4 * 4 + 3) by lia.
    rewrite days_in_month_leap_eq, ymd2ord_leap_eq, Hd, Hl.
    assert (Hn4 : n100 = 3 \/ n4 <> 24) by lia.
    assert (L : (3 =? 3) && (negb (n4 =? 24) || (n100 =? 3)) = true).
    { destruct (Z.eqb_spec n4 24), (Z.eqb_spec n100 3); cbn; try reflexivity; lia. }
    rewrite L.
    change (days_in_month_leap true 12) with 31.
    change (days_before_month_leap true 12) with 335. lia.
  - destruct (Z.eqb_spec n100 4) as [F2|F2].
    + (* 31 December closing a 400-year cycle *)
      intro E. injection E as <- <- <-.
      destruct (year_in_cycles n400 3 24 3) as [Hd Hl]; try lia.
      cbv zeta in Hd, Hl.
      replace (n400 * 400 + 1 + n100 * 100 + n4 * 4 + n1 - 1)
        with (n400 * 400 + 1 + 3 * 100 + 24 * 4 + 3) by lia.
      rewrite days_in_month_leap_eq, ymd2ord_leap_eq, Hd, Hl.
      change ((3 =? 3) && (negb (24 =? 24) || (3 =? 3))) with true.
      change (days_in_month_leap true 12) with 31.
      change (days_before_month_leap true 12) with 335. lia.
    + destruct (year_in_cycles n400 n100 n4 n1) as [Hd Hl]; try lia.
      cbv zeta in Hd, Hl.
      set (leap := (n1 =? 3) && (negb (n4 =? 24) || (n100 =? 3))) in *.
      destruct (month_day_of_offset leap r4) as [m' d'] eqn:Emd.
      intro E. injection E as <- <- <-.
      apply month_day_of_offset_spec in Emd; [|destruct leap; lia].
      rewrite days_in_month_leap_eq, ymd2ord_leap_eq, Hd, Hl.
      lia.
Qed.

(** The ordinal of a date of the calendar converts back to it. *)
Lemma ord2ymd_ymd2ord (y m d : Z) :
  1 <= y -> 1 <= m <= 12 -> 1 <= d <= days_in_month y m ->
  ord2ymd (ymd2ord y m d) = (y, m, d).
Proof.
  intros Hy Hm Hd.
  pose proof (Z.div_mod (y - 1) 400 ltac:(lia)) as Ea.
  pose proof (Z.mod_pos_bound (y - 1) 400 ltac:(lia)) as Ba.
  set (a := (y - 1) / 400) in *. set (ra := (y - 1) mod 400) in *.
  pose proof (Z.div_mod ra 100 ltac:(lia)) as Eb.
  pose proof (Z.mod_pos_bound ra 100 ltac:(lia)) as Bb.
  set (b := ra / 100) in *. set (rb := ra mod 100) in *.
  pose proof (Z.div_mod rb 4 ltac:(lia)) as Ec.
  pose proof (Z.mod_pos_bound rb 4 ltac:(lia)) as Bc.
  set (c := rb / 4) in *. set (e := rb mod 4) in *.
  assert (Ey : y = a * 400 + 1 + b * 100 + c * 4 + e) by lia.
  destruct (year_in_cycles a b c e) as [Hdby Hleap]; try lia.
  cbv zeta in Hdby, Hleap. rewrite <- Ey in Hdby, Hleap.
  rewrite days_in_month_leap_eq in Hd.
  destruct (month_facts (is_leap y) m d Hm Hd) as (Hm0 & Hm1 & Hmd).
  rewrite ymd2ord_leap_eq, Hdby.
  set (leap := is_leap y) in *.
  set (o := days_before_month_leap leap m + d - 1) in *.
  assert (Ho : 0 <= o < 365 + (if leap then 1 else 0)) by (subst o; lia).
  replace (146097 * a + 36524 * b + 1461 * c + 365 * e
           + days_before_month_leap leap m + d)
    with (146097 * a + 36524 * b + 1461 * c + 365 * e + o + 1)
    by (subst o; lia).
  set (n := 146097 * a + 36524 * b + 1461 * c + 365 * e + o + 1).
  assert (En : n - 1 = 146097 * a + 36524 * b + 1461 * c + 365 * e + o)
    by (subst n; lia).
  clearbody n o.
  rewrite ord2ymd_unfold. cbv zeta.
  pose proof (Z.div_mod (n - 1) 146097 ltac:(lia)) as E1.
  pose proof (Z.mod_pos_bound (n - 1) 146097 ltac:(lia)) as B1.
  set (n400 := (n - 1) / 146097) in *.
  set (r := (n - 1) mod 146097) in *.
  pose proof (Z.div_mod r 36524 ltac:(lia)) as E2.
  pose proof (Z.mod_pos_bound r 36524 ltac:(lia)) as B2.
  set (n100 := r / 36524) in *. set (r2 := r mod 36524) in *.
  pose proof (Z.div_mod r2 1461 ltac:(lia)) as E3.
  pose proof (Z.mod_pos_bound r2 1461 ltac:(lia)) as B3.
  set (n4 := r2 / 1461) in *. set (r3 := r2 mod 1461) in *.
  pose proof (Z.div_mod r3 365 ltac:(lia)) as E4.
  pose proof (Z.mod_pos_bound r3 365 ltac:(lia)) as B4.
  set (n1 := r3 / 365) in *. set (r4 := r3 mod 365) in *.
  clearbody n400 r n100 r2 n4 r3 n1 r4 a ra b rb c e.
  assert (Hlf : leap = true -> e = 3 /\ (c <> 24 \/ b = 3)).
  { intro L. rewrite L in Hleap. symmetry in Hleap.
    destruct (Z.eqb_spec e 3), (Z.eqb_spec c 24), (Z.eqb_spec b 3);
      cbn in Hleap; try discriminate; lia. }
  destruct (Z.eq_dec o 365) as [Ho365|Ho365].
  - (* 31 December of a leap year *)
    assert (L : leap = true) by (destruct leap; [reflexivity|lia]).
    destruct (Hlf L) as [He Hcb].
    rewrite L, Ho365 in Hmd.
    assert (Emd : (m, d) = (12, 31)) by (rewrite <- Hmd; reflexivity).
    injection Emd as -> ->.
    assert (S : n1 = 4 \/ n100 = 4) by lia.
    assert (T : (n1 =? 4) || (n100 =? 4) = true).
    { destruct S as [-> | ->]; [reflexivity|].
      destruct (n1 =? 4); reflexivity. }
    rewrite T. f_equal. f_equal. lia.
  - assert (Ho' : 0 <= o <= 364) by (destruct leap; lia).
    assert (Q1 : n400 = a /\ r = 36524 * b + 1461 * c + 365 * e + o).
    { assert (0 <= 36524 * b + 1461 * c + 365 * e + o < 146097) by lia.
      assert (n400 = a) by lia. split; lia. }
    destruct Q1 as [-> Er].
    assert (Q2 : n100 = b /\ r2 = 1461 * c + 365 * e + o).
    { assert (0 <= 1461 * c + 365 * e + o < 36524) by lia.
      assert (n100 = b) by lia. split; lia. }
    destruct Q2 as [-> Er2].
    assert (Q3 : n4 = c /\ r3 = 365 * e + o).
    { assert (0 <= 365 * e + o < 1461) by lia.
      assert (n4 = c) by lia. split; lia. }
    destruct Q3 as [-> Er3].
    assert (Q4 : n1 = e /\ r4 = o).
    { assert (n1 = e) by lia. split; lia. }
    destruct Q4 as [-> ->].
    destruct (Z.eqb_spec e 4); [lia|].
    destruct (Z.eqb_spec b 4); [lia|]. cbn [orb].
    rewrite <- Hleap, Hmd. f_equal. f_equal. lia.
Qed.

Lemma days_before_next_year (y : Z) :
  days_before_year (y + 1)
  = days_before_year y + 365 + (if is_leap y then 1 else 0).
Proof.
  unfold days_before_year, is_leap. cbv zeta.
  replace (y + 1 - 1) with y by lia.
  destruct (Z.eqb_spec (y mod 4) 0), (Z.eqb_spec (y mod 100) 0),
    (Z.eqb_spec (y mod 400) 0); cbn [negb andb orb];
    Z.to_euclidean_division_equations; lia.
Qed.

Lemma days_before_year_bounds (y : Z) :
  1 <= y <= 10000 -> 0 <= days_before_year y <= MAXORDINAL.
Proof.
  intro Hy. unfold days_before_year, MAXORDINAL. cbv zeta.
  Z.to_euclidean_division_equations. lia.
Qed.

(** The ordinals of the dates [datetime] can hold. *)
Lemma ymd2ord_bounds (y m d : Z) :
  check_date_fields y m d = true ->
  1 <= ymd2ord y m d <= MAXORDINAL.
Proof.
  unfold check_date_fields, MINYEAR, MAXYEAR. intro H.
  repeat (apply andb_prop in H; destruct H as [H ?]).
  repeat match goal with
         | H : (_ <=? _) = true |- _ => apply Z.leb_le in H
         end.
  rewrite days_in_month_leap_eq in *.
  destruct (month_facts (is_leap y) m d) as (Hm0 & Hm1 & _); try lia.
  pose proof (days_before_next_year y) as Hn.
  pose proof (days_before_year_bounds y ltac:(lia)) as B0.
  pose proof (days_before_year_bounds (y + 1) ltac:(lia)) as B1.
  rewrite ymd2ord_leap_eq. lia.
Qed.

Lemma days_before_year_late (y : Z) :
  10000 <= y -> MAXORDINAL <= days_before_year y.
Proof.
  intro Hy. unfold days_before_year, MAXORDINAL. cbv zeta.
  Z.to_euclidean_division_equations. lia.
Qed.

(** ** Adding a [timedelta] *)

Lemma well_formed_intro (y m d h mi s : Z) :
  check_date_fields y m d = true ->
  0 <= h < 24 -> 0 <= mi < 60 -> 0 <= s < 60 ->
  well_formed (mk_datetime y m d h mi s) = true.
Proof.
  intros Hc Hh Hm Hs. unfold well_formed. cbn [year month day hour minute second].
  rewrite Hc. cbn [andb].
  repeat (apply andb_true_intro; split);
    try (apply Z.leb_le; lia); apply Z.ltb_lt; lia.
Qed.

Lemma well_formed_elim (dt : datetime) :
  well_formed dt = true ->
  check_date_fields (year dt) (month dt) (day dt) = true
  /\ 0 <= hour dt < 24 /\ 0 <= minute dt < 60 /\ 0 <= second dt < 60.
Proof.
  unfold well_formed.
  destruct (check_date_fields _ _ _); [|discriminate].
  cbn [andb]. intro H.
  repeat (apply andb_prop in H; destruct H as [H ?]).
  repeat match goal with
         | H : (_ <=? _) = true |- _ => apply Z.leb_le in H
         | H : (_ <? _) = true |- _ => apply Z.ltb_lt in H
         end.
  repeat split; try assumption.
Qed.

(** [dt + timedelta(seconds=s)] moves the instant by [s] seconds and
    stays within the calendar, or overflows. *)
Lemma add_seconds_spec (dt : datetime) (s : Z) :
  well_formed dt = true ->
  let t := timeline_seconds dt + s in
  (86400 <= t < (MAXORDINAL + 1) * 86400 ->
   exists dt', add_seconds dt s = Ok dt' /\ well_formed dt' = true
               /\ timeline_seconds dt' = t)
  /\ (~ 86400 <= t < (MAXORDINAL + 1) * 86400 ->
      add_seconds dt s = Raise OverflowError).
Proof.
  intros Hwf t. subst t.
  unfold add_seconds, timeline_seconds. cbv zeta.
  set (total := second_of_day dt + s).
  pose proof (Z.div_mod total 86400 ltac:(lia)) as E1.
  pose proof (Z.mod_pos_bound total 86400 ltac:(lia)) as B1.
  set (q := total / 86400) in *. set (secs := total mod 86400) in *.
  pose proof (Z.div_mod secs 3600 ltac:(lia)) as E2.
  pose proof (Z.mod_pos_bound secs 3600 ltac:(lia)) as B2.
  set (h := secs / 3600) in *. set (rm := secs mod 3600) in *.
  pose proof (Z.div_mod rm 60 ltac:(lia)) as E3.
  pose proof (Z.mod_pos_bound rm 60 ltac:(lia)) as B3.
  set (mi := rm / 60) in *. set (se := rm mod 60) in *.
  set (days := toordinal dt + q).
  assert (Et : toordinal dt * 86400 + second_of_day dt + s
               = days * 86400 + secs) by (subst days total; lia).
  rewrite Et. unfold MAXORDINAL in *.
  clearbody h rm mi se q secs.
  split.
  - intro Hr.
    destruct (Z.ltb_spec 0 days); [|lia].
    destruct (Z.leb_spec days 3652059); [|lia]. cbn [andb].
    destruct (ord2ymd days) as [[y m] d] eqn:Eo.
    apply ord2ymd_spec in Eo; [|lia].
    destruct Eo as (Hy & Hm & Hd & Ho).
    assert (Hy' : y <= 9999).
    { destruct (Z_le_gt_dec y 9999) as [?|Hgt]; [assumption|exfalso].
      pose proof (days_before_year_late y ltac:(lia)) as Hl.
      rewrite days_in_month_leap_eq in Hd.
      destruct (month_facts (is_leap y) m d Hm Hd) as (Hm0 & _).
      rewrite ymd2ord_leap_eq in Ho. unfold MAXORDINAL in Hl. lia. }
    assert (Hc : check_date_fields y m d = true).
    { unfold check_date_fields, MINYEAR, MAXYEAR.
      repeat (apply andb_true_intro; split); apply Z.leb_le; lia. }
    eexists. split; [reflexivity|]. split.
    + apply well_formed_intro; [exact Hc|lia..].
    + unfold toordinal, second_of_day.
      cbn [year month day hour minute second]. rewrite Ho. lia.
  - intro Hr.
    destruct (Z.ltb_spec 0 days); cbn [andb]; [|reflexivity].
    destruct (Z.leb_spec days 3652059); [lia|reflexivity].
Qed.

Lemma strptime_ymd_ok (s : string) (dt : datetime) :
  strptime_ymd s = Ok dt ->
  hour dt = 0 /\ minute dt = 0 /\ second dt = 0
  /\ check_date_fields (year dt) (month dt) (day dt) = true.
Proof.
  unfold strptime_ymd.
  destruct (match_ymd (decode_utf8 s)) as [[[[y m] d] rest]|];
    [|discriminate].
  destruct rest; [|discriminate].
  unfold new_date.
  destruct (check_date_fields y m d) eqn:Hc; [|discriminate].
  intro H. injection H as <-. cbn [year month day hour minute second].
  repeat split. exact Hc.
Qed.

(** Six hours after midnight is 06:00 of the same civil date. *)
Lemma add_six_hours (dt : datetime) :
  hour dt = 0 -> minute dt = 0 -> second dt = 0 ->
  check_date_fields (year dt) (month dt) (day dt) = true ->
  add_seconds dt (6 * 3600)
  = Ok (mk_datetime (year dt) (month dt) (day dt) 6 0 0).
Proof.
  intros Hh Hm Hs Hc.
  pose proof (ymd2ord_bounds _ _ _ Hc) as Hb.
  unfold add_seconds, second_of_day, toordinal. rewrite Hh, Hm, Hs.
  change (0 * 3600 + 0 * 60 + 0 + 6 * 3600) with 21600.
  change (21600 / 86400) with 0. change (21600 mod 86400) with 21600.
  change (21600 / 3600) with 6. change (21600 mod 3600) with 0.
  change (0 / 60) with 0. change (0 mod 60) with 0.
  cbv zeta. rewrite Z.add_0_r.
  destruct (Z.ltb_spec 0 (ymd2ord (year dt) (month dt) (day dt))); [|lia].
  destruct (Z.leb_spec (ymd2ord (year dt) (month dt) (day dt)) MAXORDINAL);
    [|lia].
  cbn [andb].
  unfold check_date_fields, MINYEAR in Hc.
  repeat (apply andb_prop in Hc; destruct Hc as [Hc ?]).
  repeat match goal with
         | H : (_ <=? _) = true |- _ => apply Z.leb_le in H
         end.
  rewrite ord2ymd_ymd2ord by lia. reflexivity.
Qed.

Lemma fractional_hour_eq (dt : datetime) :
  fractional_hour dt
  = Ok (fadd (fadd (of_int (hour dt))
                   (fdiv (of_int (minute dt)) (of_int 60)))
             (fdiv (of_int (second dt)) (of_int 3600))).
Proof.
  pose proof one_pos as H1.
  unfold fractional_hour, truediv.
  rewrite (of_int_exact 60), (of_int_exact 3600) by (simpl; lia).
  rewrite !nonzero_fin by lia. reflexivity.
Qed.

(** ** The time normalizer *)

(** C2, as the code has it.  For a date string that [strptime] accepts,
    a recognized timezone and the UTC offset [off] that the zone gives
    06:00 of that civil date: the local anchor is 06:00 of the date with
    offset [off].  When the instant [6 * 3600 - off] seconds after the
    date's midnight is still within [datetime]'s range (years 1 to 9999),
    the UTC anchor is the well-formed [datetime] of exactly that instant
    and [swe.julday] receives its year, month and day with the fractional
    hour [hour + minute / 60.0 + second / 3600.0]; otherwise the
    conversion raises [OverflowError].  For 2026-02-06 in Asia/Kolkata
    (UTC+05:30) the anchor is 06:00 local, 00:30 UTC, with fractional
    hour 0.5. *)
Theorem anchor_six_hours_local_in_utc :
  (forall (pytz_timezone : string -> option tzinfo)
          (julday : Z -> Z -> Z -> float -> float)
          (date tz : string) (z : tzinfo) (dt0 : datetime) (off : Z),
      pytz_timezone tz = Some z ->
      strptime_ymd date = Ok dt0 ->
      let naive := mk_datetime (year dt0) (month dt0) (day dt0) 6 0 0 in
      localize z naive = Ok off ->
      let t := timeline_seconds dt0 + 6 * 3600 - off in
      second_of_day dt0 = 0 /\
      well_formed dt0 = true /\
      anchor_local pytz_timezone date tz = Ok (naive, off) /\
      (86400 <= t < (MAXORDINAL + 1) * 86400 ->
       exists dt_utc h,
         anchor_utc pytz_timezone date tz = Ok dt_utc /\
         well_formed dt_utc = true /\
         timeline_seconds dt_utc = t /\
         h = fadd (fadd (of_int (hour dt_utc))
                        (fdiv (of_int (minute dt_utc)) (of_int 60)))
                  (fdiv (of_int (second dt_utc)) (of_int 3600)) /\
         jd_ut pytz_timezone julday date tz
         = Ok (julday (year dt_utc) (month dt_utc) (day dt_utc) h)) /\
      (~ 86400 <= t < (MAXORDINAL + 1) * 86400 ->
       anchor_utc pytz_timezone date tz = Raise OverflowError /\
       jd_ut pytz_timezone julday date tz = Raise OverflowError))
  /\ anchor_local sample_timezone "2026-02-06" "Asia/Kolkata"
     = Ok (mk_datetime 2026 2 6 6 0 0, 5 * 3600 + 30 * 60)
  /\ anchor_utc sample_timezone "2026-02-06" "Asia/Kolkata"
     = Ok (mk_datetime 2026 2 6 0 30 0)
  /\ fractional_hour (mk_datetime 2026 2 6 0 30 0) = Ok half.
Proof.
  split; [|by_evaluation].
  intros pytz_timezone julday date tz z dt0 off Htz Hparse naive Hloc t.
  destruct (strptime_ymd_ok _ _ Hparse) as (Hh & Hm & Hs & Hc).
  assert (Hsod : second_of_day dt0 = 0)
    by (unfold second_of_day; rewrite Hh, Hm, Hs; reflexivity).
  assert (Hwf0 : well_formed dt0 = true).
  { destruct dt0 as [y m d h mi s]. cbn in Hh, Hm, Hs, Hc. subst h mi s.
    apply well_formed_intro; [exact Hc|lia..]. }
  assert (Hwf : well_formed naive = true)
    by (apply well_formed_intro; [exact Hc|lia..]).
  assert (Hloc' : anchor_local pytz_timezone date tz = Ok (naive, off)).
  { unfold anchor_local. rewrite Htz. cbn [bind]. rewrite Hparse. cbn [bind].
    rewrite add_six_hours by assumption. cbn [bind].
    fold naive. rewrite Hloc. reflexivity. }
  split; [exact Hsod|]. split; [exact Hwf0|]. split; [exact Hloc'|].
  assert (Et : timeline_seconds naive + - off = t).
  { subst t naive. unfold timeline_seconds, second_of_day, toordinal.
    cbn [year month day hour minute second]. rewrite Hh, Hm, Hs. lia. }
  destruct (add_seconds_spec naive (- off) Hwf) as [Hok Hov].
  cbv zeta in Hok, Hov. rewrite Et in Hok, Hov.
  assert (Hutc : anchor_utc pytz_timezone date tz = add_seconds naive (- off)).
  { unfold anchor_utc. rewrite Hloc'. reflexivity. }
  split.
  - intro Hr.
    destruct (Hok Hr) as (dt_utc & Hadd & Hwfu & Htl).
    rewrite Hadd in Hutc.
    exists dt_utc. eexists.
    split; [exact Hutc|]. split; [exact Hwfu|]. split; [exact Htl|].
    split; [reflexivity|].
    unfold jd_ut. rewrite Hutc. cbn [bind].
    rewrite fractional_hour_eq. reflexivity.
  - intro Hr. rewrite (Hov Hr) in Hutc.
    split; [exact Hutc|].
    unfold jd_ut. rewrite Hutc. reflexivity.
Qed.

Lemma anchor_six_hours_local_in_utc_witness :
  exists dt_utc h,
    anchor_utc sample_timezone "2026-02-06" "Asia/Kolkata" = Ok dt_utc /\
    well_formed dt_utc = true /\
    timeline_seconds dt_utc
    = timeline_seconds (mk_datetime 2026 2 6 0 0 0) + 6 * 3600 - 19800 /\
    jd_ut sample_timezone sample_julday "2026-02-06" "Asia/Kolkata"
    = Ok (sample_julday (year dt_utc) (month dt_utc) (day dt_utc) h).
Proof.
  destruct anchor_six_hours_local_in_utc as [H _].
  destruct (H sample_timezone sample_julday "2026-02-06"%string
              "Asia/Kolkata"%string (fixed_offset 19800)
              (mk_datetime 2026 2 6 0 0 0) 19800
              eq_refl eq_refl eq_refl)
    as (_ & _ & _ & Hutc & _).
  destruct Hutc as (dt_utc & h & H1 & H2 & H3 & _ & H5).
  - vm_compute. split; [discriminate|reflexivity].
  - exists dt_utc, h.
    split; [exact H1|]. split; [exact H2|]. split; [exact H3|exact H5].
Defined.

(** The claim's "every valid date" meets the edge of [datetime]'s
    range: 06:00 on 0001-01-01 nine hours east of Greenwich is an instant
    of the year before year 1, and the conversion to UTC raises
    [OverflowError] instead of yielding an anchor. *)
Lemma anchor_overflows_at_year_one :
  strptime_ymd "0001-01-01" = Ok (mk_datetime 1 1 1 0 0 0) /\
  anchor_local sample_timezone "0001-01-01" "Etc/GMT-9"
    = Ok (mk_datetime 1 1 1 6 0 0, 9 * 3600) /\
  anchor_utc sample_timezone "0001-01-01" "Etc/GMT-9" = Raise OverflowError /\
  jd_ut sample_timezone sample_julday "0001-01-01" "Etc/GMT-9"
    = Raise OverflowError.
Proof.
  by_evaluation.
Qed.

(** ** Parsing the date string *)

Lemma strptime_ymd_raises (s : string) (e : exn) :
  strptime_ymd s = Raise e -> e = ValueError.
Proof.
  unfold strptime_ymd.
  destruct (match_ymd (decode_utf8 s)) as [[[[y m] d] rest]|];
    [|congruence].
  destruct rest; [|congruence].
  unfold new_date. destruct (check_date_fields y m d); congruence.
Qed.

(** *** The pieces of the pattern *)

Lemma digit_in_inv (lo hi c v : Z) :
  digit_in lo hi c = Some v -> 48 + lo <= c <= 48 + hi /\ v = c - 48.
Proof.
  unfold digit_in.
  destruct (Z.leb_spec (48 + lo) c), (Z.leb_spec c (48 + hi));
    cbn [andb]; intro E; try discriminate E.
  injection E as <-. lia.
Qed.

Lemma orelse_inv {A : Type} (x y : option A) (z : A) :
  orelse x y = Some z -> x = Some z \/ (x = None /\ y = Some z).
Proof.
  destruct x as [a|]; cbn; intro H; [left|right; split]; congruence.
Qed.

Lemma two_digits_inv (p1 p2 : Z -> option Z) (s r : list Z) (v : Z) :
  two_digits p1 p2 s = Some (v, r) ->
  exists a b va vb,
    s = a :: b :: r /\ p1 a = Some va /\ p2 b = Some vb
    /\ v = 10 * va + vb.
Proof.
  unfold two_digits. destruct s as [|a [|b rest]]; try discriminate.
  destruct (p1 a) as [va|] eqn:Ea; [|discriminate].
  destruct (p2 b) as [vb|] eqn:Eb; [|discriminate].
  intro H. injection H as <- <-.
  exists a, b, va, vb. repeat split; assumption.
Qed.

Lemma one_digit_inv (p : Z -> option Z) (s r : list Z) (v : Z) :
  one_digit p s = Some (v, r) -> exists a, s = a :: r /\ p a = Some v.
Proof.
  unfold one_digit. destruct s as [|a rest]; [discriminate|].
  destruct (p a) as [va|] eqn:E; [|discriminate].
  intro H. injection H as <- <-. exists a. split; [reflexivity|exact E].
Qed.

Lemma lit_inv (c : Z) (s r : list Z) : lit c s = Some r -> s = c :: r.
Proof.
  unfold lit. destruct s as [|a rest]; [discriminate|].
  destruct (Z.eqb_spec a c) as [->|]; [|discriminate].
  intro H. injection H as <-. reflexivity.
Qed.

(** The year: four decimal digits. *)
Lemma re_Y_field (Y r : list Z) (y : Z) :
  year_field Y = Some y -> re_Y (Y ++ r) = Some (y, r).
Proof.
  unfold year_field.
  destruct Y as [|a [|b [|c [|d [|]]]]]; try discriminate.
  cbn [app re_Y].
  destruct (digit a), (digit b), (digit c), (digit d); try discriminate.
  intro H. injection H as <-. reflexivity.
Qed.

Lemma re_Y_inv (s r : list Z) (y : Z) :
  re_Y s = Some (y, r) -> exists Y, s = Y ++ r /\ year_field Y = Some y.
Proof.
  unfold re_Y. destruct s as [|a [|b [|c [|d rest]]]]; try discriminate.
  destruct (digit a) as [va|] eqn:Ea; [|discriminate].
  destruct (digit b) as [vb|] eqn:Eb; [|discriminate].
  destruct (digit c) as [vc|] eqn:Ec; [|discriminate].
  destruct (digit d) as [vd|] eqn:Ed; [|discriminate].
  intro H. injection H as <- <-.
  exists [a; b; c; d]. split; [reflexivity|].
  unfold year_field. rewrite Ea, Eb, Ec, Ed. reflexivity.
Qed.

(** The month, followed by the hyphen. *)
Lemma re_m_field (M r : list Z) (m : Z) :
  month_field M = Some m -> re_m (M ++ 45 :: r) = Some (m, 45 :: r).
Proof.
  unfold month_field.
  destruct M as [|c1 [|c2 [|]]]; try discriminate; cbn [app]; intro H.
  - unfold re_m, two_digits.
    change (digit_in 0 2 45) with (@None Z).
    change (digit_in 1 9 45) with (@None Z).
    destruct (digit_in 1 1 c1), (digit_in 0 0 c1); cbn [orelse];
      unfold one_digit; rewrite H; reflexivity.
  - destruct (Z.eqb_spec c1 48) as [->|N48].
    + unfold re_m, two_digits.
      change (digit_in 1 1 48) with (@None Z).
      change (digit_in 0 0 48) with (Some 0).
      rewrite H. reflexivity.
    + destruct (Z.eqb_spec c1 49) as [->|N49]; [|discriminate].
      destruct (digit_in 0 2 c2) as [v|] eqn:E; [|discriminate].
      injection H as <-.
      unfold re_m, two_digits.
      change (digit_in 1 1 49) with (Some 1).
      rewrite E. reflexivity.
Qed.

Lemma re_m_inv (s r : list Z) (m : Z) :
  re_m s = Some (m, r) -> exists M, s = M ++ r /\ month_field M = Some m.
Proof.
  unfold re_m. intro H.
  apply orelse_inv in H. destruct H as [H|[_ H]].
  { apply two_digits_inv in H.
    destruct H as (a & b & va & vb & -> & Ha & Hb & ->).
    apply digit_in_inv in Ha. destruct Ha as [Ha ->].
    assert (a = 49) by lia. subst a.
    exists [49; b]. split; [reflexivity|].
    unfold month_field. cbn [Z.eqb Pos.eqb]. rewrite Hb. reflexivity. }
  apply orelse_inv in H. destruct H as [H|[_ H]].
  { apply two_digits_inv in H.
    destruct H as (a & b & va & vb & -> & Ha & Hb & ->).
    apply digit_in_inv in Ha. destruct Ha as [Ha ->].
    assert (a = 48) by lia. subst a.
    exists [48; b]. split; [reflexivity|].
    unfold month_field. cbn [Z.eqb Pos.eqb]. rewrite Hb. reflexivity. }
  apply one_digit_inv in H. destruct H as (a & -> & Ha).
  exists [a]. split; [reflexivity|exact Ha].
Qed.

(** The day, which ends the text. *)
Lemma re_d_field (D : list Z) (d : Z) :
  day_field D = Some d -> re_d D = Some (d, []).
Proof.
  unfold day_field.
  destruct D as [|c1 [|c2 [|]]]; try discriminate; intro H.
  - unfold re_d, two_digits, one_digit, orelse. rewrite H. reflexivity.
  - destruct (Z.eqb_spec c1 32) as [->|N32]; cbn [orb] in H.
    { unfold re_d, two_digits.
      change (digit_in 3 3 32) with (@None Z).
      change (digit_in 1 2 32) with (@None Z).
      change (digit_in 0 0 32) with (@None Z).
      cbn [orelse]. unfold one_digit at 1.
      change (digit_in 1 9 32) with (@None Z). cbn [orelse lit Z.eqb Pos.eqb].
      unfold one_digit. rewrite H. reflexivity. }
    destruct (Z.eqb_spec c1 48) as [->|N48].
    { unfold re_d, two_digits.
      change (digit_in 3 3 48) with (@None Z).
      change (digit_in 1 2 48) with (@None Z).
      change (digit_in 0 0 48) with (Some 0).
      rewrite H. reflexivity. }
    destruct (Z.eqb_spec c1 49) as [->|N49].
    { destruct (digit c2) as [v|] eqn:E; [|discriminate].
      injection H as <-.
      unfold re_d, two_digits.
      change (digit_in 3 3 49) with (@None Z).
      change (digit_in 1 2 49) with (Some 1).
      rewrite E. reflexivity. }
    destruct (Z.eqb_spec c1 50) as [->|N50].
    { destruct (digit c2) as [v|] eqn:E; [|discriminate].
      injection H as <-.
      unfold re_d, two_digits.
      change (digit_in 3 3 50) with (@None Z).
      change (digit_in 1 2 50) with (Some 2).
      rewrite E. reflexivity. }
    destruct (Z.eqb_spec c1 51) as [->|N51]; [|discriminate].
    destruct (digit_in 0 1 c2) as [v|] eqn:E; [|discriminate].
    injection H as <-.
    unfold re_d, two_digits.
    change (digit_in 3 3 51) with (Some 3).
    rewrite E. reflexivity.
Qed.

Lemma re_d_inv (s r : list Z) (d : Z) :
  re_d s = Some (d, r) -> exists D, s = D ++ r /\ day_field D = Some d.
Proof.
  unfold re_d. intro H.
  apply orelse_inv in H. destruct H as [H|[_ H]].
  { apply two_digits_inv in H.
    destruct H as (a & b & va & vb & -> & Ha & Hb & ->).
    apply digit_in_inv in Ha. destruct Ha as [Ha ->].
    assert (a = 51) by lia. subst a.
    exists [51; b]. split; [reflexivity|].
    unfold day_field. cbn [Z.eqb Pos.eqb orb]. rewrite Hb. reflexivity. }
  apply orelse_inv in H. destruct H as [H|[_ H]].
  { apply two_digits_inv in H.
    destruct H as (a & b & va & vb & -> & Ha & Hb & ->).
    apply digit_in_inv in Ha. destruct Ha as [Ha ->].
    assert (Ea : a = 49 \/ a = 50) by lia.
    destruct Ea as [-> | ->]; [exists [49; b]|exists [50; b]];
      (split; [reflexivity|]);
      unfold day_field; cbn [Z.eqb Pos.eqb orb]; rewrite Hb; reflexivity. }
  apply orelse_inv in H. destruct H as [H|[_ H]].
  { apply two_digits_inv in H.
    destruct H as (a & b & va & vb & -> & Ha & Hb & ->).
    apply digit_in_inv in Ha. destruct Ha as [Ha ->].
    assert (a = 48) by lia. subst a.
    exists [48; b]. split; [reflexivity|].
    unfold day_field. cbn [Z.eqb Pos.eqb orb]. rewrite Hb. reflexivity. }
  apply orelse_inv in H. destruct H as [H|[_ H]].
  { apply one_digit_inv in H. destruct H as (a & -> & Ha).
    exists [a]. split; [reflexivity|exact Ha]. }
  destruct (lit 32 s) as [rest|] eqn:El; [|discriminate].
  apply lit_inv in El. subst s.
  apply one_digit_inv in H. destruct H as (a & -> & Ha).
  exists [32; a]. split; [reflexivity|].
  unfold day_field. cbn [Z.eqb Pos.eqb orb]. exact Ha.
Qed.

(** The matcher accepts exactly the texts [Y-M-D], and reads the numbers
    of their fields. *)
Lemma match_ymd_date_text (t : list Z) (y m d : Z) :
  match_ymd t = Some (y, m, d, []) <-> date_text t y m d.
Proof.
  split.
  - unfold match_ymd. intro H.
    destruct (re_Y t) as [[y0 s1]|] eqn:EY; [|discriminate].
    destruct (lit 45 s1) as [s2|] eqn:E1; [|discriminate].
    destruct (re_m s2) as [[m0 s3]|] eqn:EM; [|discriminate].
    destruct (lit 45 s3) as [s4|] eqn:E2; [|discriminate].
    destruct (re_d s4) as [[d0 s5]|] eqn:ED; [|discriminate].
    injection H as -> -> -> ->.
    apply re_Y_inv in EY. destruct EY as (Y & -> & HY).
    apply lit_inv in E1. subst s1.
    apply re_m_inv in EM. destruct EM as (M & -> & HM).
    apply lit_inv in E2. subst s3.
    apply re_d_inv in ED. destruct ED as (D & -> & HD).
    exists Y, M, D. rewrite app_nil_r. repeat split; assumption.
  - intros (Y & M & D & -> & HY & HM & HD).
    unfold match_ymd.
    rewrite (re_Y_field Y _ y HY). cbn [lit Z.eqb Pos.eqb].
    rewrite (re_m_field M _ m HM). cbn [lit Z.eqb Pos.eqb].
    rewrite (re_d_field D d HD). reflexivity.
Qed.

Lemma strptime_date_text (s : string) (y m d : Z) :
  date_text (decode_utf8 s) y m d -> strptime_ymd s = new_date y m d.
Proof.
  intro H. apply match_ymd_date_text in H.
  unfold strptime_ymd. rewrite H. reflexivity.
Qed.

Lemma strptime_not_date_text (s : string) :
  (forall y m d, date_text (decode_utf8 s) y m d ->
                 check_date_fields y m d = false) ->
  strptime_ymd s = Raise ValueError.
Proof.
  intro H. unfold strptime_ymd.
  destruct (match_ymd (decode_utf8 s)) as [[[[y m] d] rest]|] eqn:E;
    [|reflexivity].
  destruct rest; [|reflexivity].
  apply match_ymd_date_text in E.
  unfold new_date. rewrite (H y m d E). reflexivity.
Qed.

(** *** Texts of the shape YYYY-MM-DD *)

Lemma decimal_cases (v : Z) :
  0 <= v <= 9 ->
  v = 0 \/ v = 1 \/ v = 2 \/ v = 3 \/ v = 4 \/ v = 5 \/ v = 6 \/ v = 7
  \/ v = 8 \/ v = 9.
Proof. lia. Qed.

(** Case analysis on a decimal digit. *)
Ltac by_digit v H :=
  let C := fresh "C" in
  pose proof (decimal_cases v H) as C;
  repeat (destruct C as [C|C]; [rewrite C in *; clear C|]);
  [..|rewrite C in *; clear C].

Lemma digit_digit_char (v : Z) :
  0 <= v <= 9 -> digit (48 + v) = Some v.
Proof. intro H. by_digit v H; reflexivity. Qed.

Lemma decode_digit_char (v : Z) (rest : string) :
  0 <= v <= 9 ->
  decode_utf8 (String (digit_char v) rest) = (48 + v) :: decode_utf8 rest.
Proof. intro H. by_digit v H; reflexivity. Qed.

Lemma is_digit_char_digit_char (v : Z) :
  0 <= v <= 9 -> is_digit_char (digit_char v) = true.
Proof. intro H. by_digit v H; reflexivity. Qed.

(** The month of a two-digit field followed by a hyphen. *)
Lemma re_m_two_digits {A : Type} (K : Z -> list Z -> option A)
    (e f : Z) (rest : list Z) :
  0 <= e <= 9 -> 0 <= f <= 9 ->
  match re_m ((48 + e) :: (48 + f) :: 45 :: rest) with
  | Some (m, s3) =>
      match lit 45 s3 with
      | Some s4 => K m s4
      | None => None
      end
  | None => None
  end
  = if (1 <=? 10 * e + f) && (10 * e + f <=? 12)
    then K (10 * e + f) rest else None.
Proof.
  intros He Hf. by_digit e He; by_digit f Hf; reflexivity.
Qed.

(** The day of a two-digit field that ends the text. *)
Lemma re_d_two_digits {A : Type} (K : Z -> list Z -> A) (N : A) (g h : Z) :
  0 <= g <= 9 -> 0 <= h <= 9 ->
  match re_d [48 + g; 48 + h] with
  | Some (d, s5) => K d s5
  | None => N
  end
  = if (1 <=? 10 * g + h) && (10 * g + h <=? 31)
    then K (10 * g + h) []
    else if 1 <=? g then K g [48 + h] else N.
Proof.
  intros Hg Hh. by_digit g Hg; by_digit h Hh; reflexivity.
Qed.

Lemma days_in_month_le_31 (y m : Z) : days_in_month y m <= 31.
Proof.
  unfold days_in_month. destruct (_ && _); [lia|].
  unfold tbl, DAYS_IN_MONTH.
  destruct (Z.to_nat m) as [|[|[|[|[|[|[|[|[|[|[|[|[|[|n]]]]]]]]]]]]]];
    simpl; lia.
Qed.

Lemma new_date_invalid (y m d : Z) :
  ~ (1 <= m <= 12 /\ 1 <= d <= 31) -> new_date y m d = Raise ValueError.
Proof.
  intro H. unfold new_date, check_date_fields.
  pose proof (days_in_month_le_31 y m).
  destruct (MINYEAR <=? y), (y <=? MAXYEAR), (Z.leb_spec 1 m),
    (Z.leb_spec m 12), (Z.leb_spec 1 d),
    (Z.leb_spec d (days_in_month y m)); cbn [andb]; try reflexivity; lia.
Qed.

(** On a text of the shape YYYY-MM-DD the parser succeeds exactly when
    the three numbers form a date of the calendar. *)
Lemma strptime_iso_date_string (a b c d e f g h : Z) :
  0 <= a <= 9 -> 0 <= b <= 9 -> 0 <= c <= 9 -> 0 <= d <= 9 ->
  0 <= e <= 9 -> 0 <= f <= 9 -> 0 <= g <= 9 -> 0 <= h <= 9 ->
  strptime_ymd (iso_date_string a b c d e f g h)
  = new_date (1000 * a + 100 * b + 10 * c + d) (10 * e + f) (10 * g + h).
Proof.
  intros Ha Hb Hc Hd He Hf Hg Hh.
  unfold strptime_ymd, iso_date_string.
  rewrite !decode_digit_char by assumption.
  change (decode_utf8 (String "-" ?r)) with (45 :: decode_utf8 r).
  rewrite !decode_digit_char by assumption.
  change (decode_utf8 (String "-" ?r)) with (45 :: decode_utf8 r).
  rewrite !decode_digit_char by assumption.
  change (decode_utf8 "") with (@nil Z).
  unfold match_ymd, re_Y.
  rewrite !digit_digit_char by assumption.
  cbn [lit Z.eqb Pos.eqb].
  set (Y := 1000 * a + 100 * b + 10 * c + d).
  rewrite (re_m_two_digits
             (fun m s4 => match re_d s4 with
                          | Some (d0, s5) => Some (Y, m, d0, s5)
                          | None => None
                          end)) by assumption.
  destruct ((1 <=? 10 * e + f) && (10 * e + f <=? 12)) eqn:Em.
  - rewrite (re_d_two_digits
               (fun d0 s5 => Some (Y, 10 * e + f, d0, s5)) None)
      by assumption.
    destruct ((1 <=? 10 * g + h) && (10 * g + h <=? 31)) eqn:Ed.
    + reflexivity.
    + assert (Hbad : ~ (1 <= 10 * e + f <= 12 /\ 1 <= 10 * g + h <= 31)).
      { intros [_ [H1 H2]]. apply Z.leb_le in H1. apply Z.leb_le in H2.
        rewrite H1, H2 in Ed. discriminate. }
      rewrite (new_date_invalid _ _ _ Hbad).
      destruct (1 <=? g); reflexivity.
  - assert (Hbad : ~ (1 <= 10 * e + f <= 12 /\ 1 <= 10 * g + h <= 31)).
    { intros [[H1 H2] _]. apply Z.leb_le in H1. apply Z.leb_le in H2.
      rewrite H1, H2 in Em. discriminate. }
    rewrite (new_date_invalid _ _ _ Hbad). reflexivity.
Qed.

(** ** Failures of the normalizer

    The code has no error kinds of its own: a date that [strptime]
    rejects surfaces as Python's [ValueError] (the specification's
    InvalidDateFormat), an unknown zone as [pytz.UnknownTimeZoneError]
    (UnknownTimeZone). *)

(** C3, as the code has it.  The timezone is resolved first: an unknown
    [tz] raises [UnknownTimeZoneError] whatever the date string.  With a
    recognized [tz] the request raises [ValueError] whenever the date
    string is not a text [Y-M-D] that denotes a date of the calendar:
    [Y] four decimal digits, [M] a month written [1]..[9], [01]..[09] or
    [10]..[12], [D] a day written [1]..[9], the same after a zero or a
    space, or [10]..[31]; the date exists when the year is at least 1
    and the day is within the month's length.  A text of that form
    parses to its numbers, and with a recognized [tz] the local anchor
    is then whatever the zone makes of 06:00 of that date.  On a text of
    the shape YYYY-MM-DD the rejection happens exactly when the numbers
    are not a date of the calendar (year 0000, month 00 or above 12, day
    00 or beyond the month's length).  So "2026-02-30" raises
    [ValueError] with a recognized zone, as do "2026/02/06",
    "2026-02-06x", "2026- 2-06" (a space is admitted before the day
    only) and the empty string; and "Mars/Phobos", absent from the zone
    table, raises [UnknownTimeZoneError]. *)
Theorem normalizer_failures :
  (forall (pytz_timezone : string -> option tzinfo)
          (julday : Z -> Z -> Z -> float -> float)
          (calc_ut : float -> body -> result float)
          (round6 : float -> float)
          (date tz : string) (lat lon : float),
      pytz_timezone tz = None ->
      jd_ut pytz_timezone julday date tz = Raise UnknownTimeZoneError /\
      astro pytz_timezone julday calc_ut round6 date tz lat lon
      = Raise UnknownTimeZoneError) /\
  (forall (pytz_timezone : string -> option tzinfo)
          (julday : Z -> Z -> Z -> float -> float)
          (calc_ut : float -> body -> result float)
          (round6 : float -> float)
          (date tz : string) (lat lon : float) (z : tzinfo),
      pytz_timezone tz = Some z ->
      (forall y m d, date_text (decode_utf8 date) y m d ->
                     check_date_fields y m d = false) ->
      strptime_ymd date = Raise ValueError /\
      jd_ut pytz_timezone julday date tz = Raise ValueError /\
      astro pytz_timezone julday calc_ut round6 date tz lat lon
      = Raise ValueError) /\
  (forall (pytz_timezone : string -> option tzinfo)
          (date tz : string) (z : tzinfo) (y m d : Z),
      pytz_timezone tz = Some z ->
      date_text (decode_utf8 date) y m d ->
      check_date_fields y m d = true ->
      strptime_ymd date = Ok (mk_datetime y m d 0 0 0) /\
      anchor_local pytz_timezone date tz
      = (off <- localize z (mk_datetime y m d 6 0 0) ;;
         Ok (mk_datetime y m d 6 0 0, off))) /\
  (forall a b c d e f g h : Z,
      0 <= a <= 9 -> 0 <= b <= 9 -> 0 <= c <= 9 -> 0 <= d <= 9 ->
      0 <= e <= 9 -> 0 <= f <= 9 -> 0 <= g <= 9 -> 0 <= h <= 9 ->
      has_iso_shape (iso_date_string a b c d e f g h) = true /\
      strptime_ymd (iso_date_string a b c d e f g h)
      = if check_date_fields (1000 * a + 100 * b + 10 * c + d)
             (10 * e + f) (10 * g + h)
        then Ok (mk_datetime (1000 * a + 100 * b + 10 * c + d)
                   (10 * e + f) (10 * g + h) 0 0 0)
        else Raise ValueError) /\
  iso_date_string 2 0 2 6 0 2 3 0 = "2026-02-30"%string /\
  strptime_ymd "2026-02-30" = Raise ValueError /\
  strptime_ymd "2026/02/06" = Raise ValueError /\
  strptime_ymd "2026-02-06x" = Raise ValueError /\
  strptime_ymd "2026- 2-06" = Raise ValueError /\
  strptime_ymd "" = Raise ValueError /\
  sample_timezone "Mars/Phobos" = None.
Proof.
  split; [|split; [|split; [|split; [|by_evaluation]]]].
  - intros pytz_timezone julday calc_ut round6 date tz lat lon Htz.
    assert (E : jd_ut pytz_timezone julday date tz
                = Raise UnknownTimeZoneError).
    { unfold jd_ut, anchor_utc, anchor_local. rewrite Htz. reflexivity. }
    split; [exact E|]. unfold astro. rewrite E. reflexivity.
  - intros pytz_timezone julday calc_ut round6 date tz lat lon z Htz Hbad.
    pose proof (strptime_not_date_text date Hbad) as Ep.
    assert (E : jd_ut pytz_timezone julday date tz = Raise ValueError).
    { unfold jd_ut, anchor_utc, anchor_local. rewrite Htz. cbn [bind].
      rewrite Ep. reflexivity. }
    split; [exact Ep|]. split; [exact E|].
    unfold astro. rewrite E. reflexivity.
  - intros pytz_timezone date tz z y m d Htz Htext Hvalid.
    assert (Ep : strptime_ymd date = Ok (mk_datetime y m d 0 0 0)).
    { rewrite (strptime_date_text date y m d Htext).
      unfold new_date. rewrite Hvalid. reflexivity. }
    split; [exact Ep|].
    unfold anchor_local. rewrite Htz. cbn [bind]. rewrite Ep. cbn [bind].
    rewrite add_six_hours by (try reflexivity; exact Hvalid).
    reflexivity.
  - intros a b c d e f g h Ha Hb Hc Hd He Hf Hg Hh. split.
    + unfold has_iso_shape, iso_date_string.
      rewrite !is_digit_char_digit_char by assumption. reflexivity.
    + apply strptime_iso_date_string; assumption.
Qed.

Lemma normalizer_failures_witness :
  astro sample_timezone sample_julday sample_calc_ut sample_round6
    "2026-02-06" "Mars/Phobos" zero zero = Raise UnknownTimeZoneError
  /\ astro sample_timezone sample_julday sample_calc_ut sample_round6
       "2026-02-30" "Asia/Kolkata" zero zero = Raise ValueError
  /\ astro sample_timezone sample_julday sample_calc_ut sample_round6
       "2026/02/06" "Asia/Kolkata" zero zero = Raise ValueError
  /\ strptime_ymd "2026-2-6" = Ok (mk_datetime 2026 2 6 0 0 0)
  /\ strptime_ymd (iso_date_string 2 0 2 6 1 3 0 1) = Raise ValueError.
Proof.
  destruct normalizer_failures as (H1 & H2 & H3 & H4 & _).
  split; [|split; [|split; [|split]]].
  - apply H1. reflexivity.
  - apply (H2 sample_timezone sample_julday sample_calc_ut sample_round6
              "2026-02-30"%string "Asia/Kolkata"%string zero zero
              (fixed_offset 19800) eq_refl).
    intros y m d E. apply match_ymd_date_text in E.
    vm_compute in E. injection E as <- <- <-. reflexivity.
  - apply (H2 sample_timezone sample_julday sample_calc_ut sample_round6
              "2026/02/06"%string "Asia/Kolkata"%string zero zero
              (fixed_offset 19800) eq_refl).
    intros y m d E. apply match_ymd_date_text in E.
    vm_compute in E. discriminate E.
  - apply (H3 sample_timezone "2026-2-6"%string "Asia/Kolkata"%string
              (fixed_offset 19800) 2026 2 6 eq_refl); [|reflexivity].
    exists [50; 48; 50; 54], [50], [54].
    repeat split; reflexivity.
  - destruct (H4 2 0 2 6 1 3 0 1) as [_ E]; try lia. exact E.
Defined.

(** The claim as stated fails twice.  An impossible date with an unknown
    zone raises [UnknownTimeZoneError], not [ValueError]; and "2026-2-6",
    which is not of the shape YYYY-MM-DD, is accepted as 6 February
    2026, as are "2026-02- 6" and the same date written with other
    decimal digits than the ASCII ones. *)
Lemma invalid_date_not_always_rejected :
  strptime_ymd "2026-02-30" = Raise ValueError /\
  jd_ut sample_timezone sample_julday "2026-02-30" "Mars/Phobos"
    = Raise UnknownTimeZoneError /\
  jd_ut sample_timezone sample_julday "2026-02-30" "Mars/Phobos"
    <> Raise ValueError /\
  has_iso_shape "2026-2-6" = false /\
  strptime_ymd "2026-2-6" = Ok (mk_datetime 2026 2 6 0 0 0) /\
  anchor_utc sample_timezone "2026-2-6" "Asia/Kolkata"
    = Ok (mk_datetime 2026 2 6 0 30 0) /\
  has_iso_shape "2026-02- 6" = false /\
  strptime_ymd "2026-02- 6" = Ok (mk_datetime 2026 2 6 0 0 0) /\
  has_iso_shape "２０２６-02-06" = false /\
  strptime_ymd "２０２６-02-06" = Ok (mk_datetime 2026 2 6 0 0 0) /\
  strptime_ymd "2026-02-1५" = Ok (mk_datetime 2026 2 15 0 0 0).
Proof.
  assert (E : jd_ut sample_timezone sample_julday "2026-02-30" "Mars/Phobos"
              = Raise UnknownTimeZoneError) by reflexivity.
  split; [reflexivity|]. split; [exact E|].
  split; [rewrite E; discriminate|].
  by_evaluation.
Qed.

(** ** The endpoint: what the response depends on *)

(** C8.  [lat] and [lon] are parameters of [astro] that its body never
    reads: two requests that differ only there get the same outcome,
    response or exception. *)
Theorem astro_ignores_lat_lon
    (pytz_timezone : string -> option tzinfo)
    (julday : Z -> Z -> Z -> float -> float)
    (calc_ut : float -> body -> result float)
    (round6 : float -> float)
    (date tz : string) (lat1 lon1 lat2 lon2 : float) :
  astro pytz_timezone julday calc_ut round6 date tz lat1 lon1
  = astro pytz_timezone julday calc_ut round6 date tz lat2 lon2.
Proof.
  reflexivity.
Qed.

(** C10.  A successful response echoes the request's [date] and [tz]
    under the keys ["date"] and ["timezone"]. *)
Theorem astro_echoes_date_and_tz
    (pytz_timezone : string -> option tzinfo)
    (julday : Z -> Z -> Z -> float -> float)
    (calc_ut : float -> body -> result float)
    (round6 : float -> float)
    (date tz : string) (lat lon : float) (r : response) :
  astro pytz_timezone julday calc_ut round6 date tz lat lon = Ok r ->
  r_date r = date /\ r_timezone r = tz.
Proof.
  unfold astro. intro H.
  do 7 bind_inv H.
  injection H as <-. split; reflexivity.
Qed.

Lemma astro_echoes_date_and_tz_witness :
  astro sample_timezone sample_julday sample_calc_ut sample_round6
    "2026-02-06" "Asia/Kolkata" (of_ratio 286139 10000)
    (of_ratio 77209 1000) = Ok sample_response
  /\ r_date sample_response = "2026-02-06"%string
  /\ r_timezone sample_response = "Asia/Kolkata"%string.
Proof.
  assert (E : astro sample_timezone sample_julday sample_calc_ut
                sample_round6 "2026-02-06" "Asia/Kolkata"
                (of_ratio 286139 10000) (of_ratio 77209 1000)
              = Ok sample_response) by (vm_compute; reflexivity).
  split; [exact E|].
  exact (astro_echoes_date_and_tz sample_timezone sample_julday
           sample_calc_ut sample_round6 "2026-02-06" "Asia/Kolkata"
           (of_ratio 286139 10000) (of_ratio 77209 1000) sample_response E).
Defined.

(** * Further properties of the classifiers *)

(** ** Floor division of negative longitudes *)

(** [v // w] for a negative [v] and a divisor [w = c * 1.0]: the
    remainder is moved to the divisor's sign and the quotient lowered by
    one, which is the floor, not the truncation. *)
Lemma floordiv_floor_neg (a c : Z) :
  a < 0 -> 0 < c -> c * (1 - a / (c * one)) < 2 ^ 53 ->
  floordiv (FFin a) (FFin (c * one)) = Ok (FFin (a / (c * one) * one)).
Proof.
  intros Ha Hc Hk. pose proof one_pos as H1.
  set (w := c * one) in *.
  assert (Hw : 0 < w) by (subst w; pnia).
  pose proof (Z.quot_rem' a w) as Eq.
  assert (Br : - w < Z.rem a w <= 0).
  { rewrite rem_nonpos by plia.
    pose proof (Z.mod_pos_bound (- a) w Hw). plia. }
  set (q := Z.quot a w) in *. set (md := Z.rem a w) in *.
  assert (Hq0 : q <= 0) by pnia.
  assert (Hfloor : a / w = if md =? 0 then q else q - 1).
  { destruct (Z.eqb_spec md 0) as [E|E].
    - symmetry. apply (Z.div_unique a w q 0); plia.
    - symmetry. apply (Z.div_unique a w (q - 1) (md + w)); plia. }
  assert (Hkq : - 2 ^ 53 < c * (q - 1)).
  { destruct (Z.eqb_spec md 0); rewrite Hfloor in Hk; pnia. }
  unfold floordiv. rewrite nonzero_fin by plia.
  unfold float_div_mod.
  assert (Hfm : fmod (FFin a) (FFin w) = FFin md).
  { unfold fmod. destruct (Z.eqb_spec w 0); [plia|reflexivity]. }
  rewrite Hfm, fsub_fin.
  replace (a - md) with (w * q) by plia.
  assert (Hsub : round_z (w * q) = FFin (w * q)).
  { subst w. replace (c * one * q) with (c * q * one) by plia.
    apply round_z_integer. pnia. }
  rewrite Hsub, fdiv_exact by (try plia; pnia).
  rewrite Hfloor.
  destruct (Z.eqb_spec md 0) as [E|E].
  - rewrite E. change (nonzero (FFin 0)) with false.
    cbv beta iota zeta. cbn [fst].
    rewrite snap_integral. reflexivity.
  - rewrite (nonzero_fin md E).
    unfold zero. rewrite !flt_fin.
    destruct (Z.ltb_spec w 0); [plia|].
    destruct (Z.ltb_spec md 0); [|plia].
    cbn [Bool.eqb negb]. unfold one_f. rewrite fsub_fin.
    replace (q * one - one) with ((q - 1) * one) by plia.
    rewrite round_z_integer by pnia.
    cbv beta iota zeta. cbn [fst].
    rewrite snap_integral. reflexivity.
Qed.

Lemma units_lt (x y : Z) : x * one < y * one -> x < y.
Proof.
  intro Hxy. apply (Z.mul_lt_mono_pos_r one); [exact one_pos|exact Hxy].
Qed.

(** [lon // 30] is the floor of the exact quotient for every longitude
    of magnitude below 2^52 degrees. *)
Lemma floordiv_30_floor (a : Z) :
  Z.abs a < 2 ^ 52 * one ->
  floordiv (FFin a) (FFin (30 * one)) = Ok (FFin (a / (30 * one) * one)).
Proof.
  intro Ha. pose proof one_pos as H1.
  assert (P52 : 2 ^ 52 = 4503599627370496) by reflexivity.
  assert (P53 : 2 ^ 53 = 9007199254740992) by reflexivity.
  pose proof (Z.div_mod a (30 * one) ltac:(plia)) as E.
  pose proof (Z.mod_pos_bound a (30 * one) ltac:(plia)) as B.
  set (k := a / (30 * one)) in *. set (r := a mod (30 * one)) in *.
  assert (Hup : 30 * k < 2 ^ 52) by (apply units_lt; plia).
  assert (Hlo : - 2 ^ 52 - 30 < 30 * k) by (apply units_lt; plia).
  destruct (Z_lt_le_dec a 0).
  - apply floordiv_floor_neg; fold k; plia.
  - apply floordiv_floor; fold k; plia.
Qed.

Lemma zodiac_index_floor (a : Z) :
  Z.abs a < 2 ^ 52 * one ->
  zodiac_index (FFin a) = Ok ((a / (30 * one)) mod 12).
Proof.
  intro Ha. unfold zodiac_index.
  rewrite of_int_30, floordiv_30_floor by exact Ha.
  cbn [bind]. rewrite to_int_integral. reflexivity.
Qed.

(** X1.  For every longitude of magnitude below 2^52 degrees, negative
    or beyond 360 included, [zodiac_from_longitude] returns the sign of
    index [floor(lon / 30) mod 12], the floor taken toward minus infinity
    as in the specification's formula; so the sign does not change when
    the longitude moves by whole turns of 360 degrees. *)
Theorem zodiac_floors_every_longitude (a : Z) :
  Z.abs a < 2 ^ 52 * one ->
  let i := (a / (30 * one)) mod 12 in
  0 <= i < 12 /\
  zodiac_index (FFin a) = Ok i /\
  zodiac_index_spec (inject_Z a / inject_Z one)%Q = i /\
  (exists sign, nth_error SIGNS (Z.to_nat i) = Some sign /\
                zodiac_from_longitude (FFin a) = Ok sign) /\
  forall k : Z,
    Z.abs (a + 360 * one * k) < 2 ^ 52 * one ->
    zodiac_from_longitude (FFin (a + 360 * one * k))
    = zodiac_from_longitude (FFin a).
Proof.
  intros Ha i. pose proof one_pos as H1.
  assert (Hi : 0 <= i < 12) by (apply Z.mod_pos_bound; plia).
  split; [exact Hi|].
  split; [apply zodiac_index_floor; exact Ha|].
  split; [apply zodiac_index_spec_units|].
  split.
  - destruct (getitem_nth SIGNS i Hi) as (sign & Hn & Hg).
    exists sign. split; [exact Hn|].
    unfold zodiac_from_longitude. rewrite zodiac_index_floor by exact Ha.
    exact Hg.
  - intros k Hk. unfold zodiac_from_longitude.
    rewrite !zodiac_index_floor by assumption.
    replace (a + 360 * one * k) with (a + (12 * k) * (30 * one)) by plia.
    rewrite Z.div_add by plia.
    replace (a / (30 * one) + 12 * k) with (a / (30 * one) + k * 12) by plia.
    rewrite Z.mod_add by plia. reflexivity.
Qed.

Lemma zodiac_floors_every_longitude_witness :
  zodiac_index (FFin (- (1) * one)) = Ok 11 /\
  zodiac_from_longitude (FFin (- (1) * one + 360 * one * 1))
  = zodiac_from_longitude (FFin (- (1) * one)).
Proof.
  assert (H : Z.abs (- (1) * one) < 2 ^ 52 * one).
  { pose proof one_pos. rewrite Z.abs_neq by plia.
    assert (2 ^ 52 = 4503599627370496) by reflexivity. plia. }
  pose proof (zodiac_floors_every_longitude (- (1) * one) H) as T.
  cbv zeta in T. destruct T as (_ & Hi & _ & _ & Hs).
  assert (E : (- (1) * one / (30 * one)) mod 12 = 11).
  { pose proof one_pos.
    rewrite <- (Z.div_unique (- (1) * one) (30 * one) (-1) (29 * one)) by plia.
    reflexivity. }
  rewrite E in Hi. split; [exact Hi|].
  apply Hs. pose proof one_pos.
  assert (2 ^ 52 = 4503599627370496) by reflexivity.
  rewrite Z.abs_eq by plia. plia.
Defined.

(** ** Nakshatra: sectors of one double width *)

(** Quotients below 1024 round to a double at most [2^-44] away. *)
Lemma round_q_error (p q : Z) :
  0 <= p -> 0 < q -> p / q < 2 ^ 1084 ->
  exists r, round_q p q = FFin r /\ 0 <= r
            /\ Z.abs (r * q - p) <= 2 ^ 1030 * q.
Proof.
  intros Hp Hq Hpq.
  destruct pow2_facts as (E31 & P30 & _ & _ & _ & Hbig).
  unfold round_q, round_pos, spacing_exp. rewrite (Z.abs_eq p) by plia.
  pose proof (Z.div_pos p q Hp Hq) as Hf.
  set (s := Z.max 0 (Z.log2 (p / q) - 52)).
  assert (Hs : 0 <= s <= 1031).
  { subst s. destruct (Z.eq_dec (p / q) 0) as [->|Hm0]; [simpl; plia|].
    assert (Z.log2 (p / q) < 1084) by (apply Z.log2_lt_pow2; plia). plia. }
  assert (Hp2 : 0 < 2 ^ s) by (apply Z.pow_pos_nonneg; plia).
  assert (Hle : 2 ^ s <= 2 ^ 1031) by (apply Z.pow_le_mono_r; plia).
  assert (HQ : 0 < q * 2 ^ s) by pnia.
  pose proof (round_half_even_bound p (q * 2 ^ s) HQ) as Hb.
  pose proof (round_half_even_nonneg p (q * 2 ^ s) Hp HQ) as Hr.
  set (h := round_half_even p (q * 2 ^ s)) in *.
  set (T := 2 ^ s) in *. set (E30 := 2 ^ 1030) in *.
  set (X := h * T).
  assert (HX : 0 <= X) by (subst X; pnia).
  assert (EX : h * (q * T) = X * q) by (subst X; plia).
  rewrite EX in Hb.
  assert (HqT : q * T <= 2 * (E30 * q)) by pnia.
  assert (Herr : Z.abs (X * q - p) <= E30 * q) by plia.
  pose proof (Z.div_mod p q ltac:(plia)) as Ed.
  pose proof (Z.mod_pos_bound p q Hq) as Bd.
  assert (Hpl : p < q * 2 ^ 1084).
  { assert (q * (p / q + 1) <= q * 2 ^ 1084)
      by (apply Z.mul_le_mono_nonneg_l; plia). plia. }
  assert (HXo : X < overflow_threshold).
  { assert (X * q < (2 ^ 1084 + E30) * q) by plia.
    assert (X < 2 ^ 1084 + E30)
      by (apply (Z.mul_lt_mono_pos_r q); [exact Hq|assumption]). plia. }
  destruct (Z.leb_spec overflow_threshold X); [plia|].
  destruct (Z.eq_dec p 0) as [->|Hp0].
  - exists 0. split; [now f_equal|]. split; [plia|].
    rewrite Z.mul_0_l. change (Z.abs (0 - 0)) with 0.
    apply Z.mul_nonneg_nonneg; plia.
  - exists X. rewrite Z.sgn_pos, Z.mul_1_l by plia.
    split; [reflexivity|]. split; assumption.
Qed.

(** The snapping step of [float_div_mod] recovers the integer [k] from a
    quotient within [2^-43] of it. *)
Lemma snap_near (r k : Z) :
  0 <= k < 2 ^ 53 -> 0 <= r -> Z.abs (r - k * one) <= 2 ^ 1031 ->
  (if nonzero (FFin r) then
     if flt half (fsub (FFin r) (ffloor (FFin r)))
     then fadd (ffloor (FFin r)) one_f
     else ffloor (FFin r)
   else zero) = FFin (k * one).
Proof.
  intros Hk Hr Hnear. pose proof one_pos as H1.
  destruct pow2_facts as (E31 & P30 & L & E1 & E84 & _).
  assert (P73 : 0 < 2 ^ 1073) by (apply Z.pow_pos_nonneg; plia).
  destruct (Z.eq_dec r 0) as [->|Hr0].
  - assert (k = 0) by pnia. subst k. reflexivity.
  - rewrite nonzero_fin by exact Hr0. unfold ffloor, half, one_f.
    rewrite fsub_fin.
    destruct (Z_le_gt_dec (k * one) r) as [Hge|Hlt].
    + assert (Ek : r / one = k)
        by (symmetry; apply (Z.div_unique r one k (r - k * one)); plia).
      rewrite Ek.
      destruct (round_z_below (r - k * one) (2 ^ 1031) 1 1031)
        as (x & -> & Hx & _); try plia.
      { unfold overflow_threshold. apply Z.pow_lt_mono_r; plia. }
      rewrite flt_fin.
      destruct (Z.ltb_spec (2 ^ 1073) x); [plia|reflexivity].
    + assert (Ek : r / one = k - 1).
      { symmetry.
        apply (Z.div_unique r one (k - 1) (r - (k - 1) * one)); plia. }
      rewrite Ek.
      assert (Hn : Z.abs (r - (k - 1) * one) < 2 ^ 1084) by plia.
      destruct (round_z_error _ Hn) as (x & -> & Hx & _).
      rewrite flt_fin.
      destruct (Z.ltb_spec (2 ^ 1073) x); [|plia].
      cbn [fadd]. replace ((k - 1) * one + one) with (k * one) by plia.
      apply round_z_integer. plia.
Qed.

(** A quotient computed from a dividend off by [E] and itself off by
    [E] is within [2 * E] of the exact one. *)
Lemma quotient_near (u r1 r2 k W E : Z) :
  0 < u <= W -> 0 <= E ->
  Z.abs (r1 - W * k) <= E -> Z.abs (r2 * W - r1 * u) <= E * W ->
  Z.abs (r2 - k * u) <= 2 * E.
Proof.
  intros Hu HE H1 H2.
  assert (H3 : Z.abs ((r1 - W * k) * u) <= E * u).
  { rewrite Z.abs_mul, (Z.abs_eq u) by plia.
    apply Z.mul_le_mono_nonneg_r; plia. }
  assert (H4 : E * u <= E * W) by (apply Z.mul_le_mono_nonneg_l; plia).
  assert (H5 : (r2 - k * u) * W = (r2 * W - r1 * u) + (r1 - W * k) * u)
    by ring.
  assert (H6 : Z.abs (r2 - k * u) * W <= 2 * E * W).
  { rewrite <- (Z.abs_eq W) at 1 by plia. rewrite <- Z.abs_mul, H5. plia. }
  apply (Z.mul_le_mono_pos_r _ _ W); plia.
Qed.

(** The double [360 / 27] and what the proofs use of it. *)
Lemma sector_width_facts :
  exists W, int_truediv 360 27 = Ok (FFin W)
            /\ 13 * one < W < 14 * one /\ 360 * one < 27 * W
            /\ 40 * one <= 3 * W /\ 27 * (3 * W - 40 * one) <= one.
Proof.
  eexists. split; [vm_compute; reflexivity|].
  repeat match goal with |- _ /\ _ => split end;
    first [apply Z.ltb_lt | apply Z.leb_le]; vm_compute; reflexivity.
Qed.

(** [lon // (360 / 27)] on the domain is the exact floor of the
    quotient by the double width, although neither rounding inside the
    float division is exact. *)
Lemma floordiv_sector_width (a W : Z) :
  13 * one < W < 14 * one -> 360 * one < 27 * W ->
  0 <= a < 360 * one ->
  floordiv (FFin a) (FFin W) = Ok (FFin (a / W * one)).
Proof.
  intros HW H27 Ha. pose proof one_pos as H1.
  destruct pow2_facts as (E31 & P30 & L & E1 & E84 & _).
  pose proof (Z.div_mod a W ltac:(plia)) as Ed.
  pose proof (Z.mod_pos_bound a W ltac:(plia)) as Bd.
  assert (Hk : 0 <= a / W < 27) by (apply sector_bounds; plia).
  set (k := a / W) in *. set (md := a mod W) in *.
  unfold floordiv. rewrite nonzero_fin by plia.
  unfold float_div_mod.
  rewrite fmod_fin_nonneg by plia. fold md.
  rewrite fsub_fin. replace (a - md) with (W * k) by plia.
  assert (HWk : 0 <= W * k <= a) by pnia.
  destruct (round_z_error (W * k)) as (r1 & -> & Hr1 & Hr1p & _); [plia|].
  specialize (Hr1p ltac:(plia)).
  unfold fdiv. destruct (Z.eqb_spec W 0); [plia|].
  rewrite Z.sgn_pos, Z.mul_1_l, Z.abs_eq by plia.
  assert (Hq : r1 * one / W < 2 ^ 1084).
  { apply Z.div_lt_upper_bound; [plia|]. pnia. }
  destruct (round_q_error (r1 * one) W) as (r2 & -> & Hr2p & Hr2);
    [pnia|plia|exact Hq|].
  assert (Hnear : Z.abs (r2 - k * one) <= 2 ^ 1031).
  { rewrite E31. apply (quotient_near one r1 r2 k W); try assumption; plia. }
  assert (Hflt : negb (Bool.eqb (flt (FFin W) zero) (flt (FFin md) zero))
                 = false).
  { unfold zero. rewrite !flt_fin.
    destruct (Z.ltb_spec W 0); [plia|].
    destruct (Z.ltb_spec md 0); [plia|]. reflexivity. }
  rewrite Hflt.
  assert (P53 : 2 ^ 53 = 9007199254740992) by reflexivity.
  destruct (nonzero (FFin md)); cbv beta iota zeta; cbn [fst];
    rewrite (snap_near r2 k) by (try assumption; plia); reflexivity.
Qed.

(** The exact formula [floor(lon / (360/27)) mod 27] on the value of a
    float. *)
Lemma nakshatra_index_spec_units (a : Z) :
  nakshatra_index_spec (inject_Z a / inject_Z one)%Q
  = (27 * a / (360 * one)) mod 27.
Proof.
  pose proof one_pos as H1.
  unfold nakshatra_index_spec. f_equal.
  destruct one as [|p|p] eqn:E1; try plia.
  unfold Qdiv, Qmult, Qinv, inject_Z, Qfloor. cbn [Qnum Qden].
  rewrite !Z.mul_1_r. rewrite Pos2Z.inj_mul. f_equal; plia.
Qed.

(** Sectors of a width slightly above [40/3] lag the exact ones by at
    most one place on a circle. *)
Lemma sector_index_gap (u W a : Z) :
  0 < u -> 40 * u <= 3 * W -> 27 * (3 * W - 40 * u) <= u ->
  0 <= a < 360 * u ->
  27 * a / (360 * u) - 1 <= a / W <= 27 * a / (360 * u).
Proof.
  intros Hu HW Hd Ha.
  assert (Hs : 0 <= 27 * a / (360 * u) < 27)
    by (apply sector_bounds; plia).
  pose proof (Z.div_mod (27 * a) (360 * u) ltac:(plia)) as Es.
  pose proof (Z.mod_pos_bound (27 * a) (360 * u) ltac:(plia)) as Bs.
  pose proof (Z.div_mod a W ltac:(plia)) as Ei.
  pose proof (Z.mod_pos_bound a W ltac:(plia)) as Bi.
  assert (Hi : 0 <= a / W) by (apply Z.div_pos; plia).
  set (s := 27 * a / (360 * u)) in *. set (i := a / W) in *.
  split.
  - destruct (Z.eq_dec s 0) as [E0|N0]; [plia|].
    apply Z.div_le_lower_bound; [plia|].
    assert (H1 : (3 * W - 40 * u) * (s - 1) <= (3 * W - 40 * u) * 27)
      by (apply Z.mul_le_mono_nonneg_l; plia).
    assert (H2 : 3 * (W * (s - 1))
                 = 40 * (u * s) - 40 * u + (3 * W - 40 * u) * (s - 1))
      by ring.
    assert (H3 : 360 * (u * s) <= 27 * a) by plia.
    plia.
  - apply Z.div_le_lower_bound; [plia|].
    assert (H1 : 40 * u * i <= 3 * W * i)
      by (apply Z.mul_le_mono_nonneg_r; plia).
    plia.
Qed.

(** On [0, 360) the code's index is the floor of the longitude by the
    double [360 / 27]. *)
Lemma nakshatra_index_in_domain (a W : Z) :
  int_truediv 360 27 = Ok (FFin W) ->
  0 <= a < 360 * one ->
  0 <= a / W < 27 /\ nakshatra_index (FFin a) = Ok (a / W).
Proof.
  intros HW Ha. pose proof one_pos as H1.
  destruct sector_width_facts as (W' & HW' & Hr & H27 & _).
  rewrite HW in HW'. injection HW' as <-.
  assert (Hi : 0 <= a / W < 27) by (apply sector_bounds; plia).
  split; [exact Hi|].
  unfold nakshatra_index. rewrite HW. cbn [bind].
  rewrite floordiv_sector_width by assumption. cbn [bind].
  rewrite to_int_integral. cbn [bind].
  unfold int_mod. cbn [Z.eqb]. rewrite Z.mod_small by exact Hi.
  reflexivity.
Qed.

(** X2.  For every longitude of the domain [0, 360) the nakshatra index
    the code computes is the exact floor of the longitude by the double
    [360 / 27]: the two roundings inside the float floor division never
    show.  The index lies in 0..26, the table entry at that index is
    returned, and against the exact formula [floor(lon / (360/27))] the
    index is either the same or one less, never ahead. *)
Theorem nakshatra_floors_by_double_width (a W : Z) :
  int_truediv 360 27 = Ok (FFin W) ->
  0 <= a < 360 * one ->
  let i := a / W in
  0 <= i < 27
  /\ nakshatra_index (FFin a) = Ok i
  /\ (exists nak, nth_error NAKSHATRAS (Z.to_nat i) = Some nak
                  /\ nakshatra_from_longitude (FFin a) = Ok nak)
  /\ nakshatra_index_spec (inject_Z a / inject_Z one)%Q - 1 <= i
     <= nakshatra_index_spec (inject_Z a / inject_Z one)%Q.
Proof.
  intros HW Ha i. pose proof one_pos as H1.
  destruct (nakshatra_index_in_domain a W HW Ha) as (Hi & Hidx).
  fold i in Hi, Hidx.
  destruct sector_width_facts as (W' & HW' & Hr & H27 & H40 & Hd).
  rewrite HW in HW'. injection HW' as <-.
  split; [exact Hi|]. split; [exact Hidx|]. split.
  - destruct (getitem_nth NAKSHATRAS i Hi) as (nak & Hn & Hg).
    exists nak. split; [exact Hn|].
    unfold nakshatra_from_longitude. rewrite Hidx. exact Hg.
  - rewrite nakshatra_index_spec_units.
    rewrite Z.mod_small by (apply sector_bounds; plia).
    apply sector_index_gap; plia.
Qed.

Lemma nakshatra_floors_by_double_width_witness :
  nakshatra_index (FFin (40 * one)) = Ok 2
  /\ nakshatra_index_spec (inject_Z (40 * one) / inject_Z one)%Q = 3.
Proof.
  pose proof one_pos as H1.
  assert (E : int_truediv 360 27
              = Ok (FFin (7505999378950827 * 2 ^ 1025)))
    by (vm_compute; reflexivity).
  assert (Ha : 0 <= 40 * one < 360 * one) by plia.
  assert (Ei : 40 * one / (7505999378950827 * 2 ^ 1025) = 2)
    by (vm_compute; reflexivity).
  pose proof (nakshatra_floors_by_double_width
                (40 * one) (7505999378950827 * 2 ^ 1025) E Ha)
    as (_ & Hi & _ & _).
  rewrite Ei in Hi. split; [exact Hi|].
  vm_compute; reflexivity.
Defined.

(** ** Finite in, finite out *)

(** The largest finite double [(2^53 - 1) * 2^2045] and the bounds used
    below, in units. *)
Lemma float_max_facts :
  (2 ^ 53 - 1) * 2 ^ 2045 < overflow_threshold
  /\ (2 ^ 53 - 1) * 2 ^ 2045 = 2 * ((2 ^ 53 - 1) * 2 ^ 2044)
  /\ (2 ^ 53 - 1) * 2 ^ 2044 + one <= 2 ^ 52 * 2 ^ 2045
  /\ 2 ^ 52 * 2 ^ 2045 + one <= (2 ^ 53 - 1) * 2 ^ 2045
  /\ 2 ^ 52 * 2 ^ 2045 < overflow_threshold.
Proof.
  assert (P53 : 2 ^ 53 = 9007199254740992) by reflexivity.
  assert (P52 : 2 ^ 52 = 4503599627370496) by reflexivity.
  assert (E45 : 2 ^ 2045 = 2 * 2 ^ 2044)
    by (change 2045 with (Z.succ 2044); apply Z.pow_succ_r; plia).
  assert (E98 : overflow_threshold = 2 ^ 53 * 2 ^ 2045)
    by (unfold overflow_threshold; rewrite <- Z.pow_add_r by plia;
        reflexivity).
  assert (L1 : one <= 2 ^ 2044)
    by (unfold one; apply Z.pow_le_mono_r; plia).
  pose proof one_pos as H1.
  rewrite E98, P53, P52, E45. set (T := 2 ^ 2044) in *.
  repeat split; plia.
Qed.

(** A quotient of magnitude at most a double [B = M * 2^j] rounds to a
    double of magnitude at most [B], of the same sign. *)
Lemma round_q_finite (p q B M j : Z) :
  0 < q -> Z.abs p <= B * q ->
  0 <= j -> 0 < M < 2 ^ 53 -> B = M * 2 ^ j -> B < overflow_threshold ->
  exists r, round_q p q = FFin r /\ Z.abs r <= B
            /\ (0 <= p -> 0 <= r) /\ (p <= 0 -> r <= 0).
Proof.
  intros Hq Hp Hj HM HB Ho.
  unfold round_q, round_pos, spacing_exp.
  set (m := Z.abs p) in *.
  assert (Hm : 0 <= m) by (subst m; plia).
  assert (HB0 : 0 < B).
  { rewrite HB. apply Z.mul_pos_pos; [plia|]. apply Z.pow_pos_nonneg; plia. }
  assert (Hf : 0 <= m / q <= B).
  { split; [apply Z.div_pos; plia|].
    apply Z.div_le_upper_bound; [exact Hq|]. plia. }
  set (s := Z.max 0 (Z.log2 (m / q) - 52)).
  assert (Hl : Z.log2 (m / q) <= j + Z.log2 M).
  { rewrite <- Z.log2_mul_pow2 by plia. apply Z.log2_le_mono. plia. }
  assert (HlM : Z.log2 M < 53) by (apply Z.log2_lt_pow2; plia).
  assert (Hs : 0 <= s <= j) by (subst s; plia).
  assert (Hp2 : 0 < 2 ^ s) by (apply Z.pow_pos_nonneg; plia).
  assert (EB : B = M * 2 ^ (j - s) * 2 ^ s).
  { rewrite HB, <- Z.mul_assoc, <- Z.pow_add_r by plia. do 2 f_equal. plia. }
  assert (Hb0 : 0 < M * 2 ^ (j - s)).
  { apply Z.mul_pos_pos; [plia|]. apply Z.pow_pos_nonneg; plia. }
  set (T := 2 ^ s) in *. set (b := M * 2 ^ (j - s)) in *.
  assert (HQ : 0 < q * T) by (apply Z.mul_pos_pos; assumption).
  assert (HmQ : m <= q * T * b) by (rewrite EB in Hp; plia).
  assert (Hdiv : m / (q * T) <= b)
    by (apply Z.div_le_upper_bound; assumption).
  pose proof (Z.div_mod m (q * T) ltac:(plia)) as En.
  pose proof (Z.mod_pos_bound m (q * T) HQ) as Bn.
  pose proof (Z.div_pos m (q * T) Hm HQ) as Pn.
  assert (Hh : 0 <= round_half_even m (q * T) <= b).
  { destruct (Z.eq_dec (m / (q * T)) b) as [Eq|Ne].
    - assert (Hm0 : m mod (q * T) = 0) by (rewrite Eq in En; plia).
      rewrite round_half_even_divisible by assumption. plia.
    - destruct (round_half_even_cases m (q * T) HQ) as [-> | ->]; plia. }
  set (h := round_half_even m (q * T)) in *.
  assert (HhT : 0 <= h * T <= B).
  { split; [apply Z.mul_nonneg_nonneg; plia|].
    rewrite EB. apply Z.mul_le_mono_nonneg_r; plia. }
  destruct (Z.leb_spec overflow_threshold (h * T)); [plia|].
  exists (Z.sgn p * (h * T)). split; [reflexivity|].
  destruct (Z.sgn_spec p) as [[? ->]|[[? ->]|[? ->]]]; plia.
Qed.

Lemma round_z_finite (n B M j : Z) :
  Z.abs n <= B ->
  0 <= j -> 0 < M < 2 ^ 53 -> B = M * 2 ^ j -> B < overflow_threshold ->
  exists r, round_z n = FFin r /\ Z.abs r <= B
            /\ (0 <= n -> 0 <= r) /\ (n <= 0 -> r <= 0).
Proof.
  intros Hn Hj HM HB Ho. unfold round_z.
  apply (round_q_finite n 1 B M j); try assumption; plia.
Qed.

(** The snapping step of [float_div_mod] on a finite quotient. *)
Lemma snap_finite (r : Z) :
  Z.abs r <= 2 ^ 52 * 2 ^ 2045 ->
  exists x,
    (if nonzero (FFin r) then
       if flt half (fsub (FFin r) (ffloor (FFin r)))
       then fadd (ffloor (FFin r)) one_f
       else ffloor (FFin r)
     else zero) = FFin x.
Proof.
  intro Hr. pose proof one_pos as H1.
  destruct float_max_facts as (Ho & E2 & L1 & L2 & Ho2).
  destruct (nonzero (FFin r)); [|eexists; reflexivity].
  unfold ffloor, half, one_f. rewrite fsub_fin.
  pose proof (Z.div_mod r one ltac:(plia)) as Ed.
  pose proof (Z.mod_pos_bound r one H1) as Bd.
  assert (E1 : one = 1 * 2 ^ 1074) by (unfold one; plia).
  assert (O1 : one < overflow_threshold).
  { unfold one, overflow_threshold. apply Z.pow_lt_mono_r; plia. }
  assert (P53 : 2 ^ 53 = 9007199254740992) by reflexivity.
  destruct (round_z_below (r - r / one * one) one 1 1074)
    as (y & -> & _); [plia|plia|plia|exact E1|exact O1|].
  rewrite flt_fin. destruct (2 ^ 1073 <? y); [|eexists; reflexivity].
  cbn [fadd].
  destruct (round_z_finite (r / one * one + one)
              ((2 ^ 53 - 1) * 2 ^ 2045) (2 ^ 53 - 1) 2045)
    as (x & -> & _); try plia.
  eexists; reflexivity.
Qed.

(** [v // w] is finite for every finite [v] and every divisor [w] of at
    least 2.0. *)
Lemma floordiv_finite (a w : Z) :
  Z.abs a <= (2 ^ 53 - 1) * 2 ^ 2045 -> 2 * one <= w ->
  exists r, floordiv (FFin a) (FFin w) = Ok (FFin r).
Proof.
  intros Ha Hw. pose proof one_pos as H1.
  destruct float_max_facts as (Ho & E2 & L1 & L2 & Ho2).
  assert (P53 : 2 ^ 53 = 9007199254740992) by reflexivity.
  unfold floordiv. rewrite nonzero_fin by plia.
  unfold float_div_mod, fmod.
  destruct (Z.eqb_spec w 0); [plia|].
  rewrite fsub_fin.
  assert (Hsub : Z.abs (a - Z.rem a w) <= Z.abs a).
  { pose proof (Z.quot_rem' a w) as Eq.
    destruct (Z_le_gt_dec 0 a) as [Hpos|Hneg].
    - pose proof (Z.mul_quot_le a w Hpos ltac:(plia)).
      pose proof (Z.quot_pos a w Hpos ltac:(plia)).
      assert (0 <= w * (a ÷ w)) by (apply Z.mul_nonneg_nonneg; plia). plia.
    - pose proof (Z.mul_quot_ge a w ltac:(plia) ltac:(plia)). plia. }
  destruct (round_z_finite (a - Z.rem a w)
              ((2 ^ 53 - 1) * 2 ^ 2045) (2 ^ 53 - 1) 2045)
    as (r1 & -> & Hr1 & _); try plia.
  unfold fdiv. destruct (Z.eqb_spec w 0); [plia|].
  rewrite Z.sgn_pos, Z.mul_1_l, (Z.abs_eq w) by plia.
  assert (HB1 : 0 <= (2 ^ 53 - 1) * 2 ^ 2044) by plia.
  assert (Hp : Z.abs (r1 * one) <= (2 ^ 53 - 1) * 2 ^ 2044 * w).
  { rewrite Z.abs_mul, (Z.abs_eq one) by plia.
    assert (Z.abs r1 * one <= (2 ^ 53 - 1) * 2 ^ 2045 * one)
      by (apply Z.mul_le_mono_nonneg_r; plia).
    assert ((2 ^ 53 - 1) * 2 ^ 2044 * (2 * one)
            <= (2 ^ 53 - 1) * 2 ^ 2044 * w)
      by (apply Z.mul_le_mono_nonneg_l; plia).
    rewrite E2 in H.
    replace (2 * ((2 ^ 53 - 1) * 2 ^ 2044) * one)
      with ((2 ^ 53 - 1) * 2 ^ 2044 * (2 * one)) in H by ring.
    exact (Z.le_trans _ _ _ H H0). }
  destruct (round_q_finite (r1 * one) w ((2 ^ 53 - 1) * 2 ^ 2044)
              (2 ^ 53 - 1) 2044)
    as (r2 & -> & Hr2 & _); try plia; try reflexivity.
  assert (Hdiv : exists r3,
             snd (if nonzero (FFin (Z.rem a w)) then
                    if negb (Bool.eqb (flt (FFin w) zero)
                                      (flt (FFin (Z.rem a w)) zero))
                    then (fadd (FFin (Z.rem a w)) (FFin w),
                          fsub (FFin r2) one_f)
                    else (FFin (Z.rem a w), FFin r2)
                  else (zero, FFin r2)) = FFin r3
             /\ Z.abs r3 <= 2 ^ 52 * 2 ^ 2045).
  { destruct (nonzero _); [|exists r2; split; [reflexivity|plia]].
    destruct (negb _); [|exists r2; split; [reflexivity|plia]].
    cbn [snd]. unfold one_f. rewrite fsub_fin.
    destruct (round_z_finite (r2 - one) (2 ^ 52 * 2 ^ 2045) (2 ^ 52) 2045)
      as (r3 & -> & Hr3 & _); try plia; try reflexivity.
    exists r3. split; [reflexivity|exact Hr3]. }
  destruct Hdiv as (r3 & E3 & Hr3).
  destruct (if nonzero (FFin (Z.rem a w)) then _ else _) as [md dv].
  cbn [snd] in E3. subst dv.
  cbv beta iota zeta. cbn [fst].
  destruct (snap_finite r3 Hr3) as (x & ->).
  exists x. reflexivity.
Qed.

(** Every double is at most the largest finite one in magnitude. *)
Lemma is_double_bounded (a : Z) :
  is_double (FFin a) = true -> Z.abs a <= (2 ^ 53 - 1) * 2 ^ 2045.
Proof.
  unfold is_double, round_z, round_q, round_pos, spacing_exp.
  rewrite Z.div_1_r, Z.mul_1_l.
  set (m := Z.abs a). set (s := Z.max 0 (Z.log2 m - 52)).
  set (h := round_half_even m (2 ^ s)).
  destruct (Z.leb_spec overflow_threshold (h * 2 ^ s)) as [Ho|Ho];
    [discriminate|].
  intro E. apply Z.eqb_eq in E.
  assert (Hma : m = Z.abs a) by reflexivity.
  assert (Em : m = h * 2 ^ s).
  { destruct (Z.sgn_spec a) as [[Hpos Es]|[[Hz Es]|[Hneg Es]]];
      rewrite Es in E.
    - plia.
    - subst h s m. rewrite <- Hz. reflexivity.
    - plia. }
  assert (Hm0 : 0 <= m) by (subst m; plia).
  assert (P53 : 2 ^ 53 = 9007199254740992) by reflexivity.
  assert (E98 : overflow_threshold = 2 ^ 53 * 2 ^ 2045)
    by (unfold overflow_threshold; rewrite <- Z.pow_add_r by plia;
        reflexivity).
  assert (E97 : 2 ^ 2097 = 2 ^ 52 * 2 ^ 2045)
    by (rewrite <- Z.pow_add_r by plia; reflexivity).
  assert (P52 : 2 ^ 52 = 4503599627370496) by reflexivity.
  assert (P45 : 0 < 2 ^ 2045) by (apply Z.pow_pos_nonneg; plia).
  destruct (Z_lt_le_dec m (2 ^ 2097)) as [Hlt|Hge]; [plia|].
  assert (Hl : 2097 <= Z.log2 m) by (apply Z.log2_le_pow2; plia).
  assert (Hu : Z.log2 m < 2098).
  { apply Z.log2_lt_pow2; [plia|]. fold overflow_threshold. plia. }
  assert (Es : s = 2045) by (subst s; plia).
  rewrite Es in *.
  assert (h < 2 ^ 53).
  { apply (Z.mul_lt_mono_pos_r (2 ^ 2045)); [exact P45|]. plia. }
  assert (h * 2 ^ 2045 <= (2 ^ 53 - 1) * 2 ^ 2045)
    by (apply Z.mul_le_mono_nonneg_r; plia).
  plia.
Qed.

Lemma zodiac_of_finite (a : Z) :
  Z.abs a <= (2 ^ 53 - 1) * 2 ^ 2045 ->
  exists sign, zodiac_from_longitude (FFin a) = Ok sign /\ In sign SIGNS.
Proof.
  intro Ha. pose proof one_pos as H1.
  unfold zodiac_from_longitude, zodiac_index. rewrite of_int_30.
  destruct (floordiv_finite a (30 * one) Ha) as (r & ->); [plia|].
  cbn [bind to_int]. unfold int_mod. cbn [Z.eqb bind].
  pose proof (Z.mod_pos_bound (r ÷ one) 12 ltac:(plia)) as Hb.
  destruct (getitem_nth SIGNS ((r ÷ one) mod 12) Hb) as (sign & _ & Hg).
  exists sign. split; [exact Hg|]. exact (getitem_In _ _ _ Hg).
Qed.

Lemma nakshatra_of_finite (a : Z) :
  Z.abs a <= (2 ^ 53 - 1) * 2 ^ 2045 ->
  exists nak, nakshatra_from_longitude (FFin a) = Ok nak
              /\ In nak NAKSHATRAS.
Proof.
  intro Ha. pose proof one_pos as H1.
  destruct sector_width_facts as (W & HW & Hr & _).
  unfold nakshatra_from_longitude, nakshatra_index.
  rewrite HW. cbn [bind].
  destruct (floordiv_finite a W Ha) as (r & ->); [plia|].
  cbn [bind to_int]. unfold int_mod. cbn [Z.eqb bind].
  pose proof (Z.mod_pos_bound (r ÷ one) 27 ltac:(plia)) as Hb.
  destruct (getitem_nth NAKSHATRAS ((r ÷ one) mod 27) Hb)
    as (nak & _ & Hg).
  exists nak. split; [exact Hg|]. exact (getitem_In _ _ _ Hg).
Qed.

Lemma zodiac_of_non_finite (lon : float) :
  (forall a : Z, lon <> FFin a) ->
  zodiac_from_longitude lon = Raise ValueError.
Proof.
  intro H. destruct lon as [a|[|]|].
  - exfalso. exact (H a eq_refl).
  - vm_compute; reflexivity.
  - vm_compute; reflexivity.
  - vm_compute; reflexivity.
Qed.

Lemma nakshatra_of_non_finite (lon : float) :
  (forall a : Z, lon <> FFin a) ->
  nakshatra_from_longitude lon = Raise ValueError.
Proof.
  intro H. destruct lon as [a|[|]|].
  - exfalso. exact (H a eq_refl).
  - vm_compute; reflexivity.
  - vm_compute; reflexivity.
  - vm_compute; reflexivity.
Qed.

(** X3.  [zodiac_from_longitude] and [nakshatra_from_longitude] return
    an entry of their table for every finite double, however large and
    of either sign, and raise [ValueError] (from [int()] of a NaN
    quotient) on the infinities and on NaN: they never raise
    [IndexError], [ZeroDivisionError] or [OverflowError]. *)
Theorem longitude_classifiers_fail_only_on_non_finite (lon : float) :
  is_double lon = true ->
  ((exists a : Z, lon = FFin a) ->
   (exists sign, zodiac_from_longitude lon = Ok sign /\ In sign SIGNS)
   /\ (exists nak, nakshatra_from_longitude lon = Ok nak
                   /\ In nak NAKSHATRAS))
  /\ ((forall a : Z, lon <> FFin a) ->
      zodiac_from_longitude lon = Raise ValueError
      /\ nakshatra_from_longitude lon = Raise ValueError).
Proof.
  intro Hd. split.
  - intros (a & ->). apply is_double_bounded in Hd.
    split; [exact (zodiac_of_finite a Hd)|exact (nakshatra_of_finite a Hd)].
  - intro Hn. split;
      [exact (zodiac_of_non_finite lon Hn)
      |exact (nakshatra_of_non_finite lon Hn)].
Qed.

Lemma longitude_classifiers_fail_only_on_non_finite_witness :
  is_double (fneg float_max) = true
  /\ (exists sign, zodiac_from_longitude (fneg float_max) = Ok sign)
  /\ (exists nak, nakshatra_from_longitude (fneg float_max) = Ok nak)
  /\ zodiac_from_longitude (FInf true) = Raise ValueError.
Proof.
  assert (Hd : is_double (fneg float_max) = true)
    by (vm_compute; reflexivity).
  split; [exact Hd|].
  destruct (longitude_classifiers_fail_only_on_non_finite _ Hd) as (H & _).
  destruct H as ((sign & Hs & _) & (nak & Hn & _)).
  { eexists. reflexivity. }
  split; [exists sign; exact Hs|]. split; [exists nak; exact Hn|].
  destruct (longitude_classifiers_fail_only_on_non_finite (FInf true)
              eq_refl) as (_ & H').
  destruct H' as (Hz & _); [intros a Ha; discriminate Ha|exact Hz].
Defined.

(** ** Tithi for every pair of longitudes *)

Lemma tithi_of_finite_separation (sun_lon moon_lon : float) (x : Z) :
  fsub moon_lon sun_lon = FFin x ->
  exists d n name,
    tithi_diff sun_lon moon_lon = Ok (FFin d)
    /\ 0 <= d <= 360 * one
    /\ tithi_no sun_lon moon_lon = Ok n
    /\ n = d / (12 * one) /\ 0 <= n <= 30
    /\ (n < 15 <-> d < 180 * one)
    /\ (n = 30 <-> d = 360 * one)
    /\ nth_error TITHIS (Z.to_nat (n mod 15)) = Some name
    /\ tithi_from_longitudes sun_lon moon_lon
       = Ok (fmt_label (paksha_hi_of n) (fst name),
             fmt_label (paksha_hi_of n) (snd name)).
Proof.
  intro Hx. pose proof one_pos as H1.
  assert (P53 : 2 ^ 53 = 9007199254740992) by reflexivity.
  assert (HB : 360 * one = 360 * 2 ^ 1074) by reflexivity.
  pose proof pow2_53_one as H53.
  assert (Hdiff : exists d, tithi_diff sun_lon moon_lon = Ok (FFin d)
                            /\ 0 <= d <= 360 * one).
  { unfold tithi_diff. rewrite Hx, of_int_360, mod_fin by plia.
    destruct (Z.ltb_spec (Z.rem x (360 * one)) 0) as [Hlt|Hge].
    - pose proof (Z.rem_bound_abs x (360 * one) ltac:(plia)) as Hb.
      destruct (round_z_below (Z.rem x (360 * one) + 360 * one)
                  (360 * one) 360 1074) as (r' & -> & Hr' & _); try plia.
      exists r'. split; [reflexivity|plia].
    - pose proof (Z.rem_bound_abs x (360 * one) ltac:(plia)) as Hb.
      eexists. split; [reflexivity|]. plia. }
  destruct Hdiff as (d & Hdiff & Hd).
  assert (Hk : 0 <= d / (12 * one) < 31) by (apply sector_bounds; plia).
  assert (Hno : tithi_no sun_lon moon_lon = Ok (d / (12 * one))).
  { unfold tithi_no. rewrite Hdiff. cbn [bind]. rewrite of_int_12.
    rewrite floordiv_floor by plia.
    cbn [bind]. apply to_int_integral. }
  pose proof (Z.mod_pos_bound (d / (12 * one)) 15 ltac:(plia)) as Hm15.
  destruct (getitem_nth TITHIS ((d / (12 * one)) mod 15) Hm15)
    as (name & Hn & Hg).
  pose proof (Z.div_mod d (12 * one) ltac:(plia)) as E.
  pose proof (Z.mod_pos_bound d (12 * one) ltac:(plia)) as B.
  exists d, (d / (12 * one)), name.
  split; [exact Hdiff|]. split; [exact Hd|]. split; [exact Hno|].
  split; [reflexivity|]. split; [plia|].
  clear HB H53.
  split; [split; intro; pnia|]. split; [split; intro; pnia|].
  split; [exact Hn|].
  unfold tithi_from_longitudes. rewrite Hno. cbn [bind].
  unfold int_mod. cbn [Z.eqb bind]. rewrite Hg. reflexivity.
Qed.

Lemma tithi_of_non_finite_separation (sun_lon moon_lon : float) :
  (forall x : Z, fsub moon_lon sun_lon <> FFin x) ->
  tithi_from_longitudes sun_lon moon_lon = Raise ValueError.
Proof.
  intro Hnf.
  unfold tithi_from_longitudes, tithi_no, tithi_diff.
  destruct (fsub moon_lon sun_lon) as [x|[|]|].
  - exfalso. exact (Hnf x eq_refl).
  - vm_compute; reflexivity.
  - vm_compute; reflexivity.
  - vm_compute; reflexivity.
Qed.

(** X4.  [tithi_from_longitudes] returns exactly when the double
    subtraction [moon_lon - sun_lon] is finite.  Then the reduced
    separation [diff] lies in [0, 360] (360.0 included), the index is
    [floor(diff / 12)] in 0..30, below 15 exactly when [diff] is below
    180 and equal to 30 exactly when [diff] is 360.0, and both labels
    are the paksha word of the index followed by entry [index mod 15]
    of the table.  When the subtraction overflows or involves a NaN the
    function raises [ValueError]. *)
Theorem tithi_returns_iff_separation_finite (sun_lon moon_lon : float) :
  (forall x : Z,
      fsub moon_lon sun_lon = FFin x ->
      exists d n name,
        tithi_diff sun_lon moon_lon = Ok (FFin d)
        /\ 0 <= d <= 360 * one
        /\ tithi_no sun_lon moon_lon = Ok n
        /\ n = d / (12 * one) /\ 0 <= n <= 30
        /\ (n < 15 <-> d < 180 * one)
        /\ (n = 30 <-> d = 360 * one)
        /\ nth_error TITHIS (Z.to_nat (n mod 15)) = Some name
        /\ tithi_from_longitudes sun_lon moon_lon
           = Ok (fmt_label (paksha_hi_of n) (fst name),
                 fmt_label (paksha_hi_of n) (snd name)))
  /\ ((forall x : Z, fsub moon_lon sun_lon <> FFin x) ->
      tithi_from_longitudes sun_lon moon_lon = Raise ValueError).
Proof.
  split.
  - exact (tithi_of_finite_separation sun_lon moon_lon).
  - exact (tithi_of_non_finite_separation sun_lon moon_lon).
Qed.

Lemma tithi_returns_iff_separation_finite_witness :
  fsub float_max (FFin 0) = float_max
  /\ (exists labels, tithi_from_longitudes (FFin 0) float_max = Ok labels)
  /\ fsub float_max (fneg float_max) = FInf false
  /\ tithi_from_longitudes (fneg float_max) float_max = Raise ValueError.
Proof.
  assert (E1 : fsub float_max (FFin 0) = float_max)
    by (vm_compute; reflexivity).
  assert (E2 : fsub float_max (fneg float_max) = FInf false)
    by (vm_compute; reflexivity).
  split; [exact E1|]. split.
  - destruct (tithi_returns_iff_separation_finite (FFin 0) float_max)
      as (H & _).
    destruct (H _ E1) as (d & n & name & _ & _ & _ & _ & _ & _ & _ & _ & Hl).
    eexists. exact Hl.
  - split; [exact E2|].
    destruct (tithi_returns_iff_separation_finite (fneg float_max) float_max)
      as (_ & H).
    apply H. intros x Hx. rewrite E2 in Hx. discriminate Hx.
Defined.

(** * Further properties of the endpoint *)

Lemma zodiac_label_in_table (lon : float) (l : label) :
  zodiac_from_longitude lon = Ok l -> In l SIGNS.
Proof.
  unfold zodiac_from_longitude. intro H. bind_inv H.
  exact (getitem_In _ _ _ H).
Qed.

Lemma nakshatra_label_in_table (lon : float) (l : label) :
  nakshatra_from_longitude lon = Ok l -> In l NAKSHATRAS.
Proof.
  unfold nakshatra_from_longitude. intro H. bind_inv H.
  exact (getitem_In _ _ _ H).
Qed.

Lemma tithi_label_shape (sun_lon moon_lon : float) (t : string * string) :
  tithi_from_longitudes sun_lon moon_lon = Ok t ->
  exists paksha name,
    (paksha = shukla_hi \/ paksha = krishna_hi) /\ In name TITHIS
    /\ t = (fmt_label paksha (fst name), fmt_label paksha (snd name)).
Proof.
  unfold tithi_from_longitudes. intro H. do 3 bind_inv H.
  injection H as <-.
  exists (paksha_hi_of x), x1. split; [|split].
  - unfold paksha_hi_of. destruct (x <? 15); [left|right]; reflexivity.
  - exact (getitem_In _ _ _ Hx1).
  - reflexivity.
Qed.

(** X5.  In every response of [/astro], whatever the time zone data and
    the ephemeris return, the Hindi and the English sign of each body
    are the two halves of one row of [SIGNS], the two nakshatra names
    are the two halves of one row of [NAKSHATRAS], and the two tithi
    labels are one paksha word, Shukla or Krishna in Devanagari,
    followed by the two halves of one row of [TITHIS]. *)
Theorem astro_labels_are_table_rows
    (pytz_timezone : string -> option tzinfo)
    (julday : Z -> Z -> Z -> float -> float)
    (calc_ut : float -> body -> result float)
    (round6 : float -> float)
    (date tz : string) (lat lon : float) (r : response) :
  astro pytz_timezone julday calc_ut round6 date tz lat lon = Ok r ->
  In (sign_hi (r_sun r), sign_en (r_sun r)) SIGNS
  /\ In (sign_hi (r_moon r), sign_en (r_moon r)) SIGNS
  /\ In (hi (nakshatra (r_panchang r)), en (nakshatra (r_panchang r)))
        NAKSHATRAS
  /\ exists paksha name,
       (paksha = shukla_hi \/ paksha = krishna_hi) /\ In name TITHIS
       /\ hi (tithi (r_panchang r)) = fmt_label paksha (fst name)
       /\ en (tithi (r_panchang r)) = fmt_label paksha (snd name).
Proof.
  unfold astro. intro H. do 7 bind_inv H. injection H as <-.
  cbn [r_sun r_moon r_panchang sign_hi sign_en tithi nakshatra hi en].
  rewrite <- !surjective_pairing.
  split; [exact (zodiac_label_in_table _ _ Hx2)|].
  split; [exact (zodiac_label_in_table _ _ Hx3)|].
  split; [exact (nakshatra_label_in_table _ _ Hx4)|].
  destruct (tithi_label_shape _ _ _ Hx5) as (paksha & name & Hp & Hn & ->).
  exists paksha, name. repeat split; assumption.
Qed.

Lemma astro_labels_are_table_rows_witness :
  astro sample_timezone sample_julday sample_calc_ut sample_round6
    "2026-02-06" "Asia/Kolkata" (of_ratio 286139 10000)
    (of_ratio 77209 1000) = Ok sample_response
  /\ In (sign_hi (r_sun sample_response), sign_en (r_sun sample_response))
        SIGNS.
Proof.
  assert (E : astro sample_timezone sample_julday sample_calc_ut
                sample_round6 "2026-02-06" "Asia/Kolkata"
                (of_ratio 286139 10000) (of_ratio 77209 1000)
              = Ok sample_response) by (vm_compute; reflexivity).
  split; [exact E|].
  exact (proj1 (astro_labels_are_table_rows sample_timezone sample_julday
           sample_calc_ut sample_round6 "2026-02-06" "Asia/Kolkata"
           (of_ratio 286139 10000) (of_ratio 77209 1000) sample_response E)).
Defined.

Lemma bind_of_ok {A B : Type} (r : result A) (k : A -> result B) (a : A) :
  r = Ok a -> bind r k = k a.
Proof. intros ->. reflexivity. Qed.

(** The response assembled from the results of its steps. *)
Lemma astro_of_steps
    (pytz_timezone : string -> option tzinfo)
    (julday : Z -> Z -> Z -> float -> float)
    (calc_ut : float -> body -> result float)
    (round6 : float -> float)
    (date tz : string) (lat lon : float) (jd sun_lon moon_lon : float)
    (sun_sign moon_sign nak : label) (t : string * string) :
  jd_ut pytz_timezone julday date tz = Ok jd ->
  calc_ut jd SUN = Ok sun_lon -> calc_ut jd MOON = Ok moon_lon ->
  zodiac_from_longitude sun_lon = Ok sun_sign ->
  zodiac_from_longitude moon_lon = Ok moon_sign ->
  nakshatra_from_longitude moon_lon = Ok nak ->
  tithi_from_longitudes sun_lon moon_lon = Ok t ->
  astro pytz_timezone julday calc_ut round6 date tz lat lon
  = Ok {| r_date := date;
          r_timezone := tz;
          r_sun := {| longitude := round6 sun_lon;
                      sign_hi := fst sun_sign;
                      sign_en := snd sun_sign |};
          r_moon := {| longitude := round6 moon_lon;
                       sign_hi := fst moon_sign;
                       sign_en := snd moon_sign |};
          r_panchang := {| tithi := {| hi := fst t; en := snd t |};
                           nakshatra := {| hi := fst nak;
                                           en := snd nak |} |} |}.
Proof.
  intros Hjd Hsun Hmoon Hzs Hzm Hn Ht. unfold astro.
  rewrite (bind_of_ok _ _ _ Hjd). cbv beta.
  rewrite (bind_of_ok _ _ _ Hsun). cbv beta.
  rewrite (bind_of_ok _ _ _ Hmoon). cbv beta.
  rewrite (bind_of_ok _ _ _ Hzs). cbv beta.
  rewrite (bind_of_ok _ _ _ Hzm). cbv beta.
  rewrite (bind_of_ok _ _ _ Hn). cbv beta.
  rewrite (bind_of_ok _ _ _ Ht). reflexivity.
Qed.

(** X6.  Once the time normalizer has produced a Julian day and the
    ephemeris returns both longitudes in [0, 360), [/astro] always
    answers, and the answer is determined as follows: each sign is row
    [floor(lon / 30)] of [SIGNS], the nakshatra is the row of
    [NAKSHATRAS] at the floor of the moon's longitude by the double
    [360 / 27], the tithi is the paksha word of [floor(diff / 12)]
    followed by row [floor(diff / 12) mod 15] of [TITHIS], where [diff]
    is the reduced separation in [0, 360], and the longitudes are
    reported through [round(lon, 6)]. *)
Theorem astro_returns_on_ephemeris_range
    (pytz_timezone : string -> option tzinfo)
    (julday : Z -> Z -> Z -> float -> float)
    (calc_ut : float -> body -> result float)
    (round6 : float -> float)
    (date tz : string) (lat lon : float) (jd : float) (s m W : Z) :
  jd_ut pytz_timezone julday date tz = Ok jd ->
  calc_ut jd SUN = Ok (FFin s) -> calc_ut jd MOON = Ok (FFin m) ->
  0 <= s < 360 * one -> 0 <= m < 360 * one ->
  int_truediv 360 27 = Ok (FFin W) ->
  exists sun_sign moon_sign nak d name,
    nth_error SIGNS (Z.to_nat (s / (30 * one))) = Some sun_sign
    /\ nth_error SIGNS (Z.to_nat (m / (30 * one))) = Some moon_sign
    /\ nth_error NAKSHATRAS (Z.to_nat (m / W)) = Some nak
    /\ tithi_diff (FFin s) (FFin m) = Ok (FFin d) /\ 0 <= d <= 360 * one
    /\ nth_error TITHIS (Z.to_nat ((d / (12 * one)) mod 15)) = Some name
    /\ astro pytz_timezone julday calc_ut round6 date tz lat lon
       = Ok {| r_date := date;
               r_timezone := tz;
               r_sun := {| longitude := round6 (FFin s);
                           sign_hi := fst sun_sign;
                           sign_en := snd sun_sign |};
               r_moon := {| longitude := round6 (FFin m);
                            sign_hi := fst moon_sign;
                            sign_en := snd moon_sign |};
               r_panchang :=
                 {| tithi :=
                      {| hi := fmt_label (paksha_hi_of (d / (12 * one)))
                                         (fst name);
                         en := fmt_label (paksha_hi_of (d / (12 * one)))
                                         (snd name) |};
                    nakshatra := {| hi := fst nak; en := snd nak |} |} |}.
Proof.
  intros Hjd Hsun Hmoon Hs Hm HW. pose proof one_pos as H1.
  assert (Hzs : 0 <= s / (30 * one) < 12) by (apply sector_bounds; plia).
  assert (Hzm : 0 <= m / (30 * one) < 12) by (apply sector_bounds; plia).
  destruct (getitem_nth SIGNS _ Hzs) as (sun_sign & Ens & Egs).
  destruct (getitem_nth SIGNS _ Hzm) as (moon_sign & Enm & Egm).
  destruct (nakshatra_index_in_domain m W HW Hm) as (Hni & Hidx).
  destruct (getitem_nth NAKSHATRAS _ Hni) as (nak & Enn & Egn).
  destruct (tithi_in_domain s m Hs Hm)
    as (d & n & name & Hdiff & Hd & _ & -> & _ & _ & Ent & Hlab).
  exists sun_sign, moon_sign, nak, d, name.
  split; [exact Ens|]. split; [exact Enm|]. split; [exact Enn|].
  split; [exact Hdiff|]. split; [exact Hd|]. split; [exact Ent|].
  assert (Hzs' : zodiac_from_longitude (FFin s) = Ok sun_sign).
  { unfold zodiac_from_longitude.
    rewrite zodiac_index_in_domain by assumption. exact Egs. }
  assert (Hzm' : zodiac_from_longitude (FFin m) = Ok moon_sign).
  { unfold zodiac_from_longitude.
    rewrite zodiac_index_in_domain by assumption. exact Egm. }
  assert (Hn' : nakshatra_from_longitude (FFin m) = Ok nak).
  { unfold nakshatra_from_longitude. rewrite Hidx. exact Egn. }
  exact (astro_of_steps pytz_timezone julday calc_ut round6 date tz lat lon
           jd (FFin s) (FFin m) sun_sign moon_sign nak _
           Hjd Hsun Hmoon Hzs' Hzm' Hn' Hlab).
Qed.

Lemma astro_returns_on_ephemeris_range_witness :
  exists r,
    astro sample_timezone sample_julday sample_calc_ut sample_round6
      "2026-02-06" "Asia/Kolkata" (of_ratio 286139 10000)
      (of_ratio 77209 1000) = Ok r.
Proof.
  pose proof one_pos as H1.
  assert (Ej : jd_ut sample_timezone sample_julday "2026-02-06"
                 "Asia/Kolkata" = Ok (sample_julday 2026 2 6 half))
    by (vm_compute; reflexivity).
  assert (Es : sample_calc_ut (sample_julday 2026 2 6 half) SUN
               = Ok (FFin (5578893851837753 * 2 ^ 1030)))
    by (vm_compute; reflexivity).
  assert (Em : sample_calc_ut (sample_julday 2026 2 6 half) MOON
               = Ok (FFin (3433994715870003 * 2 ^ 1030)))
    by (vm_compute; reflexivity).
  assert (Bs : 0 <= 5578893851837753 * 2 ^ 1030 < 360 * one)
    by (split; [apply Z.leb_le|apply Z.ltb_lt]; vm_compute; reflexivity).
  assert (Bm : 0 <= 3433994715870003 * 2 ^ 1030 < 360 * one)
    by (split; [apply Z.leb_le|apply Z.ltb_lt]; vm_compute; reflexivity).
  assert (EW : int_truediv 360 27
               = Ok (FFin (7505999378950827 * 2 ^ 1025)))
    by (vm_compute; reflexivity).
  destruct (astro_returns_on_ephemeris_range sample_timezone sample_julday
              sample_calc_ut sample_round6 "2026-02-06" "Asia/Kolkata"
              (of_ratio 286139 10000) (of_ratio 77209 1000)
              _ _ _ _ Ej Es Em Bs Bm EW)
    as (sun_sign & moon_sign & nak & d & name & _ & _ & _ & _ & _ & _ & E).
  eexists. exact E.
Defined.

(** ** The hour handed to the ephemeris *)

(** [k / c] for small non-negative integers, as doubles: the quotient
    is off by at most [2^-44]. *)
Lemma fdiv_small_error (k c : Z) :
  0 <= k < 1024 -> 0 < c < 2 ^ 53 ->
  exists r, fdiv (of_int k) (of_int c) = FFin r /\ 0 <= r
            /\ Z.abs (c * r - k * one) <= c * 2 ^ 1030.
Proof.
  intros Hk Hc. pose proof one_pos as H1.
  destruct pow2_facts as (E31 & P30 & _ & _ & E84 & _).
  assert (P53 : 2 ^ 53 = 9007199254740992) by reflexivity.
  rewrite (of_int_exact k), (of_int_exact c) by plia.
  assert (Hc1 : 0 < c * one) by (apply Z.mul_pos_pos; plia).
  unfold fdiv. destruct (Z.eqb_spec (c * one) 0); [plia|].
  rewrite Z.sgn_pos, Z.mul_1_l, (Z.abs_eq (c * one)) by plia.
  assert (Hp : 0 <= k * one * one)
    by (apply Z.mul_nonneg_nonneg; [apply Z.mul_nonneg_nonneg|]; plia).
  assert (Hq : k * one * one / (c * one) < 2 ^ 1084).
  { apply Z.div_lt_upper_bound; [exact Hc1|].
    rewrite E84.
    assert (k * one < 1024 * one) by (apply Z.mul_lt_mono_pos_r; plia).
    assert (1024 * one * one <= c * one * (1024 * one)).
    { replace (c * one * (1024 * one)) with (c * (1024 * one * one)) by ring.
      assert (0 <= 1024 * one * one)
        by (apply Z.mul_nonneg_nonneg; plia).
      assert (1 * (1024 * one * one) <= c * (1024 * one * one))
        by (apply Z.mul_le_mono_nonneg_r; plia).
      plia. }
    assert (k * one * one < 1024 * one * one)
      by (apply Z.mul_lt_mono_pos_r; plia).
    plia. }
  destruct (round_q_error _ _ Hp Hc1 Hq) as (r & -> & Hr & Herr).
  exists r. split; [reflexivity|]. split; [exact Hr|].
  replace (r * (c * one) - k * one * one) with ((c * r - k * one) * one)
    in Herr by ring.
  replace (2 ^ 1030 * (c * one)) with (c * 2 ^ 1030 * one) in Herr by ring.
  rewrite Z.abs_mul, (Z.abs_eq one) in Herr by plia.
  apply (Z.mul_le_mono_pos_r _ _ one); assumption.
Qed.

(** X7.  For every valid [datetime] the fractional hour
    [hour + minute / 60.0 + second / 3600.0] is computed without error
    being raised, lies in [0, 24) and is within [2^-42] hours of the
    exact time of day; it is exactly [hour] on a full hour. *)
Theorem fractional_hour_accuracy (dt : datetime) :
  well_formed dt = true ->
  exists h,
    fractional_hour dt = Ok (FFin h)
    /\ 0 <= h < 24 * one
    /\ Z.abs (3600 * h - second_of_day dt * one) <= 3600 * 2 ^ 1032
    /\ (minute dt = 0 -> second dt = 0 -> h = hour dt * one).
Proof.
  intro Hwf. pose proof one_pos as H1.
  destruct (well_formed_elim dt Hwf) as (_ & Hh & Hm & Hs).
  destruct pow2_facts as (E31 & P30 & L & E1 & E84 & _).
  assert (P53 : 2 ^ 53 = 9007199254740992) by reflexivity.
  assert (E32 : 2 ^ 1032 = 4 * 2 ^ 1030).
  { change 1032 with (Z.succ 1031). rewrite Z.pow_succ_r by plia. plia. }
  assert (L44 : 4096 * 2 ^ 1032 <= one).
  { assert (E44 : 2 ^ 1044 = 2 ^ 12 * 2 ^ 1032)
      by (rewrite <- Z.pow_add_r by plia; reflexivity).
    assert (2 ^ 1044 <= one) by (unfold one; apply Z.pow_le_mono_r; plia).
    change (2 ^ 12) with 4096 in E44. plia. }
  assert (Bh : 0 <= hour dt * one <= 23 * one) by pnia.
  assert (Bmi : 0 <= minute dt * one <= 59 * one) by pnia.
  assert (Bse : 0 <= second dt * one <= 59 * one) by pnia.
  rewrite fractional_hour_eq. unfold second_of_day.
  destruct (fdiv_small_error (minute dt) 60) as (rm & Erm & Hrm & Em);
    [plia|plia|].
  destruct (fdiv_small_error (second dt) 3600) as (rs & Ers & Hrs & Es);
    [plia|plia|].
  rewrite Erm, Ers.
  rewrite (of_int_exact (hour dt)) by plia. cbn [fadd].
  set (E30 := 2 ^ 1030) in *.
  assert (Brm : rm <= one) by plia.
  assert (Brs : rs <= one) by plia.
  destruct (round_z_error (hour dt * one + rm))
    as (r1 & R1 & Er1 & Pr1 & _); [plia|].
  specialize (Pr1 ltac:(plia)). rewrite R1. cbn [fadd].
  destruct (round_z_error (r1 + rs)) as (r2 & R2 & Er2 & Pr2 & _); [plia|].
  specialize (Pr2 ltac:(plia)).
  exists r2. split; [rewrite R2; reflexivity|].
  assert (Herr : Z.abs (3600 * r2
                        - (hour dt * 3600 + minute dt * 60 + second dt) * one)
                 <= 3600 * 2 ^ 1032).
  { replace (3600 * r2
             - (hour dt * 3600 + minute dt * 60 + second dt) * one)
      with (3600 * (r2 - (r1 + rs))
            + 3600 * (r1 - (hour dt * one + rm))
            + 60 * (60 * rm - minute dt * one)
            + (3600 * rs - second dt * one)) by ring.
    plia. }
  split; [|split; [exact Herr|]].
  - split; [exact Pr2|].
    assert ((hour dt * 3600 + minute dt * 60 + second dt) * one
            <= 86399 * one) by (apply Z.mul_le_mono_nonneg_r; plia).
    plia.
  - intros Hm0 Hs0. rewrite Hm0 in Erm. rewrite Hs0 in Ers.
    assert (Z60 : fdiv (of_int 0) (of_int 60) = FFin 0)
      by (vm_compute; reflexivity).
    assert (Z3600 : fdiv (of_int 0) (of_int 3600) = FFin 0)
      by (vm_compute; reflexivity).
    assert (rm = 0) by congruence. assert (rs = 0) by congruence.
    subst rm rs. rewrite Z.add_0_r in *.
    assert (Eh : round_z (hour dt * one) = FFin (hour dt * one))
      by (apply round_z_integer; plia).
    assert (r1 = hour dt * one) by congruence. subst r1.
    congruence.
Qed.

Lemma fractional_hour_accuracy_witness :
  exists h,
    fractional_hour (mk_datetime 2026 2 6 0 30 0) = Ok (FFin h)
    /\ 0 <= h < 24 * one.
Proof.
  assert (Hwf : well_formed (mk_datetime 2026 2 6 0 30 0) = true)
    by reflexivity.
  destruct (fractional_hour_accuracy _ Hwf) as (h & E & B & _).
  exists h. split; [exact E|exact B].
Defined.

(** ** The civil date handed to the ephemeris *)

Lemma check_date_fields_elim (y m d : Z) :
  check_date_fields y m d = true ->
  1 <= y <= 9999 /\ 1 <= m <= 12 /\ 1 <= d <= days_in_month y m.
Proof.
  unfold check_date_fields, MINYEAR, MAXYEAR. intro H.
  repeat (apply andb_prop in H; destruct H as [H ?]).
  repeat match goal with
         | H : (_ <=? _) = true |- _ => apply Z.leb_le in H
         end.
  plia.
Qed.

(** Two dates of the calendar with the same ordinal are the same. *)
Lemma toordinal_injective (a b : datetime) :
  well_formed a = true -> well_formed b = true ->
  toordinal a = toordinal b ->
  year a = year b /\ month a = month b /\ day a = day b.
Proof.
  intros Ha Hb E.
  destruct (well_formed_elim a Ha) as (Ca & _).
  destruct (well_formed_elim b Hb) as (Cb & _).
  apply check_date_fields_elim in Ca, Cb.
  pose proof (ord2ymd_ymd2ord (year a) (month a) (day a)
                ltac:(plia) ltac:(plia) ltac:(plia)) as Ra.
  pose proof (ord2ymd_ymd2ord (year b) (month b) (day b)
                ltac:(plia) ltac:(plia) ltac:(plia)) as Rb.
  unfold toordinal in E. rewrite E, Rb in Ra.
  injection Ra as -> -> ->. repeat split.
Qed.

(** X8.  The date and time that reach [swe.julday].  With [off] the UTC
    offset of the zone at 06:00 of the requested date, the UTC anchor
    falls [floor((21600 - off) / 86400)] days after the requested date,
    at [(21600 - off) mod 86400] seconds into that day.  For offsets from
    -18 h (exclusive) to +6 h (inclusive) this is the requested civil
    date itself, [21600 - off] seconds after midnight; for zones further
    east than UTC+06:00 it is the day before. *)
Theorem utc_anchor_civil_date
    (pytz_timezone : string -> option tzinfo)
    (date tz : string) (z : tzinfo) (dt0 dt_utc : datetime) (off : Z) :
  pytz_timezone tz = Some z ->
  strptime_ymd date = Ok dt0 ->
  localize z (mk_datetime (year dt0) (month dt0) (day dt0) 6 0 0) = Ok off ->
  anchor_utc pytz_timezone date tz = Ok dt_utc ->
  well_formed dt_utc = true
  /\ toordinal dt_utc = toordinal dt0 + (21600 - off) / 86400
  /\ second_of_day dt_utc = (21600 - off) mod 86400
  /\ (- 64800 < off <= 21600 ->
      year dt_utc = year dt0 /\ month dt_utc = month dt0
      /\ day dt_utc = day dt0 /\ second_of_day dt_utc = 21600 - off)
  /\ (21600 < off <= 108000 -> toordinal dt_utc = toordinal dt0 - 1).
Proof.
  intros Htz Hparse Hloc Hutc.
  destruct (strptime_ymd_ok _ _ Hparse) as (Hh & Hm & Hs & Hc).
  set (naive := mk_datetime (year dt0) (month dt0) (day dt0) 6 0 0) in *.
  assert (Hwf0 : well_formed dt0 = true).
  { destruct dt0 as [y m d h mi s]. cbn in Hh, Hm, Hs, Hc. subst h mi s.
    apply well_formed_intro; [exact Hc|plia..]. }
  assert (Hwf : well_formed naive = true)
    by (apply well_formed_intro; [exact Hc|plia..]).
  assert (Hadd : add_seconds naive (- off) = Ok dt_utc).
  { unfold anchor_utc, anchor_local in Hutc.
    rewrite Htz, (bind_of_ok _ _ _ eq_refl) in Hutc. cbv beta in Hutc.
    rewrite (bind_of_ok _ _ _ Hparse) in Hutc. cbv beta in Hutc.
    rewrite add_six_hours in Hutc by assumption.
    rewrite (bind_of_ok _ _ _ eq_refl) in Hutc. cbv beta in Hutc.
    fold naive in Hutc.
    rewrite (bind_of_ok _ _ _ Hloc) in Hutc. cbv beta in Hutc.
    rewrite (bind_of_ok _ _ _ eq_refl) in Hutc. exact Hutc. }
  destruct (add_seconds_spec naive (- off) Hwf) as [Hok Hov].
  cbv zeta in Hok, Hov.
  assert (Et : timeline_seconds naive + - off
               = toordinal dt0 * 86400 + (21600 - off)).
  { unfold timeline_seconds, second_of_day, toordinal. subst naive.
    cbn [year month day hour minute second]. plia. }
  rewrite Et in Hok, Hov.
  set (t := toordinal dt0 * 86400 + (21600 - off)) in *.
  assert (Hr : 86400 <= t < (MAXORDINAL + 1) * 86400).
  { destruct (Z_le_gt_dec 86400 t) as [H1|H1];
      [destruct (Z_lt_le_dec t ((MAXORDINAL + 1) * 86400)) as [H2|H2]|].
    - split; assumption.
    - rewrite Hov in Hadd by plia. discriminate Hadd.
    - rewrite Hov in Hadd by plia. discriminate Hadd. }
  destruct (Hok Hr) as (dt' & Hadd' & Hwfu & Htl).
  rewrite Hadd in Hadd'. injection Hadd' as <-.
  destruct (well_formed_elim dt_utc Hwfu) as (_ & Bh & Bm & Bs).
  assert (Bsod : 0 <= second_of_day dt_utc < 86400)
    by (unfold second_of_day; plia).
  unfold timeline_seconds in Htl. subst t.
  pose proof (Z.div_mod (21600 - off) 86400 ltac:(plia)) as Ed.
  pose proof (Z.mod_pos_bound (21600 - off) 86400 ltac:(plia)) as Bd.
  assert (Eo : toordinal dt_utc = toordinal dt0 + (21600 - off) / 86400)
    by plia.
  assert (Es : second_of_day dt_utc = (21600 - off) mod 86400) by plia.
  split; [exact Hwfu|]. split; [exact Eo|]. split; [exact Es|]. split.
  - intro Hoff.
    assert (E0 : (21600 - off) / 86400 = 0) by (apply Z.div_small; plia).
    destruct (toordinal_injective dt_utc dt0 Hwfu Hwf0 ltac:(plia))
      as (Ey & Em & Ed').
    repeat split; try assumption. plia.
  - intro Hoff. plia.
Qed.

Lemma utc_anchor_civil_date_witness :
  anchor_utc sample_timezone "2026-02-06" "Etc/GMT-9"
  = Ok (mk_datetime 2026 2 5 21 0 0)
  /\ toordinal (mk_datetime 2026 2 5 21 0 0)
     = toordinal (mk_datetime 2026 2 6 0 0 0) - 1.
Proof.
  assert (E : anchor_utc sample_timezone "2026-02-06" "Etc/GMT-9"
              = Ok (mk_datetime 2026 2 5 21 0 0))
    by (vm_compute; reflexivity).
  split; [exact E|].
  destruct (utc_anchor_civil_date sample_timezone "2026-02-06" "Etc/GMT-9"
              (fixed_offset 32400) (mk_datetime 2026 2 6 0 0 0)
              (mk_datetime 2026 2 5 21 0 0) 32400
              eq_refl eq_refl eq_refl E) as (_ & _ & _ & _ & H).
  apply H. plia.
Defined.

(** ** Where a failure of [/astro] can come from *)

Lemma bind_raise_inv {A B : Type} (r : result A) (k : A -> result B)
    (e : exn) :
  bind r k = Raise e ->
  r = Raise e \/ exists a, r = Ok a /\ k a = Raise e.
Proof.
  destruct r as [a|e0]; simpl; intro H.
  - right. exists a. split; [reflexivity|exact H].
  - left. injection H as ->. reflexivity.
Qed.

Lemma finite_or_not (x : float) :
  (exists a : Z, x = FFin a) \/ (forall a : Z, x <> FFin a).
Proof.
  destruct x as [a| |]; [left; exists a; reflexivity|right..];
    intros a H; discriminate H.
Qed.

(** A subtraction with an infinite or NaN operand is not finite. *)
Lemma fsub_non_finite (x y : float) :
  (forall a : Z, x <> FFin a) \/ (forall a : Z, y <> FFin a) ->
  forall d : Z, fsub x y <> FFin d.
Proof.
  intros H d E. unfold fsub, fadd, fneg in E.
  destruct x as [a|s|], y as [b|t|];
    try discriminate E;
    try (destruct H as [H|H]; [exact (H a eq_refl)|exact (H b eq_refl)]).
  destruct (Bool.eqb s (negb t)); discriminate E.
Qed.

(** X9.  When the ephemeris returns doubles, a failure of [/astro] is
    the failure of the time normalizer, or of one of the two ephemeris
    calls, or else a [ValueError] of the classification, and that only
    when the double subtraction [moon_lon - sun_lon] is not finite (a
    longitude is infinite or NaN, or the difference overflows).  The
    classification raises nothing else: no [IndexError], no
    [ZeroDivisionError], no [OverflowError]. *)
Theorem astro_failure_sources
    (pytz_timezone : string -> option tzinfo)
    (julday : Z -> Z -> Z -> float -> float)
    (calc_ut : float -> body -> result float)
    (round6 : float -> float)
    (date tz : string) (lat lon : float) (e : exn) :
  (forall jd b x, calc_ut jd b = Ok x -> is_double x = true) ->
  astro pytz_timezone julday calc_ut round6 date tz lat lon = Raise e ->
  jd_ut pytz_timezone julday date tz = Raise e
  \/ (exists jd,
         jd_ut pytz_timezone julday date tz = Ok jd
         /\ (calc_ut jd SUN = Raise e
             \/ exists sun_lon, calc_ut jd SUN = Ok sun_lon
                                /\ calc_ut jd MOON = Raise e))
  \/ (e = ValueError
      /\ exists jd sun_lon moon_lon,
           jd_ut pytz_timezone julday date tz = Ok jd
           /\ calc_ut jd SUN = Ok sun_lon
           /\ calc_ut jd MOON = Ok moon_lon
           /\ forall d : Z, fsub moon_lon sun_lon <> FFin d).
Proof.
  intros Hdbl H. unfold astro in H.
  apply bind_raise_inv in H. destruct H as [H|(jd & Hjd & H)];
    [left; exact H|].
  apply bind_raise_inv in H. destruct H as [H|(s & Hs & H)].
  { right; left. exists jd. split; [exact Hjd|left; exact H]. }
  apply bind_raise_inv in H. destruct H as [H|(m & Hm & H)].
  { right; left. exists jd. split; [exact Hjd|].
    right. exists s. split; [exact Hs|exact H]. }
  right; right.
  pose proof (Hdbl _ _ _ Hs) as Ds. pose proof (Hdbl _ _ _ Hm) as Dm.
  assert (Hgoal :
             (e = ValueError /\ forall d : Z, fsub m s <> FFin d) ->
             e = ValueError
             /\ exists jd0 sun_lon moon_lon,
                  jd_ut pytz_timezone julday date tz = Ok jd0
                  /\ calc_ut jd0 SUN = Ok sun_lon
                  /\ calc_ut jd0 MOON = Ok moon_lon
                  /\ forall d : Z, fsub moon_lon sun_lon <> FFin d).
  { intros (He & Hn). split; [exact He|].
    exists jd, s, m. repeat split; assumption. }
  apply Hgoal. clear Hgoal.
  apply bind_raise_inv in H. destruct H as [H|(sun_sign & Hzs & H)].
  { destruct (finite_or_not s) as [(a & ->)|Hn].
    - apply is_double_bounded in Ds.
      destruct (zodiac_of_finite a Ds) as (l & El & _).
      rewrite El in H. discriminate H.
    - rewrite (zodiac_of_non_finite s Hn) in H. injection H as <-.
      split; [reflexivity|]. apply fsub_non_finite. right. exact Hn. }
  apply bind_raise_inv in H. destruct H as [H|(moon_sign & Hzm & H)].
  { destruct (finite_or_not m) as [(a & ->)|Hn].
    - apply is_double_bounded in Dm.
      destruct (zodiac_of_finite a Dm) as (l & El & _).
      rewrite El in H. discriminate H.
    - rewrite (zodiac_of_non_finite m Hn) in H. injection H as <-.
      split; [reflexivity|]. apply fsub_non_finite. left. exact Hn. }
  apply bind_raise_inv in H. destruct H as [H|(nak & Hnk & H)].
  { destruct (finite_or_not m) as [(a & ->)|Hn].
    - apply is_double_bounded in Dm.
      destruct (nakshatra_of_finite a Dm) as (l & El & _).
      rewrite El in H. discriminate H.
    - rewrite (nakshatra_of_non_finite m Hn) in H. injection H as <-.
      split; [reflexivity|]. apply fsub_non_finite. left. exact Hn. }
  apply bind_raise_inv in H. destruct H as [H|(t & Ht & H)];
    [|discriminate H].
  destruct (finite_or_not (fsub m s)) as [(x & Hx)|Hn].
  - destruct (tithi_of_finite_separation s m x Hx)
      as (d & n & name & _ & _ & _ & _ & _ & _ & _ & _ & El).
    rewrite El in H. discriminate H.
  - rewrite (tithi_of_non_finite_separation s m Hn) in H.
    injection H as <-. split; [reflexivity|exact Hn].
Qed.

Lemma astro_failure_sources_witness :
  astro sample_timezone sample_julday (fun _ _ => Ok FNaN) sample_round6
    "2026-02-06" "UTC" (FFin 0) (FFin 0) = Raise ValueError
  /\ jd_ut sample_timezone sample_julday "2026-02-06" "UTC"
     <> Raise ValueError.
Proof.
  assert (E : astro sample_timezone sample_julday (fun _ _ => Ok FNaN)
                sample_round6 "2026-02-06" "UTC" (FFin 0) (FFin 0)
              = Raise ValueError) by (vm_compute; reflexivity).
  assert (Ej : jd_ut sample_timezone sample_julday "2026-02-06" "UTC"
               = Ok (sample_julday 2026 2 6 (FFin (6 * one))))
    by (vm_compute; reflexivity).
  split; [exact E|].
  assert (Hd : forall (jd : float) (b : body) (x : float),
             (fun _ _ => Ok FNaN) jd b = Ok x -> is_double x = true).
  { intros jd b x Hx. injection Hx as <-. reflexivity. }
  destruct (astro_failure_sources sample_timezone sample_julday
              (fun _ _ => Ok FNaN) sample_round6 "2026-02-06" "UTC"
              (FFin 0) (FFin 0) ValueError Hd E)
    as [H|[(jd & Hjd & _)|(_ & jd & s & m & Hjd & _)]];
    rewrite Ej; discriminate.
Defined.
